(** * download_cpap.py: session extraction from STR.edf and DATALOG probing

    A shallow embedding of [download_cpap.py] and the properties of its
    summary-file decoder ([parse_str_edf]), its existence probe
    ([EzShareCard.is_real_file]), the two seconds searches
    ([find_seconds_for_type], [find_seconds_near]) and the download loop
    ([download_datalog]).

    Python values are modelled as follows: [int] as [Z]; [bytes] as
    [list byte]; [str] as [string]; exceptions as the [Raise] branch of
    [result]; the open file as an explicit (content, position) pair; the
    card, the local output directory and the requests sent as an explicit
    world threaded through every call. *)

From Stdlib Require Import ZArith List String Ascii Bool Lia Sorted.
From Stdlib.Strings Require Import Byte.
From stdpp Require Import base gmap strings list.
Import ListNotations.
Open Scope Z_scope.

(** ** Exceptions and results *)

Inductive exn : Type :=
| ValueError          (* int() on a bad literal, tuple unpacking, datetime() *)
| MaskSignalsMissing  (* the ValueError raised by parse_str_edf itself *)
| UnicodeDecodeError  (* bytes.decode() *)
| StructError         (* struct.unpack on a buffer of the wrong length *)
| OSError             (* seek to a negative position *)
| IndexError          (* subscript out of range *)
| OverflowError.      (* date arithmetic leaving years 1..9999 *)

Inductive result (A : Type) : Type :=
| Ok (a : A)
| Raise (e : exn).
Arguments Ok {A} a.
Arguments Raise {A} e.

#[global] Instance result_bind : MBind result := λ A B k r,
  match r with
  | Ok a => k a
  | Raise e => Raise e
  end.

#[global] Instance result_ret : MRet result := λ A a, Ok a.

(** ** The parts of Python's library the program calls *)

Module Py.

(** [str.isspace] on the ASCII range: TAB..CR, FS..US and the space. *)
Definition isspace (c : ascii) : bool :=
  let n := Z.of_N (N_of_ascii c) in
  ((9 <=? n) && (n <=? 13)) || ((28 <=? n) && (n <=? 32)).

Fixpoint lstrip (s : string) : string :=
  match s with
  | String c s' => if isspace c then lstrip s' else s
  | EmptyString => EmptyString
  end.

(** Drops trailing white space: a character is kept when it is not white
    space or when something is kept after it. *)
Fixpoint rstrip (s : string) : string :=
  match s with
  | String c s' =>
      match rstrip s' with
      | EmptyString => if isspace c then EmptyString else String c EmptyString
      | r => String c r
      end
  | EmptyString => EmptyString
  end.

Definition strip (s : string) : string := rstrip (lstrip s).

(** [s.lstrip(c)] and [s.rstrip(c)] for a one-character argument. *)
Fixpoint lstrip_char (c : ascii) (s : string) : string :=
  match s with
  | String a s' => if Ascii.eqb a c then lstrip_char c s' else s
  | EmptyString => EmptyString
  end.

Fixpoint rstrip_char (c : ascii) (s : string) : string :=
  match s with
  | String a s' =>
      match rstrip_char c s' with
      | EmptyString => if Ascii.eqb a c then EmptyString else String a EmptyString
      | r => String a r
      end
  | EmptyString => EmptyString
  end.

(** [s.split(sep)] for a one-character separator. *)
Fixpoint split (sep : ascii) (s : string) : list string :=
  match s with
  | EmptyString => [EmptyString]
  | String c s' =>
      if Ascii.eqb c sep then EmptyString :: split sep s'
      else match split sep s' with
           | w :: ws => String c w :: ws
           | [] => [String c EmptyString]
           end
  end.

(** [sub in s]. *)
Fixpoint contains (sub s : string) : bool :=
  String.prefix sub s ||
  match s with
  | String _ s' => contains sub s'
  | EmptyString => false
  end.

(** [bytes.decode()]. The headers the program decodes are ASCII by the
    EDF format; a byte of 0x80 and above is outside the model and is
    reported as a decoding failure. *)
Definition is_ascii_byte (b : byte) : bool := (Byte.to_N b <? 128)%N.

Definition decode (bs : list byte) : result string :=
  if forallb is_ascii_byte bs then Ok (string_of_list_byte bs)
  else Raise UnicodeDecodeError.

Definition digit_of (c : ascii) : option Z :=
  let n := Z.of_N (N_of_ascii c) in
  if (48 <=? n) && (n <=? 57) then Some (n - 48) else None.

(** The digit part of a decimal literal: digits, with single underscores
    allowed between two digits. [after_digit] tells whether the previous
    character was a digit. *)
Fixpoint int_digits (s : string) (acc : Z) (after_digit : bool) : option Z :=
  match s with
  | EmptyString => if after_digit then Some acc else None
  | String c s' =>
      match digit_of c with
      | Some d => int_digits s' (10 * acc + d) true
      | None =>
          if Ascii.eqb c "_" && after_digit then int_digits s' acc false
          else None
      end
  end.

(** [int(s)] on a [str]: optional white space, optional sign, digit part.
    (The interpreter's limit on the number of digits is not modelled.) *)
Definition int_of_str (s : string) : result Z :=
  let body (t : string) := int_digits t 0 false in
  let r := match strip s with
           | String "-" t => option_map Z.opp (body t)
           | String "+" t => body t
           | t => body t
           end in
  match r with
  | Some z => Ok z
  | None => Raise ValueError
  end.

(** [b[lo:hi]] for constant non-negative bounds. *)
Definition slice {A} (lo hi : nat) (l : list A) : list A :=
  firstn (hi - lo) (skipn lo l).

(** [f"{n:02d}"]: the sign, then the digits padded with zeros to a total
    width of two. *)
Definition digit_char (d : Z) : ascii := ascii_of_N (Z.to_N (48 + d)).

Fixpoint digits_of (fuel : nat) (n : Z) (acc : string) : string :=
  match fuel with
  | O => acc
  | S fuel' =>
      let acc' := String (digit_char (n mod 10)) acc in
      if n <? 10 then acc' else digits_of fuel' (n / 10) acc'
  end.

(** [str(n)] for [0 <= n]. *)
Definition str_of_nonneg (n : Z) : string :=
  digits_of (S (Z.to_nat (Z.log2 n))) n EmptyString.

Fixpoint zfill (width : nat) (s : string) : string :=
  if (String.length s <? width)%nat
  then match width with
       | O => s
       | S w => String "0" (zfill w s)
       end
  else s.

Definition fmt_0d (width : nat) (n : Z) : string :=
  if n <? 0 then String "-" (zfill (width - 1) (str_of_nonneg (- n)))
  else zfill width (str_of_nonneg n).

Definition fmt_02d : Z -> string := fmt_0d 2.

(** [a < b] on [str]: lexicographic on code points. *)
Fixpoint str_ltb (a b : string) : bool :=
  match a, b with
  | EmptyString, EmptyString => false
  | EmptyString, String _ _ => true
  | String _ _, EmptyString => false
  | String x a', String y b' =>
      let nx := N_of_ascii x in
      let ny := N_of_ascii y in
      if (nx <? ny)%N then true
      else if (ny <? nx)%N then false
      else str_ltb a' b'
  end.

End Py.

(** ** [datetime] and [timedelta]

    The proleptic Gregorian calendar of Python's [datetime] module: days are
    counted from 0001-01-01 (ordinal 1) to 9999-12-31 (ordinal 3652059). *)

Module Datetime.

Record datetime : Type := mk_dt {
  year : Z; month : Z; day : Z;
  hour : Z; minute : Z; second : Z
}.

Definition MINYEAR : Z := 1.
Definition MAXYEAR : Z := 9999.
Definition MAXORDINAL : Z := 3652059.

Definition DAYS_IN_MONTH : list Z :=
  [-1; 31; 28; 31; 30; 31; 30; 31; 31; 30; 31; 30; 31].
Definition DAYS_BEFORE_MONTH : list Z :=
  [-1; 0; 31; 59; 90; 120; 151; 181; 212; 243; 273; 304; 334].

Definition is_leap (y : Z) : bool :=
  (y mod 4 =? 0) && (negb (y mod 100 =? 0) || (y mod 400 =? 0)).

Definition days_before_year (y : Z) : Z :=
  let y := y - 1 in y * 365 + y / 4 - y / 100 + y / 400.

Definition days_in_month (y m : Z) : Z :=
  if (m =? 2) && is_leap y then 29 else nth (Z.to_nat m) DAYS_IN_MONTH 0.

Definition days_before_month (y m : Z) : Z :=
  nth (Z.to_nat m) DAYS_BEFORE_MONTH 0
  + (if (2 <? m) && is_leap y then 1 else 0).

Definition ymd2ord (y m d : Z) : Z :=
  days_before_year y + days_before_month y m + d.

Definition DI400Y : Z := 146097.
Definition DI100Y : Z := 36524.
Definition DI4Y : Z := 1461.

(** The end of [_ord2ymd]: month and day of the day numbered [n] (from 0)
    within its year. *)
Definition month_of_yday (leapyear : bool) (n : Z) : Z * Z :=
  let m := Z.shiftr (n + 50) 5 in
  let preceding :=
    nth (Z.to_nat m) DAYS_BEFORE_MONTH 0
    + (if (2 <? m) && leapyear then 1 else 0) in
  if n <? preceding then
    let m := m - 1 in
    let preceding :=
      preceding
      - (nth (Z.to_nat m) DAYS_IN_MONTH 0
         + (if (m =? 2) && leapyear then 1 else 0)) in
    (m, n - preceding + 1)
  else (m, n - preceding + 1).

(** [_ord2ymd(n)]. *)
Definition ord2ymd (n : Z) : Z * Z * Z :=
  let n := n - 1 in
  let n400 := n / DI400Y in
  let n := n mod DI400Y in
  let y := n400 * 400 + 1 in
  let n100 := n / DI100Y in
  let n := n mod DI100Y in
  let n4 := n / DI4Y in
  let n := n mod DI4Y in
  let n1 := n / 365 in
  let n := n mod 365 in
  let y := y + n100 * 100 + n4 * 4 + n1 in
  if (n1 =? 4) || (n100 =? 4) then (y - 1, 12, 31)
  else
    let leapyear := (n1 =? 3) && (negb (n4 =? 24) || (n100 =? 3)) in
    let '(m, d) := month_of_yday leapyear n in
    (y, m, d).

(** [datetime(year, month, day, hour, minute, second)]. *)
Definition make (y m d hh mi ss : Z) : result datetime :=
  if (MINYEAR <=? y) && (y <=? MAXYEAR)
     && (1 <=? m) && (m <=? 12)
     && (1 <=? d) && (d <=? days_in_month y m)
     && (0 <=? hh) && (hh <=? 23)
     && (0 <=? mi) && (mi <=? 59)
     && (0 <=? ss) && (ss <=? 59)
  then Ok (mk_dt y m d hh mi ss)
  else Raise ValueError.

Definition toordinal (dt : datetime) : Z :=
  ymd2ord (year dt) (month dt) (day dt).

(** A [timedelta], normalised as Python keeps it: whole days and
    [0 <= seconds < 86400]. *)
Record timedelta : Type := mk_td { td_days : Z; td_seconds : Z }.

Definition MAX_DELTA_DAYS : Z := 999999999.

(** [timedelta(days=d, minutes=m)]. *)
Definition make_delta (d m : Z) : result timedelta :=
  let s := m * 60 in
  let days := d + s / 86400 in
  if (- MAX_DELTA_DAYS <=? days) && (days <=? MAX_DELTA_DAYS)
  then Ok (mk_td days (s mod 86400))
  else Raise OverflowError.

(** [dt + delta]. *)
Definition add (dt : datetime) (delta : timedelta) : result datetime :=
  let s := hour dt * 3600 + minute dt * 60 + second dt + td_seconds delta in
  let days := toordinal dt + td_days delta + s / 86400 in
  let s := s mod 86400 in
  if (0 <? days) && (days <=? MAXORDINAL) then
    let '(y, m, d) := ord2ymd days in
    Ok (mk_dt y m d (s / 3600) ((s mod 3600) / 60) (s mod 60))
  else Raise OverflowError.

(** [dt.replace(hour=.., minute=.., second=..)]. *)
Definition replace_hms (dt : datetime) (hh mi ss : Z) : result datetime :=
  make (year dt) (month dt) (day dt) hh mi ss.

(** [dt.strftime("%Y%m%d")] and [dt.strftime("%H%M")]. *)
Definition strftime_Ymd (dt : datetime) : string :=
  Py.fmt_0d 4 (year dt) +:+ Py.fmt_02d (month dt) +:+ Py.fmt_02d (day dt).

Definition strftime_HM (dt : datetime) : string :=
  Py.fmt_02d (hour dt) +:+ Py.fmt_02d (minute dt).

End Datetime.

Import Datetime.

(** ** The summary file STR.edf *)

(** An open binary file: its content and the current position. *)
Record file : Type := mk_file { content : list byte; position : Z }.

Definition fopen (bs : list byte) : file := mk_file bs 0.

(** [f.seek(p)]: a negative position is refused; one past the end is not. *)
Definition seek (f : file) (p : Z) : result file :=
  if p <? 0 then Raise OSError else Ok (mk_file (content f) p).

(** [f.read(n)]: at most [n] bytes from the position, all the rest for
    [n = -1], and a [ValueError] for a length below -1; the position moves
    past what was read. *)
Definition read (f : file) (n : Z) : result (list byte * file) :=
  if n <? -1 then Raise ValueError
  else
    let rest := skipn (Z.to_nat (position f)) (content f) in
    let bs := if n <? 0 then rest else firstn (Z.to_nat n) rest in
    Ok (bs, mk_file (content f) (position f + Z.of_nat (length bs))).

(** One ["<h"] field: little-endian, two's complement on 16 bits. *)
Definition int16_le (lo hi : byte) : Z :=
  let u := Z.lor (Z.of_N (Byte.to_N lo)) (Z.shiftl (Z.of_N (Byte.to_N hi)) 8) in
  if Z.testbit u 15 then u - 65536 else u.

Fixpoint unpack_shorts (buf : list byte) : list Z :=
  match buf with
  | lo :: hi :: buf' => int16_le lo hi :: unpack_shorts buf'
  | _ => []
  end.

(** [struct.unpack("<" + "h" * n, buf)]: the format has [max 0 n] fields
    (["h" * n] is empty for a negative [n]) and the buffer must have exactly
    two bytes for each. *)
Definition struct_unpack_h (n : Z) (buf : list byte) : result (list Z) :=
  if Z.of_nat (length buf) =? 2 * Z.max 0 n then Ok (unpack_shorts buf)
  else Raise StructError.

(** [int(b.decode().strip())] and [b.decode().strip()]. *)
Definition decode_strip (bs : list byte) : result string :=
  s ← Py.decode bs; Ok (Py.strip s).

Definition decode_int (bs : list byte) : result Z :=
  s ← decode_strip bs; Py.int_of_str s.

(** [a, b, c = l]. *)
Definition unpack3 (l : list string) : result (string * string * string) :=
  match l with
  | [a; b; c] => Ok (a, b, c)
  | _ => Raise ValueError
  end.

(** [2000 + int(yy) if int(yy) < 85 else 1900 + int(yy)]. *)
Definition year_of_yy (yy : Z) : Z :=
  if yy <? 85 then 2000 + yy else 1900 + yy.

(** Lines 87-92: [start_dt]. *)
Definition header_start_dt (header : list byte) : result datetime :=
  date_str ← decode_strip (Py.slice 168 176 header);
  time_str ← decode_strip (Py.slice 176 184 header);
  '(dd, mm, yy) ← unpack3 (Py.split "." date_str);
  '(hh, mi, ss) ← unpack3 (Py.split "." time_str);
  y ← Py.int_of_str yy;
  let year := year_of_yy y in
  m ← Py.int_of_str mm;
  d ← Py.int_of_str dd;
  h ← Py.int_of_str hh;
  i ← Py.int_of_str mi;
  s ← Py.int_of_str ss;
  Datetime.make year m d h i s.

(** [[int(f.read(8).decode().strip()) for _ in range(n)]]. *)
Fixpoint read_ints (n : nat) (f : file) : result (list Z * file) :=
  match n with
  | O => Ok ([], f)
  | S n' =>
      '(bs, f) ← read f 8;
      v ← decode_int bs;
      '(vs, f) ← read_ints n' f;
      Ok (v :: vs, f)
  end.

(** [[f.read(16).decode().strip() for _ in range(n)]]. *)
Fixpoint read_labels (n : nat) (f : file) : result (list string * file) :=
  match n with
  | O => Ok ([], f)
  | S n' =>
      '(bs, f) ← read f 16;
      v ← decode_strip bs;
      '(vs, f) ← read_labels n' f;
      Ok (v :: vs, f)
  end.

(** [sum(l)]. *)
Definition sum (l : list Z) : Z := fold_left Z.add l 0.

(** Lines 104-110: the last label equal to ["MaskOn"] and the last equal to
    ["MaskOff"], by position. *)
Fixpoint find_mask_from (i : nat) (labels : list string)
    (maskon_idx maskoff_idx : option nat) : option nat * option nat :=
  match labels with
  | [] => (maskon_idx, maskoff_idx)
  | label :: labels' =>
      if String.eqb label "MaskOn"
      then find_mask_from (S i) labels' (Some i) maskoff_idx
      else if String.eqb label "MaskOff"
      then find_mask_from (S i) labels' maskon_idx (Some i)
      else find_mask_from (S i) labels' maskon_idx maskoff_idx
  end.

Definition find_mask (labels : list string) : option nat * option nat :=
  find_mask_from 0 labels None None.

(** What lines 82-102 read before the channels are looked up. *)
Record preamble : Type := mk_preamble {
  num_records : Z;
  num_signals : Z;
  header_bytes : Z;
  start_dt : datetime;
  samples_per_record : list Z;
  labels : list string
}.

Definition read_preamble (f : file) : result (preamble * file) :=
  '(header, f) ← read f 256;
  num_records ← decode_int (Py.slice 236 244 header);
  num_signals ← decode_int (Py.slice 252 256 header);
  header_bytes ← decode_int (Py.slice 184 192 header);
  start_dt ← header_start_dt header;
  let spr_offset := 256 + num_signals * (16 + 80 + 8 + 8 + 8 + 8 + 8 + 80) in
  f ← seek f spr_offset;
  '(samples_per_record, f) ← read_ints (Z.to_nat num_signals) f;
  f ← seek f 256;
  '(labels, f) ← read_labels (Z.to_nat num_signals) f;
  Ok (mk_preamble num_records num_signals header_bytes start_dt
                  samples_per_record labels, f).

(** Where the two marker channels sit inside a data record (lines 115-118).
    Both indices are positions in [labels], which has as many entries as
    [samples_per_record], so the two subscripts are in range. *)
Record layout : Type := mk_layout {
  total_samples : Z;
  maskon_sample_offset : Z;
  maskoff_sample_offset : Z;
  maskon_nsamples : Z;
  maskoff_nsamples : Z
}.

Definition mask_layout (p : preamble) : result layout :=
  match find_mask (labels p) with
  | (Some maskon_idx, Some maskoff_idx) =>
      let spr := samples_per_record p in
      Ok (mk_layout (sum spr)
                    (sum (firstn maskon_idx spr))
                    (sum (firstn maskoff_idx spr))
                    (nth maskon_idx spr 0)
                    (nth maskoff_idx spr 0))
  | _ => Raise MaskSignalsMissing
  end.

(** One entry of the list [parse_str_edf] returns. *)
Record SessionRecord : Type := mk_session {
  record_date : string;
  start_time : datetime;
  duration_min : Z
}.

(** [range(n)]. *)
Definition range (n : Z) : list nat := seq 0 (Z.to_nat n).

(** [t[i]]. *)
Definition getitem (t : list Z) (i : nat) : result Z :=
  match t !! i with
  | Some v => Ok v
  | None => Raise IndexError
  end.

(** Lines 140-160: the body of the loop over sample indices, for the values
    [on] and [off] read at one index. *)
Definition scan_pair (record_date_dt noon : datetime) (on off : Z)
    (sessions : list SessionRecord) : result (list SessionRecord) :=
  if (on <=? 0) || (off <=? 0) then Ok sessions
  else if (on >=? 1440) || (off >=? 1440) then Ok sessions
  else
    let duration := off - on in
    if duration <=? 0 then Ok sessions
    else
      delta ← Datetime.make_delta 0 on;
      session_start ← Datetime.add noon delta;
      Ok (sessions ++ [mk_session (Datetime.strftime_Ymd record_date_dt)
                                  session_start duration]).

(** Lines 139-160: the loop over sample indices. *)
Fixpoint scan_samples (idxs : list nat) (record_date_dt noon : datetime)
    (maskon_vals maskoff_vals : list Z) (sessions : list SessionRecord)
    : result (list SessionRecord) :=
  match idxs with
  | [] => Ok sessions
  | i :: idxs' =>
      on ← getitem maskon_vals i;
      off ← getitem maskoff_vals i;
      sessions ← scan_pair record_date_dt noon on off sessions;
      scan_samples idxs' record_date_dt noon maskon_vals maskoff_vals sessions
  end.

(** Lines 124-125: the record's day and its noon. *)
Definition record_day (p : preamble) (rec_idx : nat)
    : result (datetime * datetime) :=
  delta ← Datetime.make_delta (Z.of_nat rec_idx) 0;
  record_date_dt ← Datetime.add (start_dt p) delta;
  noon ← Datetime.replace_hms record_date_dt 12 0 0;
  Ok (record_date_dt, noon).

(** Lines 127-137: the samples of the two marker channels in one record. *)
Definition read_markers (p : preamble) (lay : layout) (rec_idx : nat)
    (f : file) : result (list Z * list Z * file) :=
  let rec_start := header_bytes p + Z.of_nat rec_idx * total_samples lay * 2 in
  f ← seek f (rec_start + maskon_sample_offset lay * 2);
  '(buf, f) ← read f (maskon_nsamples lay * 2);
  maskon_vals ← struct_unpack_h (maskon_nsamples lay) buf;
  f ← seek f (rec_start + maskoff_sample_offset lay * 2);
  '(buf, f) ← read f (maskoff_nsamples lay * 2);
  maskoff_vals ← struct_unpack_h (maskoff_nsamples lay) buf;
  Ok (maskon_vals, maskoff_vals, f).

(** Lines 122-160: the body of the loop over records. *)
Definition scan_record (p : preamble) (lay : layout) (rec_idx : nat)
    (f : file) (sessions : list SessionRecord)
    : result (list SessionRecord * file) :=
  '(record_date_dt, noon) ← record_day p rec_idx;
  '(maskon_vals, maskoff_vals, f) ← read_markers p lay rec_idx f;
  sessions ← scan_samples
               (range (Z.min (maskon_nsamples lay) (maskoff_nsamples lay)))
               record_date_dt noon maskon_vals maskoff_vals sessions;
  Ok (sessions, f).

Fixpoint scan_records (p : preamble) (lay : layout) (idxs : list nat)
    (f : file) (sessions : list SessionRecord)
    : result (list SessionRecord) :=
  match idxs with
  | [] => Ok sessions
  | rec_idx :: idxs' =>
      '(sessions, f) ← scan_record p lay rec_idx f sessions;
      scan_records p lay idxs' f sessions
  end.

(** [parse_str_edf(filepath)], on the content of the file at [filepath]. *)
Definition parse_str_edf (bs : list byte) : result (list SessionRecord) :=
  let f := fopen bs in
  '(p, f) ← read_preamble f;
  lay ← mask_layout p;
  scan_records p lay (range (num_records p)) f [].

(** ** The card, the output directory and the requests sent *)

(** What a HEAD request gives back: the two headers the program reads. *)
Record head_response : Type := mk_head {
  head_content_type : option string;    (* Content-Type, when present *)
  head_content_length : option string   (* Content-Length, when present *)
}.

(** What a streamed GET gives back: the Content-Type, the bytes received,
    and whether the stream ended (true) or broke off with a
    [RequestException] after those bytes (false). *)
Record get_response : Type := mk_get {
  get_content_type : option string;
  get_body : list byte;
  get_complete : bool
}.

(** A request either gets a response or raises [requests.RequestException]
    (timeout, connection refused, ...). *)
Inductive outcome (A : Type) : Type :=
| Response (r : A)
| RequestException.
Arguments Response {A} r.
Arguments RequestException {A}.

(** What the program does to the outside, in order. *)
Inductive event : Type :=
| EvHead (url : string) (o : outcome head_response)
| EvGet (url : string) (o : outcome get_response)
| EvSizeMismatch (remote_path : string) (expected actual : Z).

(** [s.endswith(c)] for a one-character argument. *)
Fixpoint endswith_char (c : ascii) (s : string) : bool :=
  match s with
  | EmptyString => false
  | String a EmptyString => Ascii.eqb a c
  | String _ s' => endswith_char c s'
  end.

(** [os.path.join(a, b)] (POSIX). *)
Definition os_path_join (a b : string) : string :=
  match b with
  | String "/" _ => b
  | _ =>
      if String.eqb a "" || endswith_char "/" a then a +:+ b
      else a +:+ "/" +:+ b
  end.

(** The program's constants. *)
Definition DATALOG_TYPES_EARLY : list string := ["EVE"; "CSL"]%string.
Definition DATALOG_TYPES_LATE : list string := ["BRP"; "PLD"; "SAD"]%string.
Definition DATALOG_ALL_TYPES : list string :=
  DATALOG_TYPES_EARLY ++ DATALOG_TYPES_LATE.

(** [f"DATALOG/{dir_date}/{file_date}_{hhmm}{ss}_{ftype}.edf"]. *)
Definition datalog_basename (file_date hhmm ss ftype : string) : string :=
  file_date +:+ "_" +:+ hhmm +:+ ss +:+ "_" +:+ ftype.

Definition datalog_path (dir_date basename ext : string) : string :=
  "DATALOG/" +:+ dir_date +:+ "/" +:+ basename +:+ ext.

Definition edf_path (dir_date file_date hhmm ss ftype : string) : string :=
  datalog_path dir_date (datalog_basename file_date hhmm ss ftype) ".edf".

(** The counters [download_datalog] prints when it is done; it returns the
    first. *)
Record totals : Type := mk_totals {
  total_downloaded : Z;
  total_skipped : Z;
  total_probed : Z;
  total_not_found : Z
}.

(** The device behind the card's address: a state and its answers to the
    two kinds of request, each possibly changing the state. *)
Class Device (remote : Type) : Type := {
  http_head : remote -> string -> outcome head_response * remote;
  http_get : remote -> string -> outcome get_response * remote
}.

Section Card.

Context {remote : Type} {dev : Device remote}.

(** The world: the device, the files of the local file system with their
    content, and the trace of what was done so far. Directories and
    local I/O failures are not modelled. *)
Record world : Type := mk_world {
  net : remote;
  disk : gmap string (list byte);
  trace : list event
}.

(** A computation in the world that returns or raises. *)
Definition prog (A : Type) : Type := world -> result A * world.

#[global] Instance prog_ret : MRet prog := λ A a w, (Ok a, w).

#[global] Instance prog_bind : MBind prog := λ A B k m w,
  match m w with
  | (Ok a, w') => k a w'
  | (Raise e, w') => (Raise e, w')
  end.

Definition lift {A} (r : result A) : prog A := λ w, (r, w).

Definition log (e : event) : prog unit := λ w,
  (Ok tt, mk_world (net w) (disk w) (trace w ++ [e])).

Definition session_head (url : string) : prog (outcome head_response) :=
  λ w,
    let '(o, n) := http_head (net w) url in
    (Ok o, mk_world n (disk w) (trace w ++ [EvHead url o])).

Definition session_get (url : string) : prog (outcome get_response) :=
  λ w,
    let '(o, n) := http_get (net w) url in
    (Ok o, mk_world n (disk w) (trace w ++ [EvGet url o])).

(** [os.path.exists(p) and os.path.getsize(p) == size]. *)
Definition same_size_on_disk (p : string) (size : Z) : prog bool := λ w,
  (Ok match disk w !! p with
      | Some bs => Z.of_nat (length bs) =? size
      | None => false
      end, w).

(** [open(p, "wb")] followed by the writes of [bs]. *)
Definition write_file (p : string) (bs : list byte) : prog unit := λ w,
  (Ok tt, mk_world (net w) (<[p := bs]> (disk w)) (trace w)).

Definition getsize (p : string) : prog Z := λ w,
  (Ok match disk w !! p with
      | Some bs => Z.of_nat (length bs)
      | None => 0
      end, w).

(** The card object: only its base URL matters here. *)
Record EzShareCard : Type := mk_card { base_url : string }.

Definition url_of (card : EzShareCard) (path : string) : string :=
  base_url card +:+ "/" +:+ Py.lstrip_char "/" path.

(** [r.headers.get(name, "")]. *)
Definition header_or_empty (h : option string) : string :=
  match h with Some v => v | None => EmptyString end.

(** Lines 223-227 of [is_real_file], on the response received. *)
Definition classify_head (r : head_response) : result (bool * Z) :=
  let ct := header_or_empty (head_content_type r) in
  if Py.contains "text/html" ct then Ok (false, 0)
  else
    content_length ← match head_content_length r with
                     | Some v => Py.int_of_str v
                     | None => Ok 0
                     end;
    Ok (true, content_length).

(** Lines 221-229 of [is_real_file], on the outcome of the request. *)
Definition classify_outcome (o : outcome head_response) : result (bool * Z) :=
  match o with
  | Response r => classify_head r
  | RequestException => Ok (false, 0)
  end.

Definition is_real_file (card : EzShareCard) (path : string)
    : prog (bool * Z) :=
  o ← session_head (url_of card path);
  lift (classify_outcome o).

Definition is_real_directory (card : EzShareCard) (path : string)
    : prog bool :=
  '(exists_, size) ← is_real_file card (Py.rstrip_char "/" path);
  mret (exists_ && (size =? 0)).

(** [expected_size and actual_size != expected_size], for an [int] or
    [None] as [expected_size]. *)
Definition size_mismatch (expected_size : option Z) (actual_size : Z) : bool :=
  match expected_size with
  | Some n => negb (n =? 0) && negb (actual_size =? n)
  | None => false
  end.

(** [download_file]. The disk being a map from paths to contents,
    [os.makedirs] has nothing to do here and the local file system does not
    fail: a run of the program that raises there has no counterpart. *)
Definition download_file (card : EzShareCard) (remote_path local_path : string)
    (expected_size : option Z) : prog bool :=
  o ← session_get (url_of card remote_path);
  match o with
  | RequestException => mret false
  | Response r =>
      let ct := header_or_empty (get_content_type r) in
      if Py.contains "text/html" ct then mret false
      else
        _ ← write_file local_path (get_body r);
        if get_complete r then
          actual_size ← getsize local_path;
          _ ← (if size_mismatch expected_size actual_size
               then log (EvSizeMismatch remote_path
                           (default 0 expected_size) actual_size)
               else mret tt);
          mret true
        else mret false
  end.

(** *** Probing for the seconds *)

(** A probe counts as a hit when [exists and size > 0]. *)
Definition hit (r : bool * Z) : bool := fst r && (0 <? snd r).

(** The loop of [find_seconds_for_type] over the values [sss] of [ss]. *)
Fixpoint scan_seconds (card : EzShareCard) (dir_date file_date hhmm ftype : string)
    (sss : list nat) : prog (option string * Z) :=
  match sss with
  | [] => mret (None, 0)
  | ss :: sss' =>
      let path := edf_path dir_date file_date hhmm
                           (Py.fmt_02d (Z.of_nat ss)) ftype in
      r ← is_real_file card path;
      if hit r then mret (Some (Py.fmt_02d (Z.of_nat ss)), snd r)
      else scan_seconds card dir_date file_date hhmm ftype sss'
  end.

Definition find_seconds_for_type (card : EzShareCard)
    (dir_date file_date hhmm ftype : string) : prog (option string * Z) :=
  scan_seconds card dir_date file_date hhmm ftype (range 60).

(** [[ref + offset] if offset == 0 else [ref + offset, ref - offset]]. *)
Definition candidates (ref offset : Z) : list Z :=
  if offset =? 0 then [ref + offset] else [ref + offset; ref - offset].

(** The inner loop of [find_seconds_near]: [Some] is its [return]. *)
Fixpoint try_candidates (card : EzShareCard)
    (dir_date file_date hhmm ftype : string) (cands : list Z)
    : prog (option (string * Z)) :=
  match cands with
  | [] => mret None
  | candidate :: cands' =>
      if (candidate <? 0) || (candidate >=? 60)
      then try_candidates card dir_date file_date hhmm ftype cands'
      else
        let ss_str := Py.fmt_02d candidate in
        let path := edf_path dir_date file_date hhmm ss_str ftype in
        r ← is_real_file card path;
        if hit r then mret (Some (ss_str, snd r))
        else try_candidates card dir_date file_date hhmm ftype cands'
  end.

(** The outer loop of [find_seconds_near]. *)
Fixpoint scan_offsets (card : EzShareCard)
    (dir_date file_date hhmm ftype : string) (ref : Z) (offsets : list nat)
    : prog (option string * Z) :=
  match offsets with
  | [] => mret (None, 0)
  | offset :: offsets' =>
      found ← try_candidates card dir_date file_date hhmm ftype
                (candidates ref (Z.of_nat offset));
      match found with
      | Some (ss_str, size) => mret (Some ss_str, size)
      | None => scan_offsets card dir_date file_date hhmm ftype ref offsets'
      end
  end.

Definition find_seconds_near (card : EzShareCard)
    (dir_date file_date hhmm ftype reference_ss : string) (window : Z)
    : prog (option string * Z) :=
  ref ← lift (Py.int_of_str reference_ss);
  scan_offsets card dir_date file_date hhmm ftype ref (range (window + 1)).

Definition default_window : Z := 15.

(** *** The download loop *)

(** Lines 436-452: the loop over the type tags [ftypes], all searched near
    [brp_ss]; [skip_brp] is the [if ftype == "BRP": continue] of the loop
    over the late tags. *)
Fixpoint search_types (card : EzShareCard) (dir_date file_date hhmm brp_ss : string)
    (skip_brp : bool) (ftypes : list string)
    (files : list (string * string * Z)) (t : totals)
    : prog (list (string * string * Z) * totals) :=
  match ftypes with
  | [] => mret (files, t)
  | ftype :: ftypes' =>
      if skip_brp && String.eqb ftype "BRP"
      then search_types card dir_date file_date hhmm brp_ss skip_brp ftypes' files t
      else
        '(ss, size) ← find_seconds_near card dir_date file_date hhmm ftype
                        brp_ss default_window;
        let t := mk_totals (total_downloaded t) (total_skipped t)
                           (total_probed t + 1) (total_not_found t) in
        let files := match ss with
                     | Some ss => files ++ [(ftype, ss, size)]
                     | None => files
                     end in
        search_types card dir_date file_date hhmm brp_ss skip_brp ftypes' files t
  end.

(** Lines 461-473: skip the file or fetch it. *)
Definition fetch_edf (card : EzShareCard) (remote_edf local_edf : string)
    (size : Z) (t : totals) : prog totals :=
  same ← same_size_on_disk local_edf size;
  if same : bool
  then mret (mk_totals (total_downloaded t) (total_skipped t + 1)
                       (total_probed t) (total_not_found t))
  else
    ok ← download_file card remote_edf local_edf (Some size);
    if ok : bool
    then mret (mk_totals (total_downloaded t + 1) (total_skipped t)
                         (total_probed t) (total_not_found t))
    else mret t.

(** Lines 475-483: the checksum file that goes with it. *)
Definition fetch_crc (card : EzShareCard) (remote_crc local_crc : string)
    : prog unit :=
  crc ← is_real_file card remote_crc;
  if hit crc
  then
    same ← same_size_on_disk local_crc (snd crc);
    if same : bool then mret tt
    else
      _ ← download_file card remote_crc local_crc (Some (snd crc));
      mret tt
  else mret tt.

(** Lines 454-483: the loop over the files found for one session. *)
Fixpoint fetch_files (card : EzShareCard) (output_dir dir_date file_date hhmm : string)
    (files : list (string * string * Z)) (t : totals) : prog totals :=
  match files with
  | [] => mret t
  | (ftype, ss, size) :: files' =>
      let basename := datalog_basename file_date hhmm ss ftype in
      let remote_edf := datalog_path dir_date basename ".edf" in
      let remote_crc := datalog_path dir_date basename ".crc" in
      let local_edf := os_path_join output_dir remote_edf in
      let local_crc := os_path_join output_dir remote_crc in
      t ← fetch_edf card remote_edf local_edf size t;
      _ ← fetch_crc card remote_crc local_crc;
      fetch_files card output_dir dir_date file_date hhmm files' t
  end.

(** Lines 413-483: the body of the loop over the sessions of a day. *)
Definition process_session (card : EzShareCard) (output_dir dir_date : string)
    (s : SessionRecord) (t : totals) : prog totals :=
  let start := start_time s in
  let file_date := Datetime.strftime_Ymd start in
  let hhmm := Datetime.strftime_HM start in
  '(brp_ss, brp_size) ← find_seconds_for_type card dir_date file_date hhmm "BRP";
  match brp_ss with
  | None =>
      mret (mk_totals (total_downloaded t) (total_skipped t)
                      (total_probed t + 60)
                      (total_not_found t + Z.of_nat (length DATALOG_ALL_TYPES)))
  | Some brp_ss =>
      n ← lift (Py.int_of_str brp_ss);
      let t := mk_totals (total_downloaded t) (total_skipped t)
                         (total_probed t + (n + 1)) (total_not_found t) in
      let files := [("BRP"%string, brp_ss, brp_size)] in
      '(files, t) ← search_types card dir_date file_date hhmm brp_ss true
                      DATALOG_TYPES_LATE files t;
      '(files, t) ← search_types card dir_date file_date hhmm brp_ss false
                      DATALOG_TYPES_EARLY files t;
      fetch_files card output_dir dir_date file_date hhmm files t
  end.

Fixpoint process_sessions (card : EzShareCard) (output_dir dir_date : string)
    (dir_sessions : list SessionRecord) (t : totals) : prog totals :=
  match dir_sessions with
  | [] => mret t
  | s :: dir_sessions' =>
      t ← process_session card output_dir dir_date s t;
      process_sessions card output_dir dir_date dir_sessions' t
  end.

(** Lines 403-486: the body of the loop over the record days. *)
Definition process_date (card : EzShareCard) (output_dir : string)
    (by_dir : gmap string (list SessionRecord)) (dir_date : string)
    (t : totals) : prog totals :=
  is_dir ← is_real_directory card ("DATALOG/" +:+ dir_date);
  if negb is_dir
  then mret (mk_totals (total_downloaded t) (total_skipped t)
                       (total_probed t + 1) (total_not_found t))
  else process_sessions card output_dir dir_date (by_dir !!! dir_date) t.

Fixpoint process_dates (card : EzShareCard) (output_dir : string)
    (by_dir : gmap string (list SessionRecord)) (dates : list string)
    (t : totals) : prog totals :=
  match dates with
  | [] => mret t
  | dir_date :: dates' =>
      t ← process_date card output_dir by_dir dir_date t;
      process_dates card output_dir by_dir dates' t
  end.

End Card.

(** Lines 378-382: the sessions not older than [cutoff] ([None] when no
    [days_back] is given). *)
Definition before_cutoff (cutoff : option string) (s : SessionRecord) : bool :=
  match cutoff with
  | Some c => negb (String.eqb c "") && Py.str_ltb (record_date s) c
  | None => false
  end.

Definition filter_sessions (cutoff : option string) (sessions : list SessionRecord)
    : list SessionRecord :=
  List.filter (λ s, negb (before_cutoff cutoff s)) sessions.

(** Lines 388-393: the dict [by_dir]. *)
Definition group_by_dir (filtered : list SessionRecord)
    : gmap string (list SessionRecord) :=
  fold_left (λ by_dir s,
               let d := record_date s in
               <[d := default [] (by_dir !! d) ++ [s]]> by_dir)
            filtered ∅.

(** [sorted(l)] on strings. *)
Fixpoint insert_sorted (x : string) (l : list string) : list string :=
  match l with
  | [] => [x]
  | y :: l' => if Py.str_ltb y x then y :: insert_sorted x l' else x :: l
  end.

Definition sorted (l : list string) : list string :=
  fold_right insert_sorted [] l.

Definition zero_totals : totals := mk_totals 0 0 0 0.

(** [download_datalog(card, sessions, output_dir, days_back)], with the
    [cutoff] computed from [days_back] and the clock at lines 374-376 taken
    as the argument. *)
Definition download_datalog {remote : Type} {dev : Device remote}
    (card : EzShareCard) (sessions : list SessionRecord)
    (output_dir : string) (cutoff : option string)
    : prog (remote := remote) totals :=
  let filtered := filter_sessions cutoff sessions in
  match filtered with
  | [] => mret zero_totals
  | _ =>
      let by_dir := group_by_dir filtered in
      let dates := sorted (map fst (map_to_list by_dir)) in
      process_dates card output_dir by_dir dates zero_totals
  end.

(** ** Synthetic summary files

    A writer for files in the layout [parse_str_edf] reads, used to run the
    decoder on concrete inputs: a 256-byte header, then for [ns] signals the
    labels (16 bytes each), 200 bytes per signal of fields the decoder skips,
    the samples per record (8 bytes each) and 32 reserved bytes per signal;
    then the data records, each holding every signal's samples as
    little-endian 16-bit integers. *)

Module Synthetic.

Definition spaces (n : nat) : string := string_of_list_ascii (repeat " "%char n).

(** [s.ljust(n)]. *)
Definition ljust (n : nat) (s : string) : string :=
  s +:+ spaces (n - String.length s).

Definition byte_of_Z (z : Z) : byte :=
  match Byte.of_N (Z.to_N z) with
  | Some b => b
  | None => x00
  end.

(** [struct.pack("<h", v)]. *)
Definition pack_short (v : Z) : list byte :=
  let u := v mod 65536 in
  [byte_of_Z (Z.land u 255); byte_of_Z (Z.shiftr u 8)].

Definition field (n : nat) (s : string) : list byte :=
  list_byte_of_string (ljust n s).

Definition header (date time : string) (ns nrec : Z) : list byte :=
  field 8 "0" ++ field 80 "" ++ field 80 ""
  ++ field 8 date ++ field 8 time
  ++ field 8 (Py.str_of_nonneg (256 + ns * 256))
  ++ field 44 ""
  ++ field 8 (Py.str_of_nonneg nrec)
  ++ field 8 "86400"
  ++ field 4 (Py.str_of_nonneg ns).

Definition signal_headers (labels : list string) (spr : list Z) : list byte :=
  flat_map (field 16) labels
  ++ flat_map (λ _, field 200 "") labels
  ++ flat_map (λ n, field 8 (Py.str_of_nonneg n)) spr
  ++ flat_map (λ _, field 32 "") labels.

(** A data record: for each signal, its samples. *)
Definition data_record (samples : list (list Z)) : list byte :=
  flat_map (flat_map pack_short) samples.

Definition str_edf (date time : string) (labels : list string)
    (spr : list Z) (records : list (list (list Z))) : list byte :=
  header date time (Z.of_nat (length labels)) (Z.of_nat (length records))
  ++ signal_headers labels spr
  ++ flat_map data_record records.

End Synthetic.

(** ** Root files and settings *)

Definition ROOT_FILES : list string :=
  ["STR.edf"; "STR.crc"; "Identification.tgt"; "Identification.crc";
   "journal.dat"; "journal.jnl"]%string.

Definition SETTINGS_FILES : list string := ["sig.dat"; "set.crc"]%string.

Section RootFiles.

Context {remote : Type} {dev : Device remote}.

(** Lines 307-324: the loop of [download_root_files] over the names
    [fnames], on its two counters. *)
Fixpoint root_files_loop (card : EzShareCard) (output_dir : string)
    (fnames : list string) (downloaded skipped : Z) : prog (Z * Z) :=
  match fnames with
  | [] => mret (downloaded, skipped)
  | fname :: fnames' =>
      let local_path := os_path_join output_dir fname in
      '(exists_, remote_size) ← is_real_file card fname;
      if negb exists_
      then root_files_loop card output_dir fnames' downloaded skipped
      else
        same ← same_size_on_disk local_path remote_size;
        if same : bool
        then root_files_loop card output_dir fnames' downloaded (skipped + 1)
        else
          ok ← download_file card fname local_path (Some remote_size);
          if ok : bool
          then root_files_loop card output_dir fnames' (downloaded + 1) skipped
          else root_files_loop card output_dir fnames' downloaded skipped
  end.

(** [download_root_files(card, output_dir)]. *)
Definition download_root_files (card : EzShareCard) (output_dir : string)
    : prog Z :=
  '(downloaded, skipped) ← root_files_loop card output_dir ROOT_FILES 0 0;
  mret downloaded.

(** Lines 337-355: the loop of [download_settings]. *)
Fixpoint settings_loop (card : EzShareCard) (settings_dir : string)
    (fnames : list string) (downloaded skipped : Z) : prog (Z * Z) :=
  match fnames with
  | [] => mret (downloaded, skipped)
  | fname :: fnames' =>
      let remote_path := "SETTINGS/" +:+ fname in
      let local_path := os_path_join settings_dir fname in
      '(exists_, remote_size) ← is_real_file card remote_path;
      if negb exists_
      then settings_loop card settings_dir fnames' downloaded skipped
      else
        same ← same_size_on_disk local_path remote_size;
        if same : bool
        then settings_loop card settings_dir fnames' downloaded (skipped + 1)
        else
          ok ← download_file card remote_path local_path (Some remote_size);
          if ok : bool
          then settings_loop card settings_dir fnames' (downloaded + 1) skipped
          else settings_loop card settings_dir fnames' downloaded skipped
  end.

(** [download_settings(card, output_dir)]. *)
Definition download_settings (card : EzShareCard) (output_dir : string)
    : prog Z :=
  let settings_dir := os_path_join output_dir "SETTINGS" in
  '(downloaded, skipped) ← settings_loop card settings_dir SETTINGS_FILES 0 0;
  mret downloaded.

End RootFiles.

(** ** The cutoff of [download_datalog] *)

(** [-delta] on a [timedelta]. *)
Definition timedelta_neg (delta : timedelta) : result timedelta :=
  let s := - td_seconds delta in
  let days := - td_days delta + s / 86400 in
  if (- MAX_DELTA_DAYS <=? days) && (days <=? MAX_DELTA_DAYS)
  then Ok (mk_td days (s mod 86400))
  else Raise OverflowError.

(** [dt - delta], which is [dt + (-delta)]. *)
Definition datetime_sub (dt : datetime) (delta : timedelta) : result datetime :=
  neg ← timedelta_neg delta;
  Datetime.add dt neg.

(** Lines 374-376: [cutoff], for the reading [now] of the clock (its
    microseconds play no part). *)
Definition cutoff_of (now : datetime) (days_back : option Z)
    : result (option string) :=
  match days_back with
  | None => Ok None
  | Some days_back =>
      delta ← Datetime.make_delta days_back 0;
      dt ← datetime_sub now delta;
      Ok (Some (Datetime.strftime_Ymd dt))
  end.

(** [download_datalog(card, sessions, output_dir, days_back)] as a whole,
    for the reading [now] of the clock: the cutoff is computed before
    anything is requested, and an exception of that computation is not
    caught. *)
Definition download_datalog_since {remote : Type} {dev : Device remote}
    (now : datetime) (card : EzShareCard) (sessions : list SessionRecord)
    (output_dir : string) (days_back : option Z) : prog totals :=
  cutoff ← lift (cutoff_of now days_back);
  download_datalog card sessions output_dir cutoff.

(** * Vocabulary of the properties and simulated inputs *)

(** ** The calendar *)

(** A bounded check, by running [P] on [i], [i+1], ... *)
Fixpoint all_from (fuel : nat) (i : Z) (P : Z -> bool) : bool :=
  match fuel with
  | O => true
  | S fuel' => P i && all_from fuel' (i + 1) P
  end.

(** A month and a day that exist in the year [y]. *)
Definition valid_date (y m d : Z) : bool :=
  (1 <=? m) && (m <=? 12) && (1 <=? d) && (d <=? days_in_month y m).

(** Month and day within a year, checked on every day of a common year and
    of a leap year. *)
Definition yday_ok (leap : bool) (n : Z) : bool :=
  let '(m, d) := month_of_yday leap n in
  let y := if leap then 4 else 1 in
  valid_date y m d && (days_before_month y m + d =? n + 1).

(** A [datetime] that the constructor accepts. *)
Definition wf_datetime (dt : datetime) : Prop :=
  Datetime.make (year dt) (month dt) (day dt) (hour dt) (minute dt) (second dt)
  = Ok dt.

(** The date [k] days after the date of [dt], and the time of day [mins]
    minutes after midnight, written without [datetime] arithmetic. *)
Definition date_plus_days (dt : datetime) (k : Z) : Z * Z * Z :=
  ord2ymd (ymd2ord (year dt) (month dt) (day dt) + k).

Definition at_minutes (date : Z * Z * Z) (mins : Z) : datetime :=
  let '(y, m, d) := date in mk_dt y m d (mins / 60) (mins mod 60) 0.

(** ** The summary file *)

(** The validity predicate of a pair of markers. *)
Definition valid_pair (on off : Z) : bool :=
  (0 <? on) && (0 <? off) && (on <? 1440) && (off <? 1440) && (0 <? off - on).

(** A date written as [YYYYMMDD]. *)
Definition format_Ymd (date : Z * Z * Z) : string :=
  let '(y, m, d) := date in Py.fmt_0d 4 y +:+ Py.fmt_02d m +:+ Py.fmt_02d d.

(** Noon of the day with the given ordinal, plus [on] minutes. *)
Definition noon_plus (day_ordinal on : Z) : datetime :=
  let mins := 720 + on in
  at_minutes (ord2ymd (day_ordinal + mins / 1440)) (mins mod 1440).

(** The session the extractor should find for a valid pair: the record's
    day as [YYYYMMDD], its noon plus [on] minutes, and [off - on]. *)
Definition expected_session (start : datetime) (rec_idx : nat) (on off : Z)
    : SessionRecord :=
  mk_session (format_Ymd (date_plus_days start (Z.of_nat rec_idx)))
             (noon_plus (toordinal start + Z.of_nat rec_idx) on)
             (off - on).

(** The valid pairs of a list of marker pairs, in order. *)
Definition valid_pairs (pairs : list (Z * Z)) : list (Z * Z) :=
  List.filter (λ '(on, off), valid_pair on off) pairs.

(** The sessions of the marker pairs of one record. *)
Definition record_sessions (start : datetime) (rec_idx : nat)
    (pairs : list (Z * Z)) : list SessionRecord :=
  map (λ '(on, off), expected_session start rec_idx on off) (valid_pairs pairs).

(** Lines 127-137 for a list of records: the marker values of each. *)
Fixpoint read_all_markers (p : preamble) (lay : layout) (idxs : list nat)
    (f : file) : result (list (list Z * list Z)) :=
  match idxs with
  | [] => Ok []
  | rec_idx :: idxs' =>
      '(maskon_vals, maskoff_vals, f) ← read_markers p lay rec_idx f;
      rows ← read_all_markers p lay idxs' f;
      Ok ((maskon_vals, maskoff_vals) :: rows)
  end.

(** The marker values of a summary file, record by record. *)
Definition marker_table (bs : list byte) : result (list (list Z * list Z)) :=
  '(p, f) ← read_preamble (fopen bs);
  lay ← mask_layout p;
  read_all_markers p lay (range (num_records p)) f.

(** The pairs of a record: the on and off values at the same sample index. *)
Definition row_pairs (row : list Z * list Z) : list (Z * Z) :=
  combine (fst row) (snd row).

(** The sessions expected from a table whose first row is record [i]. *)
Fixpoint table_sessions (start : datetime) (i : nat)
    (table : list (list Z * list Z)) : list SessionRecord :=
  match table with
  | [] => []
  | row :: table' =>
      record_sessions start i (row_pairs row) ++ table_sessions start (S i) table'
  end.


(** The pairs of a table whose first row is record [i], each with the index
    of its record. *)
Fixpoint tagged_pairs (i : nat) (table : list (list Z * list Z))
    : list (nat * (Z * Z)) :=
  match table with
  | [] => []
  | row :: table' => map (pair i) (row_pairs row) ++ tagged_pairs (S i) table'
  end.

(** The valid ones among pairs that carry the index of their record. *)
Definition valid_tagged (pairs : list (nat * (Z * Z))) : list (nat * (Z * Z)) :=
  List.filter (λ '(_, (on, off)), valid_pair on off) pairs.


(** A summary file with the two marker channels, one sample each, and two
    records: record 0 has on=1320, off=1380 and record 1 has on=30, off=90;
    the header's start date is 10.01.24. *)
Definition example_str_edf : list byte :=
  Synthetic.str_edf "10.01.24" "00.00.00" ["MaskOn"; "MaskOff"]%string [1; 1]
    [ [[1320]; [1380]]; [[30]; [90]] ].

(** The same with a third channel and an invalid pair in each record. *)
Definition example_noisy_str_edf : list byte :=
  Synthetic.str_edf "31.12.99" "23.59.59"
    ["Crc16"; "MaskOff"; "MaskOn"]%string [1; 3; 2]
    [ [[7]; [1380; 0; 5]; [1320; 0]]; [[7]; [90; 20; 5]; [30; 1439]] ].

(** A file that starts on 9999-09-09 (the header's year field is 8099) and
    has 114 records, up to 9999-12-31; the last record has the one pair
    [(on, off)], the others have markers 0. *)
Definition example_last_days_str_edf (on off : Z) : list byte :=
  Synthetic.str_edf "9.9.8099" "00.00.00" ["MaskOn"; "MaskOff"]%string [1; 1]
    (repeat [[0]; [0]] 113 ++ [ [[on]; [off]] ]).

(** A file without the marker channels. *)
Definition example_unmarked_str_edf : list byte :=
  Synthetic.str_edf "10.01.24" "00.00.00" ["Crc16"; "Leak"]%string [1; 1]
    [ [[1320]; [1380]] ].



(** A result other than the extractor's own error for missing marker
    channels. *)
Definition not_missing {A} (r : result A) : Prop := r <> Raise MaskSignalsMissing.


(** ** The card *)


(** The order in which the specification has the localized search probe:
    the reference, then +k and -k for k from 1 to the window, without the
    values outside 0..59. *)
Definition near_order (ref window : Z) : list Z :=
  ref :: flat_map (λ k, [ref + Z.of_nat k; ref - Z.of_nat k])
                  (seq 1 (Z.to_nat window)).

(** A value of the seconds field. *)
Definition is_second (c : Z) : bool := (0 <=? c) && (c <? 60).

Definition near_candidates (ref window : Z) : list Z :=
  List.filter is_second (near_order ref window).


(** A probe that is not a hit. *)
Definition miss (o : outcome head_response) : bool :=
  match classify_outcome o with
  | Ok r => negb (hit r)
  | Raise _ => false
  end.

Section Probes.

Context {remote : Type} {dev : Device remote}.

(** A search that probes the seconds of [cands] one after the other and
    stops at the first hit. *)
Fixpoint probe_in_order (card : EzShareCard)
    (dir_date file_date hhmm ftype : string) (cands : list Z)
    : prog (option string * Z) :=
  match cands with
  | [] => mret (None, 0)
  | c :: cands' =>
      r ← is_real_file card
            (edf_path dir_date file_date hhmm (Py.fmt_02d c) ftype);
      if hit r then mret (Some (Py.fmt_02d c), snd r)
      else probe_in_order card dir_date file_date hhmm ftype cands'
  end.

(** The events of probing the seconds of [l], with the outcome of each. *)
Definition probe_events (card : EzShareCard)
    (dir_date file_date hhmm ftype : string)
    (l : list (Z * outcome head_response)) : list event :=
  map (λ '(c, o),
         EvHead (url_of card (edf_path dir_date file_date hhmm
                                       (Py.fmt_02d c) ftype)) o) l.

(** What a search in the order [cands] does, from world [w] to [w']: it
    probes a first part of [cands] that misses, and then either nothing is
    left, or the next probe is a hit and is returned, or the next response
    cannot be read. *)
Definition searched_in_order (card : EzShareCard)
    (dir_date file_date hhmm ftype : string) (cands : list Z)
    (w : @world remote) (res : result (option string * Z)) (w' : @world remote)
    : Prop :=
  disk w' = disk w
  /\ exists misses tail,
      cands = map fst misses ++ tail
      /\ Forall (λ co, miss (snd co) = true) misses
      /\ ((tail = [] /\ res = Ok (None, 0)
           /\ trace w' = trace w
                         ++ probe_events card dir_date file_date hhmm ftype misses)
          \/ (exists c o tail',
                 tail = c :: tail'
                 /\ trace w' = trace w
                               ++ probe_events card dir_date file_date hhmm ftype
                                    (misses ++ [(c, o)])
                 /\ ((exists size, classify_outcome o = Ok (true, size)
                                   /\ 0 < size
                                   /\ res = Ok (Some (Py.fmt_02d c), size))
                     \/ (exists e, classify_outcome o = Raise e
                                   /\ res = Raise e)))).

End Probes.

Section Answers.

Context {remote : Type} {dev : Device remote}.




End Answers.


(** ** Simulated devices *)

(** The answer for a path that does not exist: the card's HTML page. *)
Definition not_found_response : head_response :=
  mk_head (Some "text/html"%string) None.

(** The answer for a file of [size] bytes. *)
Definition file_response (size : string) : head_response :=
  mk_head (Some "text/plain"%string) (Some size).

(** A device that has the files of [files] (URL and Content-Length) and
    answers everything else with its not-found page; a GET gives [body]. *)
Definition device_with (files : list (string * string)) (body : list byte)
    : Device unit :=
  {| http_head := λ _ url,
       (match List.find (λ f, String.eqb (fst f) url) files with
        | Some f => Response (file_response (snd f))
        | None => Response not_found_response
        end, tt);
     http_get := λ _ url,
       (match List.find (λ f, String.eqb (fst f) url) files with
        | Some f => Response (mk_get (Some "text/plain"%string) body true)
        | None => Response (mk_get (Some "text/html"%string) [] true)
        end, tt) |}.

(** A device that cannot be reached. *)
Definition unreachable_device : Device unit :=
  {| http_head := λ _ _, (RequestException, tt);
     http_get := λ _ _, (RequestException, tt) |}.

(** The card at its default address, and a world with nothing stored and
    nothing requested yet. *)
Definition the_card : EzShareCard := mk_card "http://192.168.4.1".

Definition empty_world : @world unit := mk_world tt ∅ [].

(** Devices with a single file of the session of 2024-01-11 10:00, and one
    with none. *)
Definition pld_at_45 : Device unit :=
  device_with
    [("http://192.168.4.1/DATALOG/20240110/20240111_100045_PLD.edf", "4096")]%string
    [].

Definition brp_at_37 : Device unit :=
  device_with
    [("http://192.168.4.1/DATALOG/20240110/20240111_100037_BRP.edf", "123456")]%string
    [].


(** The seconds probed, read off a trace of probes of one session and tag. *)
Definition probed_urls (tr : list event) : list string :=
  flat_map (λ e, match e with EvHead url _ => [url] | _ => [] end) tr.



(** A session of that day, and the day's group. *)
Definition a_session : SessionRecord :=
  mk_session "20240110" (mk_dt 2024 1 11 10 0 0) 60.

Definition a_day : gmap string (list SessionRecord) :=
  group_by_dir [a_session].


(** ** Running the download loop twice *)

(** A HEAD request, as opposed to a GET or a write. *)
Definition is_head (e : event) : bool :=
  match e with EvHead _ _ => true | _ => false end.

(** The file at [local_path] exists and has [size] bytes. *)
Definition has_size (d : gmap string (list byte)) (local_path : string)
    (size : Z) : Prop :=
  exists bs, d !! local_path = Some bs /\ Z.of_nat (length bs) = size.

(** The same as a test. *)
Definition same_size (d : gmap string (list byte)) (local_path : string)
    (size : Z) : bool :=
  match d !! local_path with
  | Some bs => Z.of_nat (length bs) =? size
  | None => false
  end.

(** The files handled so far, fetched or skipped. *)
Definition fetched (t : totals) : Z := total_downloaded t + total_skipped t.

(** The counters of a second run started at [t'], when the first went from
    [t] to [t1]: nothing is downloaded, and what the first run downloaded or
    skipped is skipped. *)
Definition second_run_totals (t t1 t' : totals) : totals :=
  mk_totals (total_downloaded t')
            (total_skipped t' + (fetched t1 - fetched t))
            (total_probed t' + (total_probed t1 - total_probed t))
            (total_not_found t' + (total_not_found t1 - total_not_found t)).

Section Unchanged.

Context {remote : Type} {dev : Device remote}.

Variable n0 : remote.
Variable card : EzShareCard.
Variable output_dir : string.

(** Requests leave the device in the state [n0]. *)
Definition unchanged_remote : Prop :=
  forall url, snd (http_head n0 url) = n0 /\ snd (http_get n0 url) = n0.

(** Every file the device announces with a size is served whole, with that
    number of bytes. *)
Definition sizes_agree : Prop :=
  forall url size,
    classify_outcome (fst (http_head n0 url)) = Ok (true, size) ->
    0 < size ->
    exists r,
      fst (http_get n0 url) = Response r
      /\ Py.contains "text/html" (header_or_empty (get_content_type r)) = false
      /\ get_complete r = true
      /\ Z.of_nat (length (get_body r)) = size.

(** The probe of [path] finds a file of [size] bytes. *)
Definition hits (path : string) (size : Z) : Prop :=
  classify_outcome (fst (http_head n0 (url_of card path))) = Ok (true, size)
  /\ 0 < size.

(** The local copy of [path], if the device has the file, has its size. *)
Definition synced (d : gmap string (list byte)) (path : string) : Prop :=
  forall size, hits path size -> has_size d (os_path_join output_dir path) size.

(** The disk [d'] has every local copy in step that [d] has. *)
Definition covers (d d' : gmap string (list byte)) : Prop :=
  forall dd base ext,
    synced d (datalog_path dd base ext) -> synced d' (datalog_path dd base ext).

(** [m] only probes: it returns [r] and adds the probes [evs] to the
    trace, whatever the disk. *)
Definition probes_only {A} (m : prog A) (r : result A) (evs : list event)
    : Prop :=
  forallb is_head evs = true
  /\ forall w : @world remote,
      net w = n0 -> m w = (r, mk_world n0 (disk w) (trace w ++ evs)).

Definition is_probe {A} (m : prog A) : Prop :=
  exists r evs, probes_only m r evs.

(** A file found by the searches: its tag, seconds and size. *)
Definition file_hits (dd fd hhmm : string) (file : string * string * Z) : Prop :=
  let '(ftype, ss, size) := file in hits (edf_path dd fd hhmm ss ftype) size.

(** An operation on the counters that can be run again: it leaves the
    device as it was and keeps the local copies in step, and run again on
    a disk that kept them so, it only probes and skips. *)
Definition repeatable (op : totals -> prog totals) : Prop :=
  forall t (w : @world remote) t1 w1,
    net w = n0 -> op t w = (Ok t1, w1) ->
    net w1 = n0
    /\ covers (disk w) (disk w1)
    /\ forall t' (w' : @world remote),
        net w' = n0 -> covers (disk w1) (disk w') ->
        exists evs,
          forallb is_head evs = true
          /\ op t' w'
             = (Ok (second_run_totals t t1 t'),
                mk_world n0 (disk w') (trace w' ++ evs)).

End Unchanged.

(** A step that does not touch the counters. *)
Definition keeping {remote : Type} (m : @prog remote unit) (t : totals)
    : @prog remote totals :=
  m ≫= λ _, mret t.


(** The counters after [probed] more probes and [not_found] more misses. *)
Definition bump (probed not_found : Z) (t : totals) : totals :=
  mk_totals (total_downloaded t) (total_skipped t)
            (total_probed t + probed) (total_not_found t + not_found).

(** A device with the directory of the day and one BRP file, announced
    with [size] bytes and served with three bytes. *)
Definition one_brp_device (size : string) : Device unit :=
  device_with
    [("http://192.168.4.1/DATALOG/20240110", "0");
     ("http://192.168.4.1/DATALOG/20240110/20240111_100000_BRP.edf", size)]%string
    [x01; x02; x03].

(** The download loop run on an empty disk, and again on the disk the first
    run left: the counters of both runs. *)
Definition run_twice (dev : Device unit) : result totals * result totals :=
  let first := download_datalog (dev := dev) the_card [a_session] "out" None
                 empty_world in
  let second := download_datalog (dev := dev) the_card [a_session] "out" None
                  (snd first) in
  (fst first, fst second).

(** ** Sessions and the noon-to-noon day *)

(** The minutes from 12:00 of the day with ordinal [N] to [dt]. *)
Definition minutes_after_noon (N : Z) (dt : datetime) : Z :=
  (toordinal dt - N) * 1440 + (hour dt - 12) * 60 + minute dt.

(** A session of the record day with ordinal [N]: it is filed under that
    day, starts on a full minute after its noon and ends before the next
    noon; its calendar day is the record day from 12:00 on and the day after
    before 12:00. *)
Definition in_noon_day (N : Z) (s : SessionRecord) : Prop :=
  record_date s = format_Ymd (ord2ymd N)
  /\ second (start_time s) = 0
  /\ 0 < minutes_after_noon N (start_time s)
  /\ 0 < duration_min s
  /\ minutes_after_noon N (start_time s) + duration_min s < 1440
  /\ toordinal (start_time s) = (if hour (start_time s) <? 12 then N + 1 else N).

(** Where the samples of a marker channel end in the file, for the channel
    at sample offset [offset] with [nsamples] samples, in record [rec_idx]. *)
Definition marker_end (p : preamble) (lay : layout) (rec_idx : nat)
    (offset nsamples : Z) : Z :=
  header_bytes p + Z.of_nat rec_idx * total_samples lay * 2
  + (offset + nsamples) * 2.

(** The last position of [label] in [labels]. *)
Definition last_index (label : string) (labels : list string) (i : nat) : Prop :=
  labels !! i = Some label
  /\ forall k, (i < k)%nat -> labels !! k <> Some label.

(** What the loop over the labels has found in the labels [l] seen so far:
    the last position of [label], or nothing when there is none. *)
Definition last_in (label : string) (l : list string) (o : option nat) : Prop :=
  match o with
  | Some i => last_index label l i
  | None => ~ In label l
  end.

(** ** The searches on a device that does not change *)

Section Searches.

Context {remote : Type} {dev : Device remote}.

Variable n0 : remote.
Variable card : EzShareCard.

(** On the device in state [n0], the probe of the file with the seconds [c]
    is answered and is not a hit. *)
Definition missed (dir_date file_date hhmm ftype : string) (c : Z) : Prop :=
  miss (fst (http_head n0 (url_of card (edf_path dir_date file_date hhmm
                                                 (Py.fmt_02d c) ftype))))
  = true.

(** On the device in state [n0], the file with the seconds [c] is there,
    with [size] bytes. *)
Definition found (dir_date file_date hhmm ftype : string) (c size : Z) : Prop :=
  hits n0 card (edf_path dir_date file_date hhmm (Py.fmt_02d c) ftype) size.

End Searches.

(** [int(f"{c:02d}") == c]. *)
Definition int_of_fmt_02d (c : Z) : bool :=
  match Py.int_of_str (Py.fmt_02d c) with
  | Ok c' => c' =? c
  | Raise _ => false
  end.

(** ** What a run does to the outside *)

(** A HEAD request among [evs] that found a file of [size] bytes, more than
    none, at [url]. *)
Definition confirmed_in (evs : list event) (url : string) (size : Z) : Prop :=
  exists o,
    In (EvHead url o) evs /\ classify_outcome o = Ok (true, size) /\ 0 < size.

(** Every GET among [evs] comes after a HEAD request for the same URL that
    found the file. *)
Definition gets_confirmed (evs : list event) : Prop :=
  forall i url o,
    evs !! i = Some (EvGet url o) ->
    exists size, confirmed_in (take i evs) url size.

(** [s.endswith(suffix)]. *)
Fixpoint ends_with (suffix s : string) : bool :=
  String.eqb s suffix
  || match s with
     | String _ s' => ends_with suffix s'
     | EmptyString => false
     end.

(** A GET for which [download_file] answers True: the response is not the
    HTML page and the stream did not break. *)
Definition get_succeeded (e : event) : bool :=
  match e with
  | EvGet _ (Response r) =>
      negb (Py.contains "text/html" (header_or_empty (get_content_type r)))
      && get_complete r
  | _ => false
  end.

Definition is_edf_get (e : event) : bool :=
  match e with
  | EvGet url _ => ends_with ".edf" url
  | _ => false
  end.

(** The number of .edf files fetched by the requests [evs]. *)
Definition edf_fetched (evs : list event) : Z :=
  Z.of_nat (length (List.filter (λ e, get_succeeded e && is_edf_get e) evs)).

(** The one way a probe raises: [e] is the ValueError of [int] on the
    Content-Length of the response to the last request of [tr], a HEAD
    request that was not answered with the HTML page. *)
Definition bad_length (e : exn) (tr : list event) : Prop :=
  e = ValueError
  /\ exists url r v,
      last tr = Some (EvHead url (Response r))
      /\ Py.contains "text/html" (header_or_empty (head_content_type r)) = false
      /\ head_content_length r = Some v
      /\ Py.int_of_str v = Raise ValueError.

(** How the counters move from [t] to [t'] over the requests [more]: the
    files downloaded are the .edf files fetched, and downloads, skips and
    files given up add up to at most [n]. *)
Definition accounts (n : Z) (t t' : totals) (more : list event) : Prop :=
  total_downloaded t' = total_downloaded t + edf_fetched more
  /\ 0 <= total_skipped t' - total_skipped t
  /\ 0 <= total_not_found t' - total_not_found t
  /\ edf_fetched more + (total_skipped t' - total_skipped t)
     + (total_not_found t' - total_not_found t) <= n
  /\ 0 <= total_probed t' - total_probed t.

Section Steps.

Context {remote : Type} {dev : Device remote}.

Variable card : EzShareCard.
Variable allowed : list event -> string -> string -> option Z -> Prop.
Variable w0 : @world remote.

(** The events of [w] after those of the world [w0] the run started in. *)
Definition events_since (w : @world remote) : list event :=
  drop (length (trace w0)) (trace w).

(** The worlds a run can be in: it starts in [w0], and then probes paths
    and fetches the files that what happened so far allows. *)
Inductive steps : @world remote -> Prop :=
| steps_start : steps w0
| steps_probe w path :
    steps w -> steps (snd (is_real_file card path w))
| steps_fetch w remote_path local_path expected_size :
    steps w ->
    allowed (events_since w) remote_path local_path expected_size ->
    steps (snd (download_file card remote_path local_path expected_size w)).

(** From the world [w], [m] leads to a world of the run, adding the events
    [more] to the trace; when it returns [a] then [Post a more] holds of the
    world reached, and when it raises, it is for the Content-Length of the
    last response. *)
Definition run_ok {A} (m : prog A) (w : @world remote)
    (Post : A -> list event -> @world remote -> Prop) : Prop :=
  exists more,
    trace (snd (m w)) = trace w ++ more
    /\ steps (snd (m w))
    /\ (forall a, fst (m w) = Ok a -> Post a more (snd (m w)))
    /\ (forall e, fst (m w) = Raise e -> bad_length e (trace (snd (m w)))).

End Steps.

(** What [download_datalog] may fetch: a file of a DATALOG directory that a
    HEAD request of the run found, into the same path under the output
    directory, expecting the size found. *)
Definition datalog_fetch (card : EzShareCard) (output_dir : string)
    (evs : list event) (remote_path local_path : string)
    (expected_size : option Z) : Prop :=
  exists dd base ext size,
    (ext = ".edf" \/ ext = ".crc")%string
    /\ remote_path = datalog_path dd base ext
    /\ local_path = os_path_join output_dir remote_path
    /\ expected_size = Some size
    /\ confirmed_in evs (url_of card remote_path) size.

(** A file found by the searches of a session, confirmed among [evs]. *)
Definition file_confirmed (card : EzShareCard) (dd fd hhmm : string)
    (evs : list event) (file : string * string * Z) : Prop :=
  let '(ftype, ss, size) := file in
  confirmed_in evs (url_of card (edf_path dd fd hhmm ss ftype)) size.

(** The type tags a loop over [ftypes] searches for. *)
Definition searched_types (skip_brp : bool) (ftypes : list string) : list string :=
  List.filter (λ ftype, negb (skip_brp && String.eqb ftype "BRP")) ftypes.

(** ** The days and their sessions *)

(** [a < b] on strings, as a relation. *)
Definition str_lt (a b : string) : Prop := Py.str_ltb a b = true.

(** The record days [download_datalog] goes through for the sessions that
    passed the filter, in its order (line 395). *)
Definition days_of (filtered : list SessionRecord) : list string :=
  sorted (map fst (map_to_list (group_by_dir filtered))).

(** The sessions of [sessions] with the record day [d], in their order. *)
Definition sessions_of_day (d : string) (sessions : list SessionRecord)
    : list SessionRecord :=
  List.filter (λ s, String.eqb (record_date s) d) sessions.

(** The sessions the loop over [dates] handles, in its order. *)
Definition sessions_handled (by_dir : gmap string (list SessionRecord))
    (dates : list string) : list SessionRecord :=
  concat (map (λ d, by_dir !!! d) dates).

(** A card that cannot be reached: every HEAD request fails. *)
Definition always_fails {remote : Type} (dev : Device remote) : Prop :=
  forall n url, fst (http_head n url) = RequestException.

(** The URL probed for the directory of the record day [d]. *)
Definition day_url (card : EzShareCard) (d : string) : string :=
  url_of card (Py.rstrip_char "/" ("DATALOG/" +:+ d)).

(** ** Root files and settings *)

Section SyncLoop.

Context {remote : Type} {dev : Device remote}.

(** The loop that [download_root_files] and [download_settings] share, over
    the pairs of the remote and the local path of each file. *)
Fixpoint sync_loop (card : EzShareCard) (files : list (string * string))
    (downloaded skipped : Z) : prog (Z * Z) :=
  match files with
  | [] => mret (downloaded, skipped)
  | (remote_path, local_path) :: files' =>
      '(exists_, remote_size) ← is_real_file card remote_path;
      if negb exists_
      then sync_loop card files' downloaded skipped
      else
        same ← same_size_on_disk local_path remote_size;
        if same : bool
        then sync_loop card files' downloaded (skipped + 1)
        else
          ok ← download_file card remote_path local_path (Some remote_size);
          if ok : bool
          then sync_loop card files' (downloaded + 1) skipped
          else sync_loop card files' downloaded skipped
  end.

End SyncLoop.

(** The remote and local paths of the root files and of the settings. *)
Definition root_paths (output_dir : string) : list (string * string) :=
  map (λ fname, (fname, os_path_join output_dir fname)) ROOT_FILES.

Definition settings_paths (output_dir : string) : list (string * string) :=
  map (λ fname, ("SETTINGS/" +:+ fname,
                 os_path_join (os_path_join output_dir "SETTINGS") fname))
      SETTINGS_FILES.

(** A HEAD request among [evs] that reported a file of [size] bytes at
    [url]. *)
Definition exists_in (evs : list event) (url : string) (size : Z) : Prop :=
  exists o, In (EvHead url o) evs /\ classify_outcome o = Ok (true, size).

(** What the loop over [files] may fetch: one of the files, to its local
    path, when a HEAD request of the run reported it, expecting the size
    reported. *)
Definition sync_fetch (card : EzShareCard) (files : list (string * string))
    (evs : list event) (remote_path local_path : string)
    (expected_size : option Z) : Prop :=
  exists size,
    In (remote_path, local_path) files
    /\ expected_size = Some size
    /\ exists_in evs (url_of card remote_path) size.

(** The number of files fetched by the requests [evs]. *)
Definition files_fetched (evs : list event) : Z :=
  Z.of_nat (length (List.filter get_succeeded evs)).


(** ** Record days as strings *)

(** The two decimal digits of [n] and the four of [n]. *)
Definition digits2 (n : Z) : string :=
  String (Py.digit_char (n / 10)) (String (Py.digit_char (n mod 10)) EmptyString).

Definition digits4 (n : Z) : string :=
  String (Py.digit_char (n / 1000))
         (String (Py.digit_char (n / 100 mod 10)) (digits2 (n mod 100))).

Definition fmt_as (width : nat) (digits : Z -> string) (n : Z) : bool :=
  String.eqb (Py.fmt_0d width n) (digits n).

(** The ordinal of 1000-01-01, the first day whose year has four digits. *)
Definition FIRST_4_DIGIT_DAY : Z := 364878.

(** A date as one number, [YYYYMMDD]. *)
Definition date_key (date : Z * Z * Z) : Z :=
  let '(y, m, d) := date in y * 10000 + m * 100 + d.

(** ** Running again *)

Section Again.

Context {remote : Type} {dev : Device remote}.

(** Every file of [files] that the device in state [n0] reports is served
    whole, with the number of bytes reported. *)
Definition serves_reported (n0 : remote) (card : EzShareCard)
    (files : list (string * string)) : Prop :=
  forall remote_path local_path size,
    In (remote_path, local_path) files ->
    classify_outcome (fst (http_head n0 (url_of card remote_path)))
    = Ok (true, size) ->
    exists r,
      fst (http_get n0 (url_of card remote_path)) = Response r
      /\ Py.contains "text/html" (header_or_empty (get_content_type r)) = false
      /\ get_complete r = true
      /\ Z.of_nat (length (get_body r)) = size.

(** The probe of each file of [files] can be read, and the local copy of
    each file reported has the size reported. *)
Definition in_step (n0 : remote) (card : EzShareCard)
    (d : gmap string (list byte)) (files : list (string * string)) : Prop :=
  Forall (λ f, exists exists_ size,
               classify_outcome (fst (http_head n0 (url_of card (fst f))))
               = Ok (exists_, size)
               /\ (exists_ = true -> has_size d (snd f) size))
         files.

(** The disk [d'] has the local copies of [files] as [d] has them. *)
Definition same_copies (files : list (string * string))
    (d d' : gmap string (list byte)) : Prop :=
  forall f, In f files -> d' !! snd f = d !! snd f.

(** Run from [w], [m] only probes, writes nothing and returns 0. *)
Definition fetches_nothing (m : prog Z) (w : @world remote) : Prop :=
  exists evs,
    forallb is_head evs = true
    /\ m w = (Ok 0, mk_world (net w) (disk w) (trace w ++ evs)).

End Again.

(** A card with the summary file and one settings file, of three bytes
    each, and the world after both have been fetched. *)
Definition two_files_device : Device unit :=
  device_with
    [("http://192.168.4.1/STR.edf", "3");
     ("http://192.168.4.1/SETTINGS/sig.dat", "3")]%string
    [x01; x02; x03].

Definition after_first_run : @world unit :=
  snd (download_settings (dev := two_files_device) the_card "out"
         (snd (download_root_files (dev := two_files_device) the_card "out"
                 empty_world))).

(** * Properties *)

(** ** The library functions on small inputs *)

Example int_of_str_examples :
  Py.int_of_str " 1_0 " = Ok 10
  /\ Py.int_of_str "-07" = Ok (-7)
  /\ Py.int_of_str "+3" = Ok 3
  /\ Py.int_of_str "" = Raise ValueError
  /\ Py.int_of_str "1__0" = Raise ValueError
  /\ Py.int_of_str "_1" = Raise ValueError
  /\ Py.int_of_str "1 0" = Raise ValueError
  /\ Py.int_of_str "0x10" = Raise ValueError.
Proof. repeat split; reflexivity. Qed.

Example fmt_02d_examples :
  Py.fmt_02d 0 = "00"%string
  /\ Py.fmt_02d 7 = "07"%string
  /\ Py.fmt_02d 59 = "59"%string
  /\ Py.fmt_02d 123 = "123"%string
  /\ Py.fmt_02d (-3) = "-3"%string
  /\ Py.fmt_0d 4 2024 = "2024"%string.
Proof. repeat split; reflexivity. Qed.

Example split_examples :
  Py.split "." "10.01.24" = ["10"; "01"; "24"]%string
  /\ Py.split "." "" = [""]%string
  /\ Py.split "." "a..b." = ["a"; ""; "b"; ""]%string.
Proof. repeat split; reflexivity. Qed.

Example strip_examples :
  Py.strip "  a b  " = "a b"%string
  /\ Py.strip "   " = ""%string
  /\ Py.rstrip_char "/" "a/b//" = "a/b"%string
  /\ Py.lstrip_char "/" "//a/" = "a/"%string.
Proof. repeat split; reflexivity. Qed.

Example contains_examples :
  Py.contains "text/html" "text/html; charset=utf-8" = true
  /\ Py.contains "text/html" "application/xhtml; text/html" = true
  /\ Py.contains "text/html" "text/plain" = false
  /\ Py.contains "text/html" "" = false.
Proof. repeat split; reflexivity. Qed.

Example str_ltb_examples :
  Py.str_ltb "20240109" "20240110" = true
  /\ Py.str_ltb "20240110" "20240110" = false
  /\ Py.str_ltb "2024" "20240110" = true.
Proof. repeat split; reflexivity. Qed.

Example os_path_join_examples :
  os_path_join "out" "DATALOG/x.edf" = "out/DATALOG/x.edf"%string
  /\ os_path_join "out/" "DATALOG/x.edf" = "out/DATALOG/x.edf"%string
  /\ os_path_join "" "DATALOG/x.edf" = "DATALOG/x.edf"%string
  /\ os_path_join "out" "/abs" = "/abs"%string.
Proof. repeat split; reflexivity. Qed.

Example int16_le_examples :
  int16_le x28 x05 = 1320
  /\ int16_le xff xff = -1
  /\ int16_le x00 x80 = -32768
  /\ int16_le xff x7f = 32767.
Proof. repeat split; reflexivity. Qed.

Example calendar_examples :
  ymd2ord 1 1 1 = 1
  /\ ymd2ord 2024 1 10 = 738895
  /\ ymd2ord 9999 12 31 = MAXORDINAL
  /\ ord2ymd 1 = (1, 1, 1)
  /\ ord2ymd 738895 = (2024, 1, 10)
  /\ ord2ymd (ymd2ord 2024 2 29) = (2024, 2, 29)
  /\ ord2ymd (ymd2ord 2000 12 31) = (2000, 12, 31)
  /\ ord2ymd MAXORDINAL = (9999, 12, 31).
Proof. repeat split; reflexivity. Qed.

Example sorted_example :
  sorted ["20240111"; "20240109"; "20240110"]%string
  = ["20240109"; "20240110"; "20240111"]%string.
Proof. reflexivity. Qed.


Lemma all_from_spec fuel : forall i P,
  all_from fuel i P = true ->
  forall j, i <= j < i + Z.of_nat fuel -> P j = true.
Proof.
  induction fuel as [|fuel IH]; intros i P H j Hj; [lia|].
  simpl in H. apply andb_true_iff in H as [H0 H1].
  destruct (Z.eq_dec j i) as [->|Hne]; [exact H0|].
  apply (IH (i + 1) P H1). lia.
Qed.

Lemma yday_ok_common : all_from 365 0 (yday_ok false) = true.
Proof. vm_compute. reflexivity. Qed.

Lemma yday_ok_leap : all_from 366 0 (yday_ok true) = true.
Proof. vm_compute. reflexivity. Qed.

Lemma days_in_month_leap y y' m :
  is_leap y = is_leap y' -> days_in_month y m = days_in_month y' m.
Proof. unfold days_in_month. intros ->. reflexivity. Qed.

Lemma days_before_month_leap y y' m :
  is_leap y = is_leap y' -> days_before_month y m = days_before_month y' m.
Proof. unfold days_before_month. intros ->. reflexivity. Qed.

Lemma month_of_yday_spec y n m d :
  0 <= n < 365 ->
  month_of_yday (is_leap y) n = (m, d) ->
  valid_date y m d = true /\ days_before_month y m + d = n + 1.
Proof.
  intros Hn Hm.
  assert (Hok : yday_ok (is_leap y) n = true).
  { destruct (is_leap y).
    - apply (all_from_spec _ _ _ yday_ok_leap). lia.
    - apply (all_from_spec _ _ _ yday_ok_common). lia. }
  unfold yday_ok in Hok. rewrite Hm in Hok.
  apply andb_true_iff in Hok as [Hv Hd].
  assert (Hl : is_leap (if is_leap y then 4 else 1) = is_leap y)
    by (destruct (is_leap y); reflexivity).
  unfold valid_date in *.
  rewrite (days_in_month_leap _ _ m Hl) in Hv.
  rewrite (days_before_month_leap _ _ m Hl) in Hd.
  split; [exact Hv | lia].
Qed.

Lemma days_before_year_split a b c e :
  0 <= b <= 3 -> 0 <= c <= 24 -> 0 <= e <= 3 ->
  days_before_year (400 * a + 100 * b + 4 * c + e + 1)
  = DI400Y * a + DI100Y * b + DI4Y * c + 365 * e.
Proof.
  intros Hb Hc He. unfold days_before_year, DI400Y, DI100Y, DI4Y.
  replace (400 * a + 100 * b + 4 * c + e + 1 - 1)
    with (400 * a + 100 * b + 4 * c + e) by lia.
  Z.div_mod_to_equations. lia.
Qed.

Lemma is_leap_split a b c e :
  0 <= b <= 3 -> 0 <= c <= 24 -> 0 <= e <= 3 ->
  is_leap (400 * a + 100 * b + 4 * c + e + 1)
  = (e =? 3) && (negb (c =? 24) || (b =? 3)).
Proof.
  intros Hb Hc He. unfold is_leap.
  set (y := 400 * a + 100 * b + 4 * c + e + 1).
  assert (H4 : y mod 4 = (e + 1) mod 4).
  { unfold y. replace (400 * a + 100 * b + 4 * c + e + 1)
      with ((e + 1) + (100 * a + 25 * b + c) * 4) by lia.
    apply Z.mod_add. lia. }
  assert (H100 : y mod 100 = (4 * c + e + 1) mod 100).
  { unfold y. replace (400 * a + 100 * b + 4 * c + e + 1)
      with ((4 * c + e + 1) + (4 * a + b) * 100) by lia.
    apply Z.mod_add. lia. }
  assert (H400 : y mod 400 = (100 * b + 4 * c + e + 1) mod 400).
  { unfold y. replace (400 * a + 100 * b + 4 * c + e + 1)
      with ((100 * b + 4 * c + e + 1) + a * 400) by lia.
    apply Z.mod_add. lia. }
  rewrite H4, H100, H400.
  destruct (Z.eqb_spec e 3) as [->|He3].
  - destruct (Z.eqb_spec c 24) as [->|Hc24].
    + destruct (Z.eqb_spec b 3) as [->|Hb3]; [reflexivity|].
      assert (b = 0 \/ b = 1 \/ b = 2) as [->|[->| ->]] by lia; reflexivity.
    + simpl.
      assert (Hm : (4 * c + 3 + 1) mod 100 <> 0).
      { rewrite Z.mod_small by lia. lia. }
      apply Z.eqb_neq in Hm. rewrite Hm. reflexivity.
  - assert (Hm : (e + 1) mod 4 <> 0).
    { rewrite Z.mod_small by lia. lia. }
    apply Z.eqb_neq in Hm. rewrite Hm. reflexivity.
Qed.

(** [ord2ymd] gives a date of the calendar, and [ymd2ord] leads back. *)
Lemma ord2ymd_spec n y m d :
  1 <= n -> ord2ymd n = (y, m, d) ->
  1 <= y /\ valid_date y m d = true /\ ymd2ord y m d = n.
Proof.
  intros Hn. unfold ord2ymd.
  set (n0 := n - 1).
  set (a := n0 / DI400Y). set (r0 := n0 mod DI400Y).
  set (b := r0 / DI100Y). set (r1 := r0 mod DI100Y).
  set (c := r1 / DI4Y). set (r2 := r1 mod DI4Y).
  set (e := r2 / 365). set (r3 := r2 mod 365).
  assert (Ha : n0 = DI400Y * a + r0 /\ 0 <= r0 < DI400Y /\ 0 <= a).
  { unfold a, r0, DI400Y. pose proof (Z.div_mod n0 146097 ltac:(lia)).
    pose proof (Z.mod_pos_bound n0 146097 ltac:(lia)).
    pose proof (Z.div_pos n0 146097 ltac:(lia) ltac:(lia)). lia. }
  assert (Hb : r0 = DI100Y * b + r1 /\ 0 <= r1 < DI100Y /\ 0 <= b <= 4).
  { unfold b, r1, DI100Y. pose proof (Z.div_mod r0 36524 ltac:(lia)).
    pose proof (Z.mod_pos_bound r0 36524 ltac:(lia)).
    unfold DI400Y in Ha. split; [lia|]. split; [lia|].
    split; [apply Z.div_pos; lia|].
    apply Z.lt_succ_r, Z.div_lt_upper_bound; lia. }
  assert (Hc : r1 = DI4Y * c + r2 /\ 0 <= r2 < DI4Y /\ 0 <= c <= 24).
  { unfold c, r2, DI4Y. pose proof (Z.div_mod r1 1461 ltac:(lia)).
    pose proof (Z.mod_pos_bound r1 1461 ltac:(lia)).
    unfold DI100Y in Hb. split; [lia|]. split; [lia|].
    split; [apply Z.div_pos; lia|].
    apply Z.lt_succ_r, Z.div_lt_upper_bound; lia. }
  assert (He : r2 = 365 * e + r3 /\ 0 <= r3 < 365 /\ 0 <= e <= 4).
  { unfold e, r3. pose proof (Z.div_mod r2 365 ltac:(lia)).
    pose proof (Z.mod_pos_bound r2 365 ltac:(lia)).
    unfold DI4Y in Hc. split; [lia|]. split; [lia|].
    split; [apply Z.div_pos; lia|].
    apply Z.lt_succ_r, Z.div_lt_upper_bound; lia. }
  clearbody a r0 b r1 c r2 e r3.
  unfold DI400Y, DI100Y, DI4Y in Ha, Hb, Hc, He.
  destruct ((e =? 4) || (b =? 4)) eqn:Hlast.
  - (* the last day of a leap year *)
    intros [= <- <- <-].
    apply orb_true_iff in Hlast.
    assert (Hy : exists a' b' c', 0 <= b' <= 3 /\ 0 <= c' <= 24
               /\ 0 <= a'
               /\ a * 400 + 1 + b * 100 + c * 4 + e - 1
                  = 400 * a' + 100 * b' + 4 * c' + 3 + 1
               /\ n0 = DI400Y * a' + DI100Y * b' + DI4Y * c' + 365 * 3 + 365
               /\ (c' = 24 -> b' = 3)).
    { destruct Hlast as [H4|H4]; apply Z.eqb_eq in H4.
      - destruct (Z.eq_dec b 4) as [Hb4|Hb4].
        + exists a, 3, 24. unfold DI400Y, DI100Y, DI4Y. lia.
        + exists a, b, c. unfold DI400Y, DI100Y, DI4Y.
          repeat split; try lia.
      - exists a, 3, 24. unfold DI400Y, DI100Y, DI4Y. lia. }
    destruct Hy as (a' & b' & c' & Hb' & Hc' & Ha' & Hy & Hn0 & Hcb).
    rewrite Hy. split; [lia|].
    assert (Hleap : is_leap (400 * a' + 100 * b' + 4 * c' + 3 + 1) = true).
    { rewrite is_leap_split by lia. simpl.
      destruct (Z.eqb_spec c' 24) as [Hc24|Hc24]; simpl; [|reflexivity].
      apply Z.eqb_eq. auto. }
    split.
    + unfold valid_date, days_in_month. rewrite Hleap. reflexivity.
    + unfold ymd2ord, days_before_month.
      rewrite days_before_year_split by lia. rewrite Hleap. simpl.
      unfold n0 in Hn0. lia.
  - apply orb_false_iff in Hlast as [He4 Hb4].
    apply Z.eqb_neq in He4, Hb4.
    set (leap := (e =? 3) && (negb (c =? 24) || (b =? 3))).
    destruct (month_of_yday leap r3) as [m' d'] eqn:Hmd.
    intros [= <- <- <-].
    assert (Hy : a * 400 + 1 + b * 100 + c * 4 + e
                 = 400 * a + 100 * b + 4 * c + e + 1) by lia.
    rewrite Hy.
    assert (Hleap : is_leap (400 * a + 100 * b + 4 * c + e + 1) = leap).
    { apply is_leap_split; lia. }
    rewrite <- Hleap in Hmd.
    apply month_of_yday_spec in Hmd as [Hv Hd]; [|lia].
    split; [lia|]. split; [exact Hv|].
    unfold ymd2ord. rewrite days_before_year_split by lia.
    unfold DI400Y, DI100Y, DI4Y. unfold n0 in Ha. lia.
Qed.



Lemma days_before_year_mono y : 10000 <= y -> MAXORDINAL <= days_before_year y.
Proof.
  intros Hy. unfold days_before_year, MAXORDINAL.
  Z.div_mod_to_equations. lia.
Qed.

Lemma days_before_month_nonneg y m : 1 <= m -> 0 <= days_before_month y m.
Proof.
  intros Hm. unfold days_before_month.
  assert (0 <= nth (Z.to_nat m) DAYS_BEFORE_MONTH 0).
  { destruct (Z.to_nat m) as [|n] eqn:E; [lia|]. clear E.
    do 12 (destruct n as [|n]; [simpl; lia|]). simpl. destruct n; lia. }
  destruct ((2 <? m) && is_leap y); lia.
Qed.

Lemma ord2ymd_year_bound n y m d :
  1 <= n <= MAXORDINAL -> ord2ymd n = (y, m, d) -> 1 <= y <= MAXYEAR.
Proof.
  intros Hn Ho. apply ord2ymd_spec in Ho as (Hy & Hv & Hr); [|lia].
  split; [exact Hy|]. unfold MAXYEAR.
  destruct (Z_le_gt_dec y 9999) as [Hle|Hgt]; [exact Hle|exfalso].
  pose proof (days_before_year_mono y ltac:(lia)).
  unfold valid_date in Hv.
  repeat (apply andb_true_iff in Hv as [Hv ?]).
  pose proof (days_before_month_nonneg y m ltac:(lia)).
  unfold ymd2ord in Hr. lia.
Qed.

Lemma make_ok y m d hh mi ss dt :
  Datetime.make y m d hh mi ss = Ok dt ->
  dt = mk_dt y m d hh mi ss
  /\ 1 <= y <= MAXYEAR /\ valid_date y m d = true
  /\ 0 <= hh <= 23 /\ 0 <= mi <= 59 /\ 0 <= ss <= 59.
Proof.
  unfold Datetime.make, valid_date, MINYEAR, MAXYEAR.
  destruct (_ && _) eqn:E; [|discriminate].
  intros [= <-]. split; [reflexivity|].
  repeat (apply andb_true_iff in E as [E ?]).
  repeat match goal with
         | H : (_ <=? _) = true |- _ => apply Z.leb_le in H
         end.
  repeat split; try lia.
Qed.

Lemma make_wf y m d hh mi ss dt :
  Datetime.make y m d hh mi ss = Ok dt -> wf_datetime dt.
Proof.
  intros H. pose proof (make_ok _ _ _ _ _ _ _ H) as [-> _].
  exact H.
Qed.

Lemma make_of_valid y m d hh mi ss :
  1 <= y <= MAXYEAR -> valid_date y m d = true ->
  0 <= hh <= 23 -> 0 <= mi <= 59 -> 0 <= ss <= 59 ->
  Datetime.make y m d hh mi ss = Ok (mk_dt y m d hh mi ss).
Proof.
  intros Hy Hv Hh Hm Hs. unfold Datetime.make, MINYEAR.
  unfold valid_date in Hv. unfold MAXYEAR in *.
  repeat (apply andb_true_iff in Hv as [Hv ?]).
  replace (_ && _) with true; [reflexivity|]. symmetry.
  repeat (apply andb_true_iff; split); try assumption; apply Z.leb_le; lia.
Qed.

Lemma toordinal_pos dt : wf_datetime dt -> 1 <= toordinal dt.
Proof.
  intros Hwf. apply make_ok in Hwf as (_ & Hy & Hv & _).
  unfold valid_date in Hv.
  repeat (apply andb_true_iff in Hv as [Hv ?]).
  repeat match goal with
         | H : (_ <=? _) = true |- _ => apply Z.leb_le in H
         end.
  pose proof (days_before_month_nonneg (year dt) (month dt) ltac:(lia)).
  assert (0 <= days_before_year (year dt)).
  { unfold days_before_year. Z.div_mod_to_equations. lia. }
  unfold toordinal, ymd2ord. lia.
Qed.

Lemma make_delta_days k :
  - MAX_DELTA_DAYS <= k <= MAX_DELTA_DAYS ->
  Datetime.make_delta k 0 = Ok (mk_td k 0).
Proof.
  intros Hk. unfold Datetime.make_delta.
  change (0 * 60) with 0. change (0 / 86400) with 0. change (0 mod 86400) with 0.
  rewrite Z.add_0_r.
  replace ((- MAX_DELTA_DAYS <=? k) && (k <=? MAX_DELTA_DAYS)) with true;
    [reflexivity|].
  symmetry. apply andb_true_iff; split; apply Z.leb_le; lia.
Qed.

Lemma make_delta_minutes mins :
  0 <= mins < 1440 ->
  Datetime.make_delta 0 mins = Ok (mk_td 0 (mins * 60)).
Proof.
  intros Hm. unfold Datetime.make_delta.
  rewrite (Z.div_small (mins * 60) 86400), (Z.mod_small (mins * 60) 86400) by lia.
  reflexivity.
Qed.

(** [dt + delta] for a delta that does not go back in time. *)
Lemma add_spec dt delta :
  wf_datetime dt ->
  0 <= td_days delta -> 0 <= td_seconds delta < 86400 ->
  let s := hour dt * 3600 + minute dt * 60 + second dt + td_seconds delta in
  let days := toordinal dt + td_days delta + s / 86400 in
  days <= MAXORDINAL ->
  exists y m d,
    ord2ymd days = (y, m, d)
    /\ Datetime.add dt delta
       = Ok (mk_dt y m d (s mod 86400 / 3600) (s mod 86400 mod 3600 / 60)
                   (s mod 86400 mod 60))
    /\ wf_datetime (mk_dt y m d (s mod 86400 / 3600)
                          (s mod 86400 mod 3600 / 60) (s mod 86400 mod 60)).
Proof.
  intros Hwf Hd Hs s days Hmax.
  pose proof (make_ok _ _ _ _ _ _ _ Hwf) as (_ & Hy & Hv & Hh & Hm & Hsec).
  pose proof (toordinal_pos dt Hwf) as Hord.
  assert (Hs0 : 0 <= s) by (unfold s; lia).
  assert (Hq : 0 <= s / 86400) by (apply Z.div_pos; lia).
  assert (Hr : 0 <= s mod 86400 < 86400) by (apply Z.mod_pos_bound; lia).
  assert (Hrange : 1 <= days <= MAXORDINAL).
  { split; [|exact Hmax]. unfold days. clearbody s. lia. }
  destruct (ord2ymd days) as [[y m] d] eqn:E.
  pose proof (ord2ymd_spec _ _ _ _ (proj1 Hrange) E) as (_ & Hv' & _).
  pose proof (ord2ymd_year_bound _ _ _ _ Hrange E) as Hy'.
  exists y, m, d. split; [reflexivity|].
  assert (Hwf' : Datetime.make y m d (s mod 86400 / 3600)
                   (s mod 86400 mod 3600 / 60) (s mod 86400 mod 60)
                 = Ok (mk_dt y m d (s mod 86400 / 3600)
                         (s mod 86400 mod 3600 / 60) (s mod 86400 mod 60))).
  { apply make_of_valid; try assumption.
    - split; [apply Z.div_pos; lia|].
      apply Z.lt_succ_r, Z.div_lt_upper_bound; lia.
    - pose proof (Z.mod_pos_bound (s mod 86400) 3600 ltac:(lia)).
      split; [apply Z.div_pos; lia|].
      apply Z.lt_succ_r, Z.div_lt_upper_bound; lia.
    - pose proof (Z.mod_pos_bound (s mod 86400) 60 ltac:(lia)). lia. }
  split; [|exact Hwf'].
  unfold Datetime.add. fold s. fold days.
  replace ((0 <? days) && (days <=? MAXORDINAL)) with true.
  - rewrite E. reflexivity.
  - symmetry. apply andb_true_iff; split; [apply Z.ltb_lt|apply Z.leb_le]; lia.
Qed.



(** ** The result monad *)

Lemma bind_Ok {A B} (a : A) (k : A -> result B) : Ok a ≫= k = k a.
Proof. reflexivity. Qed.

Lemma bind_Raise {A B} (e : exn) (k : A -> result B) : Raise e ≫= k = Raise e.
Proof. reflexivity. Qed.

Lemma bind_Ok_inv {A B} (r : result A) (k : A -> result B) (b : B) :
  r ≫= k = Ok b -> exists a, r = Ok a /\ k a = Ok b.
Proof. destruct r as [a|e]; [eauto | discriminate]. Qed.

Lemma bind_Raise_inv {A B} (r : result A) (k : A -> result B) (e : exn) :
  r ≫= k = Raise e -> r = Raise e \/ exists a, r = Ok a /\ k a = Raise e.
Proof.
  intros H. destruct r as [a|e']; [right; eauto|].
  left. injection H as ->. reflexivity.
Qed.

Lemma scan_pair_invalid rd noon on off sessions :
  valid_pair on off = false ->
  scan_pair rd noon on off sessions = Ok sessions.
Proof.
  unfold valid_pair, scan_pair. intros H.
  destruct (Z.leb_spec on 0), (Z.leb_spec off 0); simpl; try reflexivity.
  destruct (Z.geb_spec on 1440), (Z.geb_spec off 1440); simpl; try reflexivity.
  destruct (Z.leb_spec (off - on) 0); [reflexivity|].
  exfalso. revert H.
  repeat (rewrite (proj2 (Z.ltb_lt _ _)) by lia). discriminate.
Qed.

Lemma record_day_spec p rec_idx :
  wf_datetime (start_dt p) ->
  toordinal (start_dt p) + Z.of_nat rec_idx <= MAXORDINAL ->
  exists rd noon,
    record_day p rec_idx = Ok (rd, noon)
    /\ Datetime.strftime_Ymd rd
       = format_Ymd (date_plus_days (start_dt p) (Z.of_nat rec_idx))
    /\ wf_datetime noon
    /\ toordinal noon = toordinal (start_dt p) + Z.of_nat rec_idx
    /\ (hour noon, minute noon, second noon) = (12, 0, 0).
Proof.
  intros Hwf Hmax. unfold record_day.
  pose proof (toordinal_pos _ Hwf) as Hpos.
  rewrite make_delta_days by (unfold MAX_DELTA_DAYS, MAXORDINAL in *; lia).
  rewrite bind_Ok.
  pose proof (make_ok _ _ _ _ _ _ _ Hwf) as (_ & _ & _ & Hh & Hm & Hs).
  set (sod := hour (start_dt p) * 3600 + minute (start_dt p) * 60
              + second (start_dt p)).
  assert (Hsod : 0 <= sod < 86400) by (unfold sod; lia).
  destruct (add_spec (start_dt p) (mk_td (Z.of_nat rec_idx) 0) Hwf)
    as (y & m & d & Hord & Hadd & Hwf').
  - simpl. lia.
  - simpl. lia.
  - simpl. fold sod. rewrite Z.add_0_r, (Z.div_small sod) by lia. lia.
  - simpl in Hord, Hadd, Hwf'. fold sod in Hord, Hadd, Hwf'.
    rewrite Z.add_0_r, (Z.div_small sod), Z.add_0_r in Hord by lia.
    rewrite Hadd, bind_Ok. unfold Datetime.replace_hms.
    cbn [year month day].
    pose proof (make_ok _ _ _ _ _ _ _ Hwf') as (_ & Hy' & Hv' & _).
    rewrite (make_of_valid y m d 12 0 0) by (assumption || lia).
    rewrite bind_Ok. eexists _, _. split; [reflexivity|].
    split; [|split; [|split]].
    + unfold Datetime.strftime_Ymd, format_Ymd, date_plus_days.
      fold (toordinal (start_dt p)). rewrite Hord. reflexivity.
    + unfold wf_datetime. cbn. apply make_of_valid; assumption || lia.
    + unfold toordinal. cbn [year month day].
      assert (Hn : 1 <= toordinal (start_dt p) + Z.of_nat rec_idx) by lia.
      exact (proj2 (proj2 (ord2ymd_spec _ _ _ _ Hn Hord))).
    + reflexivity.
Qed.

Lemma noon_seconds on :
  0 < on < 1440 ->
  let s := 12 * 3600 + 0 * 60 + 0 + on * 60 in
  s / 86400 = (720 + on) / 1440
  /\ s mod 86400 / 3600 = (720 + on) mod 1440 / 60
  /\ s mod 86400 mod 3600 / 60 = (720 + on) mod 1440 mod 60
  /\ s mod 86400 mod 60 = 0.
Proof.
  intros Hon s.
  assert (Hs : s = 60 * (720 + on)) by (unfold s; lia).
  clearbody s. subst s.
  set (t := 720 + on). assert (Ht : 720 < t < 2160) by (unfold t; lia).
  clearbody t.
  destruct (Z_lt_ge_dec t 1440) as [Hlt|Hge].
  - rewrite (Z.div_small t 1440), (Z.mod_small t 1440) by lia.
    rewrite (Z.div_small (60 * t) 86400), (Z.mod_small (60 * t) 86400) by lia.
    Z.div_mod_to_equations. lia.
  - assert (Hq : t / 1440 = 1) by (Z.div_mod_to_equations; lia).
    assert (Hr : t mod 1440 = t - 1440) by (Z.div_mod_to_equations; lia).
    assert (Hq' : 60 * t / 86400 = 1) by (Z.div_mod_to_equations; lia).
    assert (Hr' : (60 * t) mod 86400 = 60 * (t - 1440))
      by (Z.div_mod_to_equations; lia).
    rewrite Hq, Hr, Hq', Hr'. Z.div_mod_to_equations. lia.
Qed.

Lemma scan_pair_valid rd noon on off sessions :
  valid_pair on off = true ->
  wf_datetime noon ->
  (hour noon, minute noon, second noon) = (12, 0, 0) ->
  toordinal noon < MAXORDINAL ->
  scan_pair rd noon on off sessions
  = Ok (sessions ++ [mk_session (Datetime.strftime_Ymd rd)
                                (noon_plus (toordinal noon) on) (off - on)]).
Proof.
  unfold valid_pair. intros Hv Hwf Hnoon Hmax.
  repeat (apply andb_true_iff in Hv as [Hv ?]).
  repeat match goal with
         | H : (_ <? _) = true |- _ => apply Z.ltb_lt in H
         end.
  injection Hnoon as Hh Hm Hs.
  unfold scan_pair.
  destruct (Z.leb_spec on 0); [lia|]. destruct (Z.leb_spec off 0); [lia|].
  destruct (Z.geb_spec on 1440); [lia|]. destruct (Z.geb_spec off 1440); [lia|].
  destruct (Z.leb_spec (off - on) 0); [lia|]. cbn [orb].
  rewrite make_delta_minutes, bind_Ok by lia.
  destruct (add_spec noon (mk_td 0 (on * 60)) Hwf) as (y & m & d & Hord & Hadd & _).
  - simpl. lia.
  - simpl. lia.
  - simpl. rewrite Hh, Hm, Hs.
    assert ((12 * 3600 + 0 * 60 + 0 + on * 60) / 86400 <= 1).
    { apply Z.lt_succ_r, Z.div_lt_upper_bound; lia. }
    lia.
  - rewrite Hadd, bind_Ok. simpl in Hord. rewrite Hh, Hm, Hs in Hord.
    cbn [td_seconds]. rewrite Hh, Hm, Hs.
    destruct (noon_seconds on ltac:(lia)) as (Hq & Hhh & Hmm & Hss).
    rewrite Hq, Z.add_0_r in Hord. rewrite Hhh, Hmm, Hss.
    unfold noon_plus, at_minutes. rewrite Hord. reflexivity.
Qed.


Lemma scan_samples_spec p rec_idx rd noon ons offs :
  Datetime.strftime_Ymd rd
  = format_Ymd (date_plus_days (start_dt p) (Z.of_nat rec_idx)) ->
  wf_datetime noon ->
  toordinal noon = toordinal (start_dt p) + Z.of_nat rec_idx ->
  (hour noon, minute noon, second noon) = (12, 0, 0) ->
  toordinal noon < MAXORDINAL ->
  forall n k sessions,
    (k + n <= length ons)%nat -> (k + n <= length offs)%nat ->
    scan_samples (seq k n) rd noon ons offs sessions
    = Ok (sessions ++ record_sessions (start_dt p) rec_idx
                        (combine (take n (drop k ons)) (take n (drop k offs)))).
Proof.
  intros Hrd Hwf Hord Hnoon Hmax.
  induction n as [|n IH]; intros k sessions Hon Hoff.
  - simpl. rewrite app_nil_r. reflexivity.
  - destruct (lookup_lt_is_Some_2 ons k ltac:(lia)) as [on Eon].
    destruct (lookup_lt_is_Some_2 offs k ltac:(lia)) as [off Eoff].
    cbn [seq scan_samples]. unfold getitem. rewrite Eon, Eoff, !bind_Ok.
    rewrite (drop_S _ _ _ Eon), (drop_S _ _ _ Eoff).
    cbn [take combine]. unfold record_sessions, valid_pairs. cbn [List.filter].
    destruct (valid_pair on off) eqn:Ev.
    + rewrite (scan_pair_valid rd noon on off sessions Ev Hwf Hnoon Hmax), bind_Ok.
      rewrite IH by lia. cbn [map]. rewrite <- app_assoc. cbn [app].
      unfold expected_session at 1. rewrite <- Hrd, <- Hord. reflexivity.
    + rewrite (scan_pair_invalid rd noon on off sessions Ev), bind_Ok.
      apply IH; lia.
Qed.

Lemma unpack_shorts_length buf :
  (2 * length (unpack_shorts buf) <= length buf < 2 * length (unpack_shorts buf) + 2)%nat.
Proof.
  assert (H : forall n buf, (length buf < n)%nat ->
                (2 * length (unpack_shorts buf) <= length buf
                 < 2 * length (unpack_shorts buf) + 2)%nat).
  { induction n as [|n IH]; intros b Hb; [lia|].
    destruct b as [|lo [|hi b']]; [simpl; lia|simpl; lia|].
    cbn [unpack_shorts length] in *.
    specialize (IH b' ltac:(lia)). lia. }
  apply (H (S (length buf))). lia.
Qed.

Lemma struct_unpack_h_length n buf vals :
  struct_unpack_h n buf = Ok vals -> Z.of_nat (length vals) = Z.max 0 n.
Proof.
  unfold struct_unpack_h.
  destruct (Z.eqb_spec (Z.of_nat (length buf)) (2 * Z.max 0 n)) as [E|]; [|discriminate].
  intros [= <-]. pose proof (unpack_shorts_length buf) as H. lia.
Qed.

Lemma read_markers_lengths p lay rec_idx f ons offs f' :
  read_markers p lay rec_idx f = Ok (ons, offs, f') ->
  Z.of_nat (length ons) = Z.max 0 (maskon_nsamples lay)
  /\ Z.of_nat (length offs) = Z.max 0 (maskoff_nsamples lay).
Proof.
  unfold read_markers. intros H.
  apply bind_Ok_inv in H as (f1 & _ & H).
  apply bind_Ok_inv in H as ([buf1 f2] & _ & H).
  apply bind_Ok_inv in H as (v1 & Hv1 & H).
  apply bind_Ok_inv in H as (f3 & _ & H).
  apply bind_Ok_inv in H as ([buf2 f4] & _ & H).
  apply bind_Ok_inv in H as (v2 & Hv2 & H).
  injection H as <- <- <-.
  split; eapply struct_unpack_h_length; eassumption.
Qed.

Lemma combine_take_min {A B} (l : list A) (l' : list B) n :
  n = Nat.min (length l) (length l') ->
  combine (take n l) (take n l') = combine l l'.
Proof.
  intros ->. rewrite <- combine_firstn.
  apply firstn_all2. rewrite length_combine. lia.
Qed.

(** The loop over the records finds the sessions of the table of markers. *)
Lemma scan_records_spec p lay :
  wf_datetime (start_dt p) ->
  forall n k f sessions table,
    (n <> 0%nat -> toordinal (start_dt p) + Z.of_nat (k + n) <= MAXORDINAL) ->
    read_all_markers p lay (seq k n) f = Ok table ->
    scan_records p lay (seq k n) f sessions
    = Ok (sessions ++ table_sessions (start_dt p) k table).
Proof.
  intros Hwf. induction n as [|n IH]; intros k f sessions table Hmax Htab.
  - injection Htab as <-. simpl. rewrite app_nil_r. reflexivity.
  - cbn [seq read_all_markers] in Htab.
    apply bind_Ok_inv in Htab as ([[ons offs] f'] & Hrow & Htab).
    apply bind_Ok_inv in Htab as (rows & Hrows & Htab).
    injection Htab as <-.
    cbn [seq scan_records]. unfold scan_record.
    specialize (Hmax ltac:(lia)).
    destruct (record_day_spec p k Hwf ltac:(lia))
      as (rd & noon & Hday & Hrd & Hwfn & Hord & Hnoon).
    rewrite Hday, bind_Ok, Hrow, bind_Ok.
    destruct (read_markers_lengths _ _ _ _ _ _ _ Hrow) as [Lon Loff].
    unfold range.
    rewrite (scan_samples_spec p k rd noon ons offs Hrd Hwfn Hord Hnoon
               ltac:(lia)) by lia.
    rewrite bind_Ok, !drop_0. cbv beta iota.
    rewrite bind_Ok. cbv beta iota.
    rewrite combine_take_min by lia.
    rewrite (IH (S k) f' _ rows) by (assumption || (intros _; lia)).
    cbn [table_sessions]. rewrite <- app_assoc. reflexivity.
Qed.


Lemma table_sessions_tagged start table : forall i,
  table_sessions start i table
  = map (λ '(i, (on, off)), expected_session start i on off)
        (valid_tagged (tagged_pairs i table)).
Proof.
  induction table as [|row table IH]; intros i; [reflexivity|].
  cbn [table_sessions tagged_pairs]. unfold valid_tagged.
  rewrite List.filter_app, map_app, <- IH. f_equal.
  unfold record_sessions, valid_pairs.
  induction (row_pairs row) as [|[on off] l IHl]; [reflexivity|].
  cbn [List.filter map]. destruct (valid_pair on off); cbn [map]; rewrite IHl;
    reflexivity.
Qed.

Lemma header_start_dt_wf header dt :
  header_start_dt header = Ok dt -> wf_datetime dt.
Proof.
  unfold header_start_dt. intros H.
  repeat (apply bind_Ok_inv in H as (? & _ & H);
          try match type of H with
              | (let '(_, _) := ?x in _) = _ => destruct x as [[? ?] ?]
              end).
  eapply make_wf. exact H.
Qed.

Lemma read_preamble_inv f p f' :
  read_preamble f = Ok (p, f') ->
  exists header f1,
    read f 256 = Ok (header, f1) /\ header_start_dt header = Ok (start_dt p).
Proof.
  unfold read_preamble. intros H.
  apply bind_Ok_inv in H as ([header f1] & Hread & H).
  exists header, f1. split; [exact Hread|].
  apply bind_Ok_inv in H as (nr & _ & H).
  apply bind_Ok_inv in H as (ns & _ & H).
  apply bind_Ok_inv in H as (hb & _ & H).
  apply bind_Ok_inv in H as (dt & Hdt & H).
  apply bind_Ok_inv in H as (f2 & _ & H).
  apply bind_Ok_inv in H as ([spr f3] & _ & H).
  apply bind_Ok_inv in H as (f4 & _ & H).
  apply bind_Ok_inv in H as ([ls f5] & _ & H).
  injection H as <- <-. exact Hdt.
Qed.

(** The sessions of a file, from its table of markers. *)
Lemma parse_str_edf_spec bs p f table :
  read_preamble (fopen bs) = Ok (p, f) ->
  marker_table bs = Ok table ->
  toordinal (start_dt p) + num_records p <= MAXORDINAL ->
  parse_str_edf bs
  = Ok (map (λ '(i, (on, off)), expected_session (start_dt p) i on off)
            (valid_tagged (tagged_pairs 0 table))).
Proof.
  intros Hp Htab Hmax. unfold parse_str_edf, marker_table in *.
  rewrite Hp, bind_Ok. rewrite Hp, bind_Ok in Htab. cbv beta iota in *.
  apply bind_Ok_inv in Htab as (lay & Hlay & Htab).
  rewrite Hlay, bind_Ok. unfold range in *.
  rewrite <- table_sessions_tagged.
  change (table_sessions (start_dt p) 0 table)
    with ([] ++ table_sessions (start_dt p) 0 table).
  apply (scan_records_spec p lay); [|lia|exact Htab].
  destruct (read_preamble_inv _ _ _ Hp) as (header & f1 & _ & Hdt).
  eapply header_start_dt_wf, Hdt.
Qed.

Lemma valid_tagged_pairs table : forall i,
  map snd (valid_tagged (tagged_pairs i table))
  = valid_pairs (concat (map row_pairs table)).
Proof.
  induction table as [|row table IH]; intros i; [reflexivity|].
  cbn [tagged_pairs map concat]. unfold valid_tagged, valid_pairs in *.
  rewrite !List.filter_app, map_app, IH. f_equal.
  induction (row_pairs row) as [|[on off] l IHl]; [reflexivity|].
  cbn [map List.filter]. destruct (valid_pair on off); cbn [map]; rewrite IHl;
    reflexivity.
Qed.

(** ** What a returned list tells about the file *)

Lemma make_delta_inv d m delta :
  Datetime.make_delta d m = Ok delta ->
  delta = mk_td (d + m * 60 / 86400) ((m * 60) mod 86400).
Proof.
  unfold Datetime.make_delta. destruct (_ && _); [|discriminate].
  intros [= <-]. reflexivity.
Qed.

Lemma add_inv dt delta dt' :
  Datetime.add dt delta = Ok dt' ->
  let s := hour dt * 3600 + minute dt * 60 + second dt + td_seconds delta in
  let days := toordinal dt + td_days delta + s / 86400 in
  0 < days <= MAXORDINAL
  /\ dt' = (let '(y, m, d) := ord2ymd days in
            mk_dt y m d (s mod 86400 / 3600) (s mod 86400 mod 3600 / 60)
                  (s mod 86400 mod 60)).
Proof.
  intros H s days. unfold Datetime.add in H. fold s in H. fold days in H.
  destruct (Z.ltb_spec 0 days); [|discriminate].
  destruct (Z.leb_spec days MAXORDINAL); [|discriminate].
  cbn [andb] in H. split; [lia|].
  destruct (ord2ymd days) as [[y m] d]. injection H as <-. reflexivity.
Qed.

(** The day of a record and its noon, when they could be computed. *)
Lemma record_day_inv p rec_idx rd noon :
  wf_datetime (start_dt p) ->
  record_day p rec_idx = Ok (rd, noon) ->
  Datetime.strftime_Ymd rd
  = format_Ymd (date_plus_days (start_dt p) (Z.of_nat rec_idx))
  /\ wf_datetime noon
  /\ toordinal noon = toordinal (start_dt p) + Z.of_nat rec_idx
  /\ (hour noon, minute noon, second noon) = (12, 0, 0).
Proof.
  intros Hwf Hday.
  assert (Hmax : toordinal (start_dt p) + Z.of_nat rec_idx <= MAXORDINAL).
  { unfold record_day in Hday.
    apply bind_Ok_inv in Hday as (delta & Hdelta & Hday).
    apply bind_Ok_inv in Hday as (rd' & Hadd & _).
    apply make_delta_inv in Hdelta. subst delta.
    apply add_inv in Hadd as [Hdays _]. cbn [td_days td_seconds] in Hdays.
    pose proof (make_ok _ _ _ _ _ _ _ Hwf) as (_ & _ & _ & Hh & Hm & Hs).
    change (0 * 60) with 0 in Hdays.
    change (0 mod 86400) with 0 in Hdays. change (0 / 86400) with 0 in Hdays.
    assert (0 <= (hour (start_dt p) * 3600 + minute (start_dt p) * 60
                  + second (start_dt p) + 0) / 86400)
      by (apply Z.div_pos; lia).
    lia. }
  destruct (record_day_spec p rec_idx Hwf Hmax) as (rd' & noon' & Hday' & Hrest).
  rewrite Hday in Hday'. injection Hday' as <- <-. exact Hrest.
Qed.

(** One pair of markers, when the loop body did not raise. *)
Lemma scan_pair_ok rd noon on off sessions sessions' :
  wf_datetime noon ->
  (hour noon, minute noon, second noon) = (12, 0, 0) ->
  scan_pair rd noon on off sessions = Ok sessions' ->
  sessions'
  = sessions ++ (if valid_pair on off
                 then [mk_session (Datetime.strftime_Ymd rd)
                                  (noon_plus (toordinal noon) on) (off - on)]
                 else []).
Proof.
  intros Hwf Hnoon Hrun. destruct (valid_pair on off) eqn:Hv.
  - unfold valid_pair in Hv.
    repeat (apply andb_true_iff in Hv as [Hv ?]).
    repeat match goal with
           | H : (_ <? _) = true |- _ => apply Z.ltb_lt in H
           end.
    injection Hnoon as Hh Hm Hs.
    unfold scan_pair in Hrun.
    destruct (Z.leb_spec on 0); [lia|]. destruct (Z.leb_spec off 0); [lia|].
    destruct (Z.geb_spec on 1440); [lia|]. destruct (Z.geb_spec off 1440); [lia|].
    destruct (Z.leb_spec (off - on) 0); [lia|]. cbn [orb] in Hrun.
    rewrite make_delta_minutes, bind_Ok in Hrun by lia.
    apply bind_Ok_inv in Hrun as (st & Hadd & Hrun). injection Hrun as <-.
    apply add_inv in Hadd as [_ ->]. cbn [td_days td_seconds].
    rewrite Hh, Hm, Hs.
    destruct (noon_seconds on ltac:(lia)) as (Hq & Hhh & Hmm & Hss).
    rewrite Hq, Hhh, Hmm, Hss, Z.add_0_r.
    unfold noon_plus, at_minutes. reflexivity.
  - rewrite (scan_pair_invalid rd noon on off sessions Hv) in Hrun.
    injection Hrun as <-. rewrite app_nil_r. reflexivity.
Qed.

Lemma scan_samples_inv p rec_idx rd noon ons offs :
  Datetime.strftime_Ymd rd
  = format_Ymd (date_plus_days (start_dt p) (Z.of_nat rec_idx)) ->
  wf_datetime noon ->
  toordinal noon = toordinal (start_dt p) + Z.of_nat rec_idx ->
  (hour noon, minute noon, second noon) = (12, 0, 0) ->
  forall n k sessions sessions',
    (k + n <= length ons)%nat -> (k + n <= length offs)%nat ->
    scan_samples (seq k n) rd noon ons offs sessions = Ok sessions' ->
    sessions'
    = sessions ++ record_sessions (start_dt p) rec_idx
                    (combine (take n (drop k ons)) (take n (drop k offs))).
Proof.
  intros Hrd Hwf Hord Hnoon.
  induction n as [|n IH]; intros k sessions sessions' Hon Hoff Hrun.
  - injection Hrun as <-. simpl. rewrite app_nil_r. reflexivity.
  - destruct (lookup_lt_is_Some_2 ons k ltac:(lia)) as [on Eon].
    destruct (lookup_lt_is_Some_2 offs k ltac:(lia)) as [off Eoff].
    cbn [seq scan_samples] in Hrun. unfold getitem in Hrun.
    rewrite Eon, Eoff, !bind_Ok in Hrun.
    apply bind_Ok_inv in Hrun as (ss & Hpair & Hrun).
    apply (scan_pair_ok _ _ _ _ _ _ Hwf Hnoon) in Hpair.
    apply IH in Hrun; [|lia|lia]. subst sessions' ss.
    rewrite (drop_S _ _ _ Eon), (drop_S _ _ _ Eoff).
    cbn [take combine]. unfold record_sessions, valid_pairs. cbn [List.filter].
    rewrite <- app_assoc. f_equal.
    destruct (valid_pair on off); [|reflexivity].
    cbn [map app]. f_equal. unfold expected_session. rewrite <- Hrd, <- Hord.
    reflexivity.
Qed.

Lemma scan_records_inv p lay :
  wf_datetime (start_dt p) ->
  forall n k f sessions sessions',
    scan_records p lay (seq k n) f sessions = Ok sessions' ->
    exists table,
      read_all_markers p lay (seq k n) f = Ok table
      /\ sessions' = sessions ++ table_sessions (start_dt p) k table.
Proof.
  intros Hwf. induction n as [|n IH]; intros k f sessions sessions' Hrun.
  - injection Hrun as <-. exists []. split; [reflexivity|].
    simpl. rewrite app_nil_r. reflexivity.
  - cbn [seq scan_records] in Hrun.
    apply bind_Ok_inv in Hrun as ([ss f'] & Hrec & Hrun).
    unfold scan_record in Hrec.
    apply bind_Ok_inv in Hrec as ([rd noon] & Hday & Hrec).
    apply bind_Ok_inv in Hrec as ([[ons offs] f''] & Hrow & Hrec).
    apply bind_Ok_inv in Hrec as (ss' & Hs & Hrec).
    injection Hrec as <- <-.
    destruct (record_day_inv p k rd noon Hwf Hday) as (Hrd & Hwfn & Hord & Hnoon).
    destruct (read_markers_lengths _ _ _ _ _ _ _ Hrow) as [Lon Loff].
    unfold range in Hs.
    apply (scan_samples_inv p k rd noon ons offs Hrd Hwfn Hord Hnoon) in Hs;
      [|lia|lia].
    rewrite !drop_0, combine_take_min in Hs by lia.
    destruct (IH (S k) f'' ss' sessions' Hrun) as (rows & Hrows & Hss).
    exists ((ons, offs) :: rows). split.
    + cbn [seq read_all_markers]. rewrite Hrow, bind_Ok. cbv beta iota.
      rewrite Hrows, bind_Ok. reflexivity.
    + subst sessions' ss'. cbn [table_sessions]. rewrite <- app_assoc.
      reflexivity.
Qed.

Lemma read_all_markers_length p lay idxs : forall f table,
  read_all_markers p lay idxs f = Ok table -> length table = length idxs.
Proof.
  induction idxs as [|i idxs IH]; intros f table H.
  - injection H as <-. reflexivity.
  - cbn [read_all_markers] in H.
    apply bind_Ok_inv in H as ([[ons offs] f'] & _ & H).
    apply bind_Ok_inv in H as (rows & Hrows & H). injection H as <-.
    cbn [length]. f_equal. eapply IH, Hrows.
Qed.

(** A returned list is the list of the sessions of the valid pairs of the
    table of markers. *)
Lemma parse_str_edf_inv bs sessions :
  parse_str_edf bs = Ok sessions ->
  exists p f lay table,
    read_preamble (fopen bs) = Ok (p, f)
    /\ mask_layout p = Ok lay
    /\ read_all_markers p lay (range (num_records p)) f = Ok table
    /\ wf_datetime (start_dt p)
    /\ sessions
       = map (λ '(i, (on, off)), expected_session (start_dt p) i on off)
             (valid_tagged (tagged_pairs 0 table)).
Proof.
  unfold parse_str_edf. intros H.
  apply bind_Ok_inv in H as ([p f] & Hp & H).
  apply bind_Ok_inv in H as (lay & Hlay & H).
  assert (Hwf : wf_datetime (start_dt p)).
  { destruct (read_preamble_inv _ _ _ Hp) as (header & f1 & _ & Hdt).
    eapply header_start_dt_wf, Hdt. }
  unfold range in *.
  destruct (scan_records_inv p lay Hwf _ _ _ _ _ H) as (table & Htab & ->).
  exists p, f, lay, table. repeat split; try assumption.
  rewrite table_sessions_tagged. reflexivity.
Qed.

(** The list a file's parse returns, from its table of markers. *)
Lemma parse_str_edf_returned bs p f table sessions :
  read_preamble (fopen bs) = Ok (p, f) ->
  marker_table bs = Ok table ->
  parse_str_edf bs = Ok sessions ->
  sessions
  = map (λ '(i, (on, off)), expected_session (start_dt p) i on off)
        (valid_tagged (tagged_pairs 0 table)).
Proof.
  intros Hp Htab Hrun.
  destruct (parse_str_edf_inv bs sessions Hrun)
    as (p' & f' & lay & table' & Hp' & Hlay & Hrows & _ & ->).
  rewrite Hp in Hp'. injection Hp' as <- <-.
  unfold marker_table in Htab. rewrite Hp, bind_Ok in Htab.
  cbv beta iota in Htab. rewrite Hlay, bind_Ok, Hrows in Htab.
  injection Htab as <-. reflexivity.
Qed.

Example parse_example_noisy :
  parse_str_edf example_noisy_str_edf
  = Ok [mk_session "19991231" (mk_dt 2000 1 1 10 0 0) 60;
        mk_session "20000101" (mk_dt 2000 1 1 12 30 0) 60].
Proof. vm_compute. reflexivity. Qed.

(** C1, as stated: the file that starts on 9999-09-09 and has 114 records,
    the last of them with the one valid pair (1000, 1001), has a header and
    marker channels that are read, with N = 1, and yet no list is returned:
    the session would start after 9999-12-31, and [parse_str_edf] raises
    OverflowError. *)
Lemma session_past_the_calendar_raises :
  (exists p f table,
      read_preamble (fopen (example_last_days_str_edf 1000 1001)) = Ok (p, f)
      /\ marker_table (example_last_days_str_edf 1000 1001) = Ok table
      /\ valid_pairs (concat (map row_pairs table)) = [(1000, 1001)]
      /\ valid_pair 1000 1001 = true)
  /\ parse_str_edf (example_last_days_str_edf 1000 1001) = Raise OverflowError.
Proof.
  split; [|vm_compute; reflexivity].
  eexists _, _, _. split; [vm_compute; reflexivity|].
  split; [vm_compute; reflexivity|]. split; reflexivity.
Qed.

(** C1, amended: for a file whose header and marker channels are read and
    whose record days stay within the calendar (start day plus number of
    records not after 9999-12-31), [parse_str_edf] returns a list; and a
    list it returns, within that bound or not, has one session for each
    valid pair, in order, each lasting [off - on] minutes: N sessions for N
    valid pairs. *)
Theorem parse_str_edf_one_session_per_valid_pair bs p f table :
  read_preamble (fopen bs) = Ok (p, f) ->
  marker_table bs = Ok table ->
  (toordinal (start_dt p) + num_records p <= MAXORDINAL ->
   exists sessions, parse_str_edf bs = Ok sessions)
  /\ (forall sessions,
        parse_str_edf bs = Ok sessions ->
        length sessions = length (valid_pairs (concat (map row_pairs table)))
        /\ Forall2 (λ s '(on, off), duration_min s = off - on)
                   sessions (valid_pairs (concat (map row_pairs table)))).
Proof.
  intros Hp Htab. split.
  - intros Hmax. eexists. eapply parse_str_edf_spec; eassumption.
  - intros sessions Hrun.
    rewrite (parse_str_edf_returned bs p f table sessions Hp Htab Hrun).
    rewrite <- (valid_tagged_pairs table 0).
    split; [rewrite !length_map; reflexivity|].
    induction (valid_tagged (tagged_pairs 0 table)) as [|[i [on off]] l IH];
      constructor; [reflexivity | exact IH].
Qed.

Lemma parse_str_edf_one_session_per_valid_pair_witness :
  (exists sessions, parse_str_edf example_noisy_str_edf = Ok sessions)
  /\ length [mk_session "19991231" (mk_dt 2000 1 1 10 0 0) 60;
             mk_session "20000101" (mk_dt 2000 1 1 12 30 0) 60] = 2%nat
  /\ Forall2 (λ s '(on, off), duration_min s = off - on)
             [mk_session "19991231" (mk_dt 2000 1 1 10 0 0) 60;
              mk_session "20000101" (mk_dt 2000 1 1 12 30 0) 60]
             [(1320, 1380); (30, 90)].
Proof.
  epose proof (parse_str_edf_one_session_per_valid_pair example_noisy_str_edf
                 (mk_preamble 2 3 1024 (mk_dt 1999 12 31 23 59 59) [1; 3; 2]
                              ["Crc16"; "MaskOff"; "MaskOn"]%string) _
                 [([1320; 0], [1380; 0; 5]); ([30; 1439], [90; 20; 5])]) as H.
  edestruct H as [Hreturns Hlist].
  - vm_compute. reflexivity.
  - vm_compute. reflexivity.
  - split.
    + apply Hreturns. vm_compute. discriminate.
    + exact (Hlist _ parse_example_noisy).
Defined.

Lemma scan_pair_inv rd noon on off sessions sessions' :
  scan_pair rd noon on off sessions = Ok sessions' ->
  sessions' = sessions
  \/ (valid_pair on off = true
      /\ exists st, sessions' = sessions ++ [mk_session (Datetime.strftime_Ymd rd) st (off - on)]).
Proof.
  unfold scan_pair, valid_pair.
  destruct (Z.leb_spec on 0); [intros [= <-]; left; reflexivity|].
  destruct (Z.leb_spec off 0); [intros [= <-]; left; reflexivity|].
  destruct (Z.geb_spec on 1440); [intros [= <-]; left; reflexivity|].
  destruct (Z.geb_spec off 1440); [intros [= <-]; left; reflexivity|].
  destruct (Z.leb_spec (off - on) 0); [intros [= <-]; left; reflexivity|].
  cbn [orb]. intros Hrun.
  apply bind_Ok_inv in Hrun as (delta & _ & Hrun).
  apply bind_Ok_inv in Hrun as (st & _ & Hrun).
  injection Hrun as <-. right. split; [|eauto].
  repeat (apply andb_true_iff; split); apply Z.ltb_lt; lia.
Qed.

Lemma scan_samples_durations idxs rd noon ons offs : forall sessions sessions',
  Forall (λ s, 0 < duration_min s) sessions ->
  scan_samples idxs rd noon ons offs sessions = Ok sessions' ->
  Forall (λ s, 0 < duration_min s) sessions'.
Proof.
  induction idxs as [|i idxs IH]; intros sessions sessions' Hall H.
  - injection H as <-. exact Hall.
  - cbn [scan_samples] in H.
    apply bind_Ok_inv in H as (on & _ & H).
    apply bind_Ok_inv in H as (off & _ & H).
    apply bind_Ok_inv in H as (ss & Hpair & H).
    apply (IH ss); [|exact H].
    apply scan_pair_inv in Hpair as [->|(Hv & st & ->)]; [exact Hall|].
    apply Forall_app; split; [exact Hall|].
    constructor; [|constructor]. cbn [duration_min].
    unfold valid_pair in Hv. apply andb_true_iff in Hv as [_ Hv].
    apply Z.ltb_lt in Hv. exact Hv.
Qed.

Lemma scan_records_durations p lay idxs : forall f sessions sessions',
  Forall (λ s, 0 < duration_min s) sessions ->
  scan_records p lay idxs f sessions = Ok sessions' ->
  Forall (λ s, 0 < duration_min s) sessions'.
Proof.
  induction idxs as [|i idxs IH]; intros f sessions sessions' Hall H.
  - injection H as <-. exact Hall.
  - cbn [scan_records] in H.
    apply bind_Ok_inv in H as ([ss f'] & Hrec & H).
    apply (IH f' ss); [|exact H].
    unfold scan_record in Hrec.
    apply bind_Ok_inv in Hrec as ([rd noon] & _ & Hrec).
    apply bind_Ok_inv in Hrec as ([[ons offs] f''] & _ & Hrec).
    apply bind_Ok_inv in Hrec as (ss' & Hs & Hrec).
    injection Hrec as <- <-.
    eapply scan_samples_durations; eassumption.
Qed.

(** C2: a pair with a marker that is not positive, or not below 1440, or
    with [off <= on], adds no session; and every session returned lasts more
    than zero minutes. *)
Theorem invalid_pair_gives_no_session :
  (forall rd noon on off sessions,
      on <= 0 \/ off <= 0 \/ on >= 1440 \/ off >= 1440 \/ off <= on ->
      scan_pair rd noon on off sessions = Ok sessions)
  /\ (forall bs sessions,
        parse_str_edf bs = Ok sessions ->
        Forall (λ s, 0 < duration_min s) sessions).
Proof.
  split.
  - intros rd noon on off sessions H. apply scan_pair_invalid.
    unfold valid_pair.
    destruct (Z.ltb_spec 0 on), (Z.ltb_spec 0 off), (Z.ltb_spec on 1440),
      (Z.ltb_spec off 1440), (Z.ltb_spec 0 (off - on));
      try reflexivity; lia.
  - intros bs sessions H. unfold parse_str_edf in H.
    apply bind_Ok_inv in H as ([p f] & _ & H).
    apply bind_Ok_inv in H as (lay & _ & H).
    eapply scan_records_durations; [|exact H]. constructor.
Qed.

Lemma invalid_pair_gives_no_session_witness :
  scan_pair (mk_dt 2024 1 10 0 0 0) (mk_dt 2024 1 10 12 0 0) 1439 20 [] = Ok []
  /\ Forall (λ s, 0 < duration_min s)
            [mk_session "19991231" (mk_dt 2000 1 1 10 0 0) 60;
             mk_session "20000101" (mk_dt 2000 1 1 12 30 0) 60].
Proof.
  split.
  - apply (proj1 invalid_pair_gives_no_session). lia.
  - apply (proj2 invalid_pair_gives_no_session example_noisy_str_edf).
    vm_compute. reflexivity.
Defined.




Lemma not_missing_bind {A B} (r : result A) (k : A -> result B) :
  not_missing r -> (forall a, not_missing (k a)) -> not_missing (r ≫= k).
Proof.
  unfold not_missing. destruct r as [a|e]; intros Hr Hk; [apply Hk|].
  intros [= ->]. apply Hr. reflexivity.
Qed.

Lemma make_not_missing y m d hh mi ss : not_missing (Datetime.make y m d hh mi ss).
Proof. unfold Datetime.make. destruct (_ && _); discriminate. Qed.

Lemma make_delta_not_missing d m : not_missing (Datetime.make_delta d m).
Proof. unfold Datetime.make_delta. destruct (_ && _); discriminate. Qed.

Lemma add_not_missing dt delta : not_missing (Datetime.add dt delta).
Proof.
  unfold Datetime.add. destruct (_ && _); [|discriminate].
  destruct (ord2ymd _) as [[y m] d]. discriminate.
Qed.

Lemma seek_not_missing f p : not_missing (seek f p).
Proof. unfold seek. destruct (p <? 0); discriminate. Qed.

Lemma read_not_missing f n : not_missing (read f n).
Proof. unfold read. destruct (n <? -1); discriminate. Qed.

Lemma struct_unpack_h_not_missing n buf : not_missing (struct_unpack_h n buf).
Proof. unfold struct_unpack_h. destruct (_ =? _); discriminate. Qed.

Lemma getitem_not_missing t i : not_missing (getitem t i).
Proof. unfold getitem. destruct (t !! i); discriminate. Qed.

Lemma scan_pair_not_missing rd noon on off sessions :
  not_missing (scan_pair rd noon on off sessions).
Proof.
  unfold scan_pair.
  destruct (_ || _); [discriminate|]. destruct (_ || _); [discriminate|].
  destruct (_ <=? _); [discriminate|].
  apply not_missing_bind; [apply make_delta_not_missing|intros delta].
  apply not_missing_bind; [apply add_not_missing|intros st]. discriminate.
Qed.

Lemma scan_samples_not_missing idxs rd noon ons offs : forall sessions,
  not_missing (scan_samples idxs rd noon ons offs sessions).
Proof.
  induction idxs as [|i idxs IH]; intros sessions; [discriminate|].
  cbn [scan_samples].
  apply not_missing_bind; [apply getitem_not_missing|intros on].
  apply not_missing_bind; [apply getitem_not_missing|intros off].
  apply not_missing_bind; [apply scan_pair_not_missing|intros ss]. apply IH.
Qed.

Lemma scan_record_not_missing p lay rec_idx f sessions :
  not_missing (scan_record p lay rec_idx f sessions).
Proof.
  unfold scan_record.
  apply not_missing_bind.
  { unfold record_day.
    apply not_missing_bind; [apply make_delta_not_missing|intros delta].
    apply not_missing_bind; [apply add_not_missing|intros rd].
    apply not_missing_bind; [apply make_not_missing|intros noon]. discriminate. }
  intros [rd noon].
  apply not_missing_bind.
  { unfold read_markers.
    apply not_missing_bind; [apply seek_not_missing|intros f1].
    apply not_missing_bind; [apply read_not_missing|intros [buf1 f2]].
    apply not_missing_bind; [apply struct_unpack_h_not_missing|intros v1].
    apply not_missing_bind; [apply seek_not_missing|intros f3].
    apply not_missing_bind; [apply read_not_missing|intros [buf2 f4]].
    apply not_missing_bind; [apply struct_unpack_h_not_missing|intros v2].
    discriminate. }
  intros [[ons offs] f'].
  apply not_missing_bind; [apply scan_samples_not_missing|intros ss]. discriminate.
Qed.

Lemma scan_records_not_missing p lay idxs : forall f sessions,
  not_missing (scan_records p lay idxs f sessions).
Proof.
  induction idxs as [|i idxs IH]; intros f sessions; [discriminate|].
  cbn [scan_records].
  apply not_missing_bind; [apply scan_record_not_missing|intros [ss f']]. apply IH.
Qed.

Lemma int_of_str_not_missing s : not_missing (Py.int_of_str s).
Proof.
  unfold Py.int_of_str.
  destruct (match Py.strip s with
            | String "-" t => option_map Z.opp (Py.int_digits t 0 false)
            | String "+" t => Py.int_digits t 0 false
            | t => Py.int_digits t 0 false
            end); discriminate.
Qed.

Lemma decode_strip_not_missing bs : not_missing (decode_strip bs).
Proof.
  unfold decode_strip, Py.decode. destruct (forallb _ _); discriminate.
Qed.

Lemma decode_int_not_missing bs : not_missing (decode_int bs).
Proof.
  unfold decode_int.
  apply not_missing_bind; [apply decode_strip_not_missing|intros s].
  apply int_of_str_not_missing.
Qed.

Lemma unpack3_not_missing l : not_missing (unpack3 l).
Proof. destruct l as [|a [|b [|c [|d l]]]]; discriminate. Qed.

Lemma header_start_dt_not_missing header : not_missing (header_start_dt header).
Proof.
  unfold header_start_dt.
  apply not_missing_bind; [apply decode_strip_not_missing|intros date_str].
  apply not_missing_bind; [apply decode_strip_not_missing|intros time_str].
  apply not_missing_bind; [apply unpack3_not_missing|intros [[dd mm] yy]].
  apply not_missing_bind; [apply unpack3_not_missing|intros [[hh mi] ss]].
  do 6 (apply not_missing_bind; [apply int_of_str_not_missing|intros ?]).
  apply make_not_missing.
Qed.

Lemma read_ints_not_missing n : forall f, not_missing (read_ints n f).
Proof.
  induction n as [|n IH]; intros f; [discriminate|].
  cbn [read_ints].
  apply not_missing_bind; [apply read_not_missing|intros [bs f1]].
  apply not_missing_bind; [apply decode_int_not_missing|intros v].
  apply not_missing_bind; [apply IH|intros [vs f2]]. discriminate.
Qed.

Lemma read_labels_not_missing n : forall f, not_missing (read_labels n f).
Proof.
  induction n as [|n IH]; intros f; [discriminate|].
  cbn [read_labels].
  apply not_missing_bind; [apply read_not_missing|intros [bs f1]].
  apply not_missing_bind; [apply decode_strip_not_missing|intros v].
  apply not_missing_bind; [apply IH|intros [vs f2]]. discriminate.
Qed.

Lemma read_preamble_not_missing f : not_missing (read_preamble f).
Proof.
  unfold read_preamble.
  apply not_missing_bind; [apply read_not_missing|intros [header f1]].
  do 3 (apply not_missing_bind; [apply decode_int_not_missing|intros ?]).
  apply not_missing_bind; [apply header_start_dt_not_missing|intros dt].
  apply not_missing_bind; [apply seek_not_missing|intros f2].
  apply not_missing_bind; [apply read_ints_not_missing|intros [spr f3]].
  apply not_missing_bind; [apply seek_not_missing|intros f4].
  apply not_missing_bind; [apply read_labels_not_missing|intros [ls f5]].
  discriminate.
Qed.

(** The channel search keeps what it had and finds what the labels hold. *)
Lemma find_mask_from_spec labels : forall i on off,
  let r := find_mask_from i labels on off in
  (is_Some (fst r) <-> is_Some on \/ In "MaskOn"%string labels)
  /\ (is_Some (snd r) <-> is_Some off \/ In "MaskOff"%string labels).
Proof.
  induction labels as [|label labels IH]; intros i on off; cbn zeta.
  - cbn [find_mask_from fst snd In]. tauto.
  - cbn [find_mask_from In].
    destruct (String.eqb_spec label "MaskOn") as [->|Hon].
    + destruct (IH (S i) (Some i) off) as [H1 H2]. split.
      * rewrite H1. split; [intros _; right; left; reflexivity|].
        intros _. left. eexists. reflexivity.
      * rewrite H2. split; [tauto|]. intros [H|[H|H]]; [tauto|discriminate|tauto].
    + destruct (String.eqb_spec label "MaskOff") as [->|Hoff].
      * destruct (IH (S i) on (Some i)) as [H1 H2]. split.
        -- rewrite H1. split; [tauto|]. intros [H|[H|H]]; [tauto|discriminate|tauto].
        -- rewrite H2. split; [intros _; right; left; reflexivity|].
           intros _. left. eexists. reflexivity.
      * destruct (IH (S i) on off) as [H1 H2]. split.
        -- rewrite H1. split; [tauto|]. intros [H|[H|H]]; [tauto|congruence|tauto].
        -- rewrite H2. split; [tauto|]. intros [H|[H|H]]; [tauto|congruence|tauto].
Qed.

Lemma find_mask_spec labels :
  (is_Some (fst (find_mask labels)) <-> In "MaskOn"%string labels)
  /\ (is_Some (snd (find_mask labels)) <-> In "MaskOff"%string labels).
Proof.
  destruct (find_mask_from_spec labels 0%nat None None) as [H1 H2].
  unfold find_mask. split.
  - rewrite H1. split; [intros [[x Hx]|H]; [discriminate|exact H]|tauto].
  - rewrite H2. split; [intros [[x Hx]|H]; [discriminate|exact H]|tauto].
Qed.

(** The extractor raises its own error exactly when the header can be read
    and one of the two channels is not among the labels. *)
Lemma parse_str_edf_missing_iff bs :
  parse_str_edf bs = Raise MaskSignalsMissing
  <-> exists p f, read_preamble (fopen bs) = Ok (p, f)
                  /\ (~ In "MaskOn"%string (labels p)
                      \/ ~ In "MaskOff"%string (labels p)).
Proof.
  unfold parse_str_edf.
  split.
  - intros H. apply bind_Raise_inv in H as [H|([p f] & Hp & H)].
    + exfalso. exact (read_preamble_not_missing _ H).
    + exists p, f. split; [exact Hp|].
      apply bind_Raise_inv in H as [H|(lay & _ & H)].
      * unfold mask_layout in H.
        destruct (find_mask_spec (labels p)) as [H1 H2].
        destruct (find_mask (labels p)) as [[on|] [off|]]; try discriminate.
        -- right. rewrite <- H2. intros [x Hx]. discriminate.
        -- left. rewrite <- H1. intros [x Hx]. discriminate.
        -- left. rewrite <- H1. intros [x Hx]. discriminate.
      * exfalso. exact (scan_records_not_missing _ _ _ _ _ H).
  - intros (p & f & Hp & Hl). rewrite Hp, bind_Ok. cbv beta iota.
    unfold mask_layout.
    destruct (find_mask_spec (labels p)) as [H1 H2].
    destruct (find_mask (labels p)) as [[on|] [off|]]; try reflexivity.
    exfalso. destruct Hl as [Hl|Hl]; apply Hl.
    + apply H1. eexists. reflexivity.
    + apply H2. eexists. reflexivity.
Qed.

(** C7: when neither marker channel is among the labels the extractor
    raises its error and returns no session; when both are, it does not
    raise that error. *)
Theorem missing_marker_channels_are_fatal bs p f :
  read_preamble (fopen bs) = Ok (p, f) ->
  (~ In "MaskOn"%string (labels p) /\ ~ In "MaskOff"%string (labels p) ->
   parse_str_edf bs = Raise MaskSignalsMissing)
  /\ (In "MaskOn"%string (labels p) /\ In "MaskOff"%string (labels p) ->
      parse_str_edf bs <> Raise MaskSignalsMissing).
Proof.
  intros Hp. split.
  - intros [Hon _]. apply parse_str_edf_missing_iff. eauto.
  - intros [Hon Hoff] H. apply parse_str_edf_missing_iff in H
      as (p' & f' & Hp' & Hl).
    rewrite Hp in Hp'. injection Hp' as <- <-. tauto.
Qed.

Lemma missing_marker_channels_are_fatal_witness :
  parse_str_edf example_unmarked_str_edf = Raise MaskSignalsMissing
  /\ parse_str_edf example_noisy_str_edf <> Raise MaskSignalsMissing.
Proof.
  split.
  - refine (proj1 (missing_marker_channels_are_fatal example_unmarked_str_edf
                     (mk_preamble 1 2 768 (mk_dt 2024 1 10 0 0 0) [1; 1]
                                  ["Crc16"; "Leak"]%string) _ _) _).
    + vm_compute. reflexivity.
    + cbn [labels In]. split; intros [H|[H|[]]]; discriminate.
  - refine (proj2 (missing_marker_channels_are_fatal example_noisy_str_edf
                     (mk_preamble 2 3 1024 (mk_dt 1999 12 31 23 59 59) [1; 3; 2]
                                  ["Crc16"; "MaskOff"; "MaskOn"]%string) _ _) _).
    + vm_compute. reflexivity.
    + cbn [labels In]. split; auto.
Defined.



Example parse_example :
  parse_str_edf example_str_edf
  = Ok [mk_session "20240110" (mk_dt 2024 1 11 10 0 0) 60;
        mk_session "20240111" (mk_dt 2024 1 11 12 30 0) 60].
Proof. vm_compute. reflexivity. Qed.

(** C3, as the example of the specification has it: on the file with start
    date 2024-01-10, record 0 with on=1320 and record 1 with on=30, the
    sessions do not start at 2024-01-10 22:00:00 and 2024-01-12 00:30:00, and
    the second is not filed under 20240112. *)
Lemma example_start_times_differ :
  exists s0 s1,
    parse_str_edf example_str_edf = Ok [s0; s1]
    /\ start_time s0 <> mk_dt 2024 1 10 22 0 0
    /\ start_time s1 <> mk_dt 2024 1 12 0 30 0
    /\ record_date s1 <> "20240112"%string.
Proof.
  eexists _, _. split; [exact parse_example|].
  cbn [start_time record_date]. repeat split; discriminate.
Qed.

(** The file that runs up to 9999-12-31, with the pair (100, 200) in its
    last record: the session is on the last day of the calendar. *)
Example parse_example_last_days :
  parse_str_edf (example_last_days_str_edf 100 200)
  = Ok [mk_session "99991231" (mk_dt 9999 12 31 13 40 0) 100].
Proof. vm_compute. reflexivity. Qed.

(** C3, amended: the session of a valid pair of record [i] is filed under
    the start date plus [i] days, whatever the markers, and starts [on]
    minutes after 12:00:00 of that day; this holds of every list that is
    returned, and a list is returned when the record days stay within the
    calendar. With start date 2024-01-10, record 0 with on=1320 starts at
    2024-01-11 10:00:00 under 20240110 and record 1 with on=30 starts at
    2024-01-11 12:30:00 under 20240111. *)
Theorem session_day_and_start_time bs p f table :
  read_preamble (fopen bs) = Ok (p, f) ->
  marker_table bs = Ok table ->
  (forall sessions,
      parse_str_edf bs = Ok sessions ->
      Forall2 (λ s '(i, (on, off)),
                 record_date s
                 = format_Ymd (date_plus_days (start_dt p) (Z.of_nat i))
                 /\ start_time s
                    = noon_plus (toordinal (start_dt p) + Z.of_nat i) on)
              sessions (valid_tagged (tagged_pairs 0 table)))
  /\ (toordinal (start_dt p) + num_records p <= MAXORDINAL ->
      exists sessions, parse_str_edf bs = Ok sessions)
  /\ parse_str_edf example_str_edf
     = Ok [mk_session "20240110" (mk_dt 2024 1 11 10 0 0) 60;
           mk_session "20240111" (mk_dt 2024 1 11 12 30 0) 60].
Proof.
  intros Hp Htab. split; [|split; [|exact parse_example]].
  - intros sessions Hrun.
    rewrite (parse_str_edf_returned bs p f table sessions Hp Htab Hrun).
    induction (valid_tagged (tagged_pairs 0 table)) as [|[i [on off]] l IH];
      constructor; [split; reflexivity | exact IH].
  - intros Hmax. eexists. eapply parse_str_edf_spec; eassumption.
Qed.

Lemma session_day_and_start_time_witness :
  (Forall2 (λ s '(i, (on, off)),
              record_date s
              = format_Ymd (date_plus_days (mk_dt 2024 1 10 0 0 0) (Z.of_nat i))
              /\ start_time s = noon_plus (738895 + Z.of_nat i) on)
           [mk_session "20240110" (mk_dt 2024 1 11 10 0 0) 60;
            mk_session "20240111" (mk_dt 2024 1 11 12 30 0) 60]
           [(0%nat, (1320, 1380)); (1%nat, (30, 90))]
   /\ exists sessions, parse_str_edf example_str_edf = Ok sessions)
  /\ Forall2 (λ s '(i, (on, off)),
                record_date s
                = format_Ymd (date_plus_days (mk_dt 9999 9 9 0 0 0) (Z.of_nat i))
                /\ start_time s = noon_plus (3651946 + Z.of_nat i) on)
             [mk_session "99991231" (mk_dt 9999 12 31 13 40 0) 100]
             [(113%nat, (100, 200))].
Proof.
  split.
  - epose proof (session_day_and_start_time example_str_edf
                   (mk_preamble 2 2 768 (mk_dt 2024 1 10 0 0 0) [1; 1]
                                ["MaskOn"; "MaskOff"]%string) _
                   [([1320], [1380]); ([30], [90])]) as H.
    edestruct H as (Hlist & Hreturns & _).
    + vm_compute. reflexivity.
    + vm_compute. reflexivity.
    + split; [exact (Hlist _ parse_example)|].
      apply Hreturns. vm_compute. discriminate.
  - epose proof (session_day_and_start_time (example_last_days_str_edf 100 200)
                   (mk_preamble 114 2 768 (mk_dt 9999 9 9 0 0 0) [1; 1]
                                ["MaskOn"; "MaskOff"]%string) _
                   (repeat ([0], [0]) 113 ++ [([100], [200])])) as H.
    edestruct H as (Hlist & _ & _).
    + vm_compute. reflexivity.
    + vm_compute. reflexivity.
    + exact (Hlist _ parse_example_last_days).
Defined.


Section CardProperties.

Context {remote : Type} {dev : Device remote}.

Lemma prog_bind_run {A B} (m : prog A) (k : A -> prog B) (w : @world remote) :
  (m ≫= k) w
  = match m w with
    | (Ok a, w') => k a w'
    | (Raise e, w') => (Raise e, w')
    end.
Proof. reflexivity. Qed.

(** One probe: the request is sent and logged, the answer classified. *)
Lemma is_real_file_run card path (w : @world remote) :
  is_real_file card path w
  = let '(o, n) := http_head (net w) (url_of card path) in
    (classify_outcome o,
     mk_world n (disk w) (trace w ++ [EvHead (url_of card path) o])).
Proof.
  unfold is_real_file. rewrite prog_bind_run. unfold session_head.
  destruct (http_head _ _) as [o n]. reflexivity.
Qed.



(** The directory test is the probe of the path without its trailing
    slashes, answering (true, 0). *)
Lemma is_real_directory_run card path (w : @world remote) :
  is_real_directory card path w
  = match is_real_file card (Py.rstrip_char "/" path) w with
    | (Ok (exists_, size), w') => (Ok (exists_ && (size =? 0)), w')
    | (Raise e, w') => (Raise e, w')
    end.
Proof.
  unfold is_real_directory. rewrite prog_bind_run.
  destruct (is_real_file _ _ _) as [[[e s]|e] w']; reflexivity.
Qed.

End CardProperties.



Section SearchProperties.

Context {remote : Type} {dev : Device remote}.

Lemma probe_in_order_searched card dd fd hhmm ftype cands :
  forall (w : @world remote),
    searched_in_order card dd fd hhmm ftype cands w
      (fst (probe_in_order card dd fd hhmm ftype cands w))
      (snd (probe_in_order card dd fd hhmm ftype cands w)).
Proof.
  induction cands as [|c cands IH]; intros w.
  - split; [reflexivity|]. exists [], []. split; [reflexivity|].
    split; [constructor|]. left. cbn. rewrite app_nil_r. auto.
  - cbn [probe_in_order]. rewrite prog_bind_run, is_real_file_run.
    set (url := url_of card (edf_path dd fd hhmm (Py.fmt_02d c) ftype)).
    destruct (http_head (net w) url) as [o n] eqn:Ehead.
    destruct (classify_outcome o) as [r|e] eqn:Ecl.
    + destruct (hit r) eqn:Ehit.
      * split; [reflexivity|]. exists [], (c :: cands).
        split; [reflexivity|]. split; [constructor|]. right.
        exists c, o, cands. split; [reflexivity|]. split; [reflexivity|].
        left. destruct r as [e s]. unfold hit in Ehit. cbn [fst snd] in *.
        apply andb_true_iff in Ehit as [-> Hs]. apply Z.ltb_lt in Hs.
        exists s. auto.
      * set (w1 := mk_world n (disk w) (trace w ++ [EvHead url o])).
        destruct (IH w1) as (Hdisk & misses & tail & Hc & Hm & Hcases).
        split; [exact Hdisk|].
        exists ((c, o) :: misses), tail. split; [cbn; rewrite Hc; reflexivity|].
        split.
        { constructor; [|exact Hm]. cbn [snd]. unfold miss. rewrite Ecl, Ehit.
          reflexivity. }
        destruct Hcases as [(Ht & Hres & Htr)|(c' & o' & tail' & Ht & Htr & Hres)].
        -- left. split; [exact Ht|]. split; [exact Hres|].
           rewrite Htr. cbn [trace w1 probe_events map]. rewrite <- app_assoc.
           reflexivity.
        -- right. exists c', o', tail'. split; [exact Ht|]. split; [|exact Hres].
           rewrite Htr. cbn [trace w1 probe_events map app].
           rewrite <- app_assoc. reflexivity.
    + split; [reflexivity|]. exists [], (c :: cands).
      split; [reflexivity|]. split; [constructor|]. right.
      exists c, o, cands. split; [reflexivity|]. split; [reflexivity|].
      right. exists e. auto.
Qed.

Lemma scan_seconds_in_order card dd fd hhmm ftype sss (w : @world remote) :
  scan_seconds card dd fd hhmm ftype sss w
  = probe_in_order card dd fd hhmm ftype (map Z.of_nat sss) w.
Proof.
  revert w. induction sss as [|ss sss IH]; intros w; [reflexivity|].
  cbn [scan_seconds probe_in_order map]. rewrite !prog_bind_run.
  destruct (is_real_file _ _ _) as [[r|e] w1]; [|reflexivity].
  destruct (hit r); [reflexivity|]. apply IH.
Qed.


(** The inner loop is a search over the candidates that are seconds,
    followed by the rest of the search when it finds nothing. *)
Lemma try_candidates_in_order card dd fd hhmm ftype cands rest
    (k : prog (option string * Z)) :
  (forall w : @world remote,
      k w = probe_in_order card dd fd hhmm ftype rest w) ->
  forall w : @world remote,
    (found ← try_candidates card dd fd hhmm ftype cands;
     match found with
     | Some (ss_str, size) => mret (Some ss_str, size)
     | None => k
     end) w
    = probe_in_order card dd fd hhmm ftype
        (List.filter is_second cands ++ rest) w.
Proof.
  intros Hk. induction cands as [|c cands IH]; intros w.
  - rewrite prog_bind_run. cbn. apply Hk.
  - cbn [try_candidates List.filter]. unfold is_second at 1.
    destruct (Z.ltb_spec c 0) as [Hneg|Hpos].
    + cbn [orb]. replace (0 <=? c) with false by (symmetry; apply Z.leb_gt; lia).
      cbn [andb]. apply IH.
    + cbn [orb]. replace (0 <=? c) with true by (symmetry; apply Z.leb_le; lia).
      cbn [andb]. rewrite Z.geb_leb.
      destruct (Z.leb_spec 60 c) as [Hbig|Hsmall].
      * replace (c <? 60) with false by (symmetry; apply Z.ltb_ge; lia). apply IH.
      * replace (c <? 60) with true by (symmetry; apply Z.ltb_lt; lia).
        cbn [app probe_in_order]. rewrite !prog_bind_run.
        destruct (is_real_file _ _ _) as [[r|e] w1]; [|reflexivity].
        destruct (hit r); [reflexivity|].
        specialize (IH w1). rewrite prog_bind_run in IH. exact IH.
Qed.

Lemma scan_offsets_in_order card dd fd hhmm ftype ref offsets :
  forall w : @world remote,
    scan_offsets card dd fd hhmm ftype ref offsets w
    = probe_in_order card dd fd hhmm ftype
        (List.filter is_second
           (flat_map (λ k, candidates ref (Z.of_nat k)) offsets)) w.
Proof.
  induction offsets as [|offset offsets IH]; intros w; [reflexivity|].
  cbn [scan_offsets flat_map]. rewrite List.filter_app.
  apply try_candidates_in_order. exact IH.
Qed.

Lemma candidates_order ref window :
  0 <= window ->
  flat_map (λ k, candidates ref (Z.of_nat k)) (range (window + 1))
  = near_order ref window.
Proof.
  intros Hw. unfold range, near_order.
  replace (Z.to_nat (window + 1)) with (S (Z.to_nat window)) by lia.
  cbn [seq flat_map]. unfold candidates at 1. cbn [Z.of_nat Z.eqb app].
  rewrite Z.add_0_r. f_equal.
  generalize (Z.to_nat window) as n. generalize (Nat.le_refl 1).
  generalize 1%nat at 2 3 4 as start.
  intros start Hs n. revert start Hs.
  induction n as [|n IH]; intros start Hs; [reflexivity|].
  cbn [seq flat_map]. rewrite (IH (S start)) by lia. f_equal.
  unfold candidates.
  replace (Z.of_nat start =? 0) with false by (symmetry; apply Z.eqb_neq; lia).
  reflexivity.
Qed.

Lemma find_seconds_near_in_order card dd fd hhmm ftype reference_ss ref window
    (w : @world remote) :
  Py.int_of_str reference_ss = Ok ref -> 0 <= window ->
  find_seconds_near card dd fd hhmm ftype reference_ss window w
  = probe_in_order card dd fd hhmm ftype (near_candidates ref window) w.
Proof.
  intros Href Hw. unfold find_seconds_near. rewrite prog_bind_run.
  unfold lift. rewrite Href. rewrite scan_offsets_in_order.
  rewrite candidates_order by exact Hw. reflexivity.
Qed.

End SearchProperties.



Example near_order_edges :
  near_candidates 2 4 = [2; 3; 1; 4; 0; 5; 6]
  /\ near_candidates 58 3 = [58; 59; 57; 56; 55].
Proof. vm_compute. split; reflexivity. Qed.



Section DownloadProperties.

Context {remote : Type} {dev : Device remote}.


Lemma process_date_not_directory card output_dir by_dir dir_date t
    (w w1 : @world remote) :
  is_real_directory card ("DATALOG/" +:+ dir_date) w = (Ok false, w1) ->
  process_date card output_dir by_dir dir_date t w
  = (Ok (mk_totals (total_downloaded t) (total_skipped t)
                   (total_probed t + 1) (total_not_found t)), w1).
Proof.
  intros Hdir. unfold process_date. rewrite prog_bind_run, Hdir. reflexivity.
Qed.

End DownloadProperties.









(** C10: a path is taken for a directory exactly when the probe of the path
    without its trailing slashes answers (true, 0); and when the probe of a
    day's directory does not, a failed request included, the day is left
    after that one probe: no session of it is probed or fetched. *)
Theorem directory_probe {remote : Type} {dev : Device remote} card output_dir
    by_dir dir_date t (w : @world remote) :
  (forall path,
      fst (is_real_directory card path w) = Ok true
      <-> fst (is_real_file card (Py.rstrip_char "/" path) w) = Ok (true, 0))
  /\ (forall w1,
        is_real_directory card ("DATALOG/" +:+ dir_date) w = (Ok false, w1) ->
        process_date card output_dir by_dir dir_date t w
        = (Ok (mk_totals (total_downloaded t) (total_skipped t)
                         (total_probed t + 1) (total_not_found t)), w1)
        /\ disk w1 = disk w
        /\ exists o,
            trace w1
            = trace w ++ [EvHead (url_of card (Py.rstrip_char "/"
                                                 ("DATALOG/" +:+ dir_date))) o])
  /\ (forall n,
        http_head (net w)
          (url_of card (Py.rstrip_char "/" ("DATALOG/" +:+ dir_date)))
        = (RequestException, n) ->
        fst (is_real_directory card ("DATALOG/" +:+ dir_date) w) = Ok false).
Proof.
  split; [|split].
  - intros path. rewrite is_real_directory_run.
    destruct (is_real_file _ _ _) as [[[e s]|e] w']; cbn [fst].
    + split.
      * intros [= Hb]. apply andb_true_iff in Hb as [-> Hs].
        apply Z.eqb_eq in Hs. subst s. reflexivity.
      * intros [= -> ->]. reflexivity.
    + split; discriminate.
  - intros w1 Hdir. split; [apply process_date_not_directory; exact Hdir|].
    rewrite is_real_directory_run, is_real_file_run in Hdir.
    destruct (http_head _ _) as [o n].
    destruct (classify_outcome o) as [[e s]|e]; [|discriminate].
    injection Hdir as _ <-. split; [reflexivity|]. exists o. reflexivity.
  - intros n Hn. rewrite is_real_directory_run, is_real_file_run, Hn. reflexivity.
Qed.

Lemma directory_probe_witness :
  process_date (dev := unreachable_device) the_card "out" a_day "20240110"
    zero_totals empty_world
  = (Ok (mk_totals 0 0 1 0),
     mk_world tt ∅ [EvHead "http://192.168.4.1/DATALOG/20240110" RequestException])
  /\ fst (is_real_directory (dev := unreachable_device) the_card
            "DATALOG/20240110" empty_world) = Ok false.
Proof.
  split.
  - refine (proj1 (proj1 (proj2 (directory_probe (dev := unreachable_device)
                                   the_card "out" a_day "20240110" zero_totals
                                   empty_world)) _ _)).
    reflexivity.
  - refine (proj2 (proj2 (directory_probe (dev := unreachable_device)
                            the_card "out" a_day "20240110" zero_totals
                            empty_world)) tt _).
    reflexivity.
Defined.


Lemma same_size_true d lp size :
  same_size d lp size = true <-> has_size d lp size.
Proof.
  unfold same_size, has_size. destruct (d !! lp) as [bs|].
  - rewrite Z.eqb_eq. split; [eauto|]. intros (bs' & [= <-] & Hl). exact Hl.
  - split; [discriminate|]. intros (bs' & Hl & _). discriminate.
Qed.

Lemma append_inj_l (a b c : string) : a +:+ b = a +:+ c -> b = c.
Proof.
  induction a as [|x a IH]; cbn [append]; [auto|]. intros [= E]. auto.
Qed.

Lemma os_path_join_datalog_inj out dd base ext dd' base' ext' :
  os_path_join out (datalog_path dd base ext)
  = os_path_join out (datalog_path dd' base' ext') ->
  datalog_path dd base ext = datalog_path dd' base' ext'.
Proof.
  unfold datalog_path.
  generalize (dd +:+ "/" +:+ base +:+ ext) as x.
  generalize (dd' +:+ "/" +:+ base' +:+ ext') as y.
  intros y x. unfold os_path_join. simpl.
  destruct (String.eqb out "" || endswith_char "/" out); intros E.
  - exact (append_inj_l out _ _ E).
  - exact (append_inj_l "/" _ _ (append_inj_l out _ _ E)).
Qed.

Lemma totals_eq a b c d a' b' c' d' :
  a = a' -> b = b' -> c = c' -> d = d' -> mk_totals a b c d = mk_totals a' b' c' d'.
Proof. intros -> -> -> ->. reflexivity. Qed.

Section Idempotence.

Context {remote : Type} {dev : Device remote}.

Variable n0 : remote.
Variable card : EzShareCard.
Variable output_dir : string.

Hypothesis Hunchanged : unchanged_remote n0.
Hypothesis Hagree : sizes_agree n0.

#[local] Abbreviation hits := (hits n0 card).
#[local] Abbreviation synced := (synced n0 card output_dir).
#[local] Abbreviation covers := (covers n0 card output_dir).
#[local] Abbreviation probes_only := (probes_only n0).
#[local] Abbreviation is_probe := (is_probe n0).
#[local] Abbreviation file_hits := (file_hits n0 card).
#[local] Abbreviation repeatable := (repeatable n0 card output_dir).

Lemma covers_refl d : covers d d.
Proof. intros dd base ext Hs. exact Hs. Qed.

Lemma covers_trans d1 d2 d3 : covers d1 d2 -> covers d2 d3 -> covers d1 d3.
Proof. intros H12 H23 dd base ext Hs. apply H23, H12, Hs. Qed.

Lemma hits_unique path s s' : hits path s -> hits path s' -> s = s'.
Proof. intros [H1 _] [H2 _]. congruence. Qed.

(** Storing the file that the device serves keeps every copy in step. *)
Lemma covers_insert d dd base ext bs size :
  hits (datalog_path dd base ext) size ->
  Z.of_nat (length bs) = size ->
  covers d (<[os_path_join output_dir (datalog_path dd base ext) := bs]> d)
  /\ synced (<[os_path_join output_dir (datalog_path dd base ext) := bs]> d)
            (datalog_path dd base ext).
Proof.
  intros Hhit Hlen. split.
  - intros dd' base' ext' Hs size' Hhit'.
    destruct (decide (os_path_join output_dir (datalog_path dd base ext)
                      = os_path_join output_dir (datalog_path dd' base' ext')))
      as [E|E].
    + rewrite <- E. apply os_path_join_datalog_inj in E. rewrite <- E in Hhit'.
      rewrite (hits_unique _ _ _ Hhit' Hhit).
      exists bs. split; [apply lookup_insert_eq|exact Hlen].
    + destruct (Hs size' Hhit') as (bs' & Hl & Hlen').
      exists bs'. split; [|exact Hlen']. rewrite lookup_insert_ne; assumption.
  - intros size' Hhit'. rewrite (hits_unique _ _ _ Hhit' Hhit).
    exists bs. split; [apply lookup_insert_eq|exact Hlen].
Qed.

Lemma is_probe_ret {A} (a : A) : is_probe (mret a).
Proof.
  exists (Ok a), []. split; [reflexivity|]. intros w Hn.
  rewrite app_nil_r. destruct w as [n d tr]. cbn in *. subst n. reflexivity.
Qed.

Lemma is_probe_lift {A} (r : result A) : is_probe (lift r).
Proof.
  exists r, []. split; [reflexivity|]. intros w Hn.
  rewrite app_nil_r. destruct w as [n d tr]. cbn in *. subst n. reflexivity.
Qed.

Lemma is_probe_bind {A B} (m : prog A) (k : A -> prog B) :
  is_probe m -> (forall a, is_probe (k a)) -> is_probe (m ≫= k).
Proof.
  intros (r & evs & Hevs & Hm) Hk. destruct r as [a|e].
  - destruct (Hk a) as (r' & evs' & Hevs' & Hka).
    exists r', (evs ++ evs'). split; [rewrite forallb_app, Hevs, Hevs'; reflexivity|].
    intros w Hn. rewrite prog_bind_run, (Hm w Hn).
    rewrite (Hka (mk_world n0 (disk w) (trace w ++ evs)) eq_refl).
    cbn [disk trace]. rewrite app_assoc. reflexivity.
  - exists (Raise e), evs. split; [exact Hevs|].
    intros w Hn. rewrite prog_bind_run, (Hm w Hn). reflexivity.
Qed.

Lemma is_real_file_probe path :
  probes_only (is_real_file card path)
    (classify_outcome (fst (http_head n0 (url_of card path))))
    [EvHead (url_of card path) (fst (http_head n0 (url_of card path)))].
Proof.
  split; [reflexivity|]. intros w Hn. rewrite is_real_file_run, Hn.
  destruct (Hunchanged (url_of card path)) as [Hh _].
  destruct (http_head n0 (url_of card path)) as [o n]. cbn [fst snd] in *.
  subst n. reflexivity.
Qed.

Lemma is_real_file_is_probe path : is_probe (is_real_file card path).
Proof. eexists _, _. apply is_real_file_probe. Qed.

Lemma is_real_directory_is_probe path : is_probe (is_real_directory card path).
Proof.
  unfold is_real_directory. apply is_probe_bind; [apply is_real_file_is_probe|].
  intros [e s]. apply is_probe_ret.
Qed.

Lemma probe_in_order_is_probe dd fd hhmm ftype cands :
  is_probe (probe_in_order card dd fd hhmm ftype cands).
Proof.
  induction cands as [|c cands IH]; [apply is_probe_ret|].
  cbn [probe_in_order]. apply is_probe_bind; [apply is_real_file_is_probe|].
  intros r. destruct (hit r); [apply is_probe_ret|exact IH].
Qed.

Lemma is_probe_ext {A} (m m' : prog A) :
  (forall w, m w = m' w) -> is_probe m' -> is_probe m.
Proof.
  intros E (r & evs & Hevs & Hm). exists r, evs. split; [exact Hevs|].
  intros w Hn. rewrite E. apply Hm, Hn.
Qed.

Lemma find_seconds_for_type_is_probe dd fd hhmm ftype :
  is_probe (find_seconds_for_type card dd fd hhmm ftype).
Proof.
  eapply is_probe_ext; [|apply probe_in_order_is_probe].
  intros w. unfold find_seconds_for_type. apply scan_seconds_in_order.
Qed.

Lemma find_seconds_near_is_probe dd fd hhmm ftype reference_ss window :
  is_probe (find_seconds_near card dd fd hhmm ftype reference_ss window).
Proof.
  unfold find_seconds_near. apply is_probe_bind; [apply is_probe_lift|].
  intros ref. eapply is_probe_ext; [|apply probe_in_order_is_probe].
  intros w. apply scan_offsets_in_order.
Qed.

Lemma search_types_is_probe dd fd hhmm brp_ss skip_brp ftypes :
  forall files t,
    is_probe (search_types card dd fd hhmm brp_ss skip_brp ftypes files t).
Proof.
  induction ftypes as [|ftype ftypes IH]; intros files t; [apply is_probe_ret|].
  cbn [search_types]. destruct (skip_brp && String.eqb ftype "BRP"); [apply IH|].
  apply is_probe_bind; [apply find_seconds_near_is_probe|].
  intros [ss size]. apply IH.
Qed.

(** *** What the searches return was probed as present *)

Lemma probe_in_order_hits dd fd hhmm ftype cands :
  forall (w w1 : @world remote) ss size,
    net w = n0 ->
    probe_in_order card dd fd hhmm ftype cands w = (Ok (Some ss, size), w1) ->
    hits (edf_path dd fd hhmm ss ftype) size.
Proof.
  induction cands as [|c cands IH]; intros w w1 ss size Hn Hrun; [discriminate|].
  cbn [probe_in_order] in Hrun.
  rewrite prog_bind_run, (proj2 (is_real_file_probe _) w Hn) in Hrun.
  destruct (classify_outcome _) as [r|e] eqn:Ecl; [|discriminate].
  destruct (hit r) eqn:Ehit.
  - injection Hrun as <- <- _. destruct r as [e s]. unfold hit in Ehit.
    cbn [fst snd] in *. apply andb_true_iff in Ehit as [-> Hs].
    apply Z.ltb_lt in Hs. split; assumption.
  - eapply IH; [|exact Hrun]. reflexivity.
Qed.

Lemma find_seconds_for_type_hits dd fd hhmm ftype (w w1 : @world remote) ss size :
  net w = n0 ->
  find_seconds_for_type card dd fd hhmm ftype w = (Ok (Some ss, size), w1) ->
  hits (edf_path dd fd hhmm ss ftype) size.
Proof.
  intros Hn Hrun. unfold find_seconds_for_type in Hrun.
  rewrite scan_seconds_in_order in Hrun. eapply probe_in_order_hits; eassumption.
Qed.

Lemma find_seconds_near_hits dd fd hhmm ftype reference_ss window
    (w w1 : @world remote) ss size :
  net w = n0 ->
  find_seconds_near card dd fd hhmm ftype reference_ss window w
  = (Ok (Some ss, size), w1) ->
  hits (edf_path dd fd hhmm ss ftype) size.
Proof.
  intros Hn Hrun. unfold find_seconds_near in Hrun.
  rewrite prog_bind_run in Hrun. unfold lift in Hrun.
  destruct (Py.int_of_str reference_ss) as [ref|e]; [|discriminate].
  rewrite scan_offsets_in_order in Hrun.
  eapply probe_in_order_hits; eassumption.
Qed.

Lemma search_types_hits dd fd hhmm brp_ss skip_brp ftypes :
  forall files t (w w1 : @world remote) files1 t1,
    net w = n0 ->
    Forall (file_hits dd fd hhmm) files ->
    search_types card dd fd hhmm brp_ss skip_brp ftypes files t w
    = (Ok (files1, t1), w1) ->
    Forall (file_hits dd fd hhmm) files1
    /\ total_downloaded t1 = total_downloaded t
    /\ total_skipped t1 = total_skipped t.
Proof.
  induction ftypes as [|ftype ftypes IH]; intros files t w w1 files1 t1 Hn Hall Hrun.
  - injection Hrun as <- <- _. auto.
  - cbn [search_types] in Hrun.
    destruct (skip_brp && String.eqb ftype "BRP"); [eapply IH; eassumption|].
    rewrite prog_bind_run in Hrun.
    destruct (find_seconds_near_is_probe dd fd hhmm ftype brp_ss default_window)
      as (r & evs & _ & Hm).
    pose proof (Hm w Hn) as Hnear. rewrite Hnear in Hrun.
    destruct r as [[ss size]|e]; [|discriminate].
    eapply IH in Hrun; [|reflexivity|].
    + cbn [total_downloaded total_skipped] in Hrun. exact Hrun.
    + destruct ss as [ss|]; [|exact Hall].
      apply Forall_app; split; [exact Hall|]. constructor; [|constructor].
      eapply find_seconds_near_hits; eassumption.
Qed.


(** *** Fetching *)

Lemma world_eta (w : @world remote) :
  net w = n0 -> mk_world n0 (disk w) (trace w ++ []) = w.
Proof. destruct w as [n d tr]. cbn. intros ->. rewrite app_nil_r. reflexivity. Qed.

Lemma same_size_has_size (w : @world remote) lp size :
  same_size_on_disk lp size w = (Ok (same_size (disk w) lp size), w).
Proof. reflexivity. Qed.

(** A file the device announces is fetched whole. *)
Lemma download_file_agrees dd base ext size (w : @world remote) :
  net w = n0 ->
  hits (datalog_path dd base ext) size ->
  exists bs o,
    Z.of_nat (length bs) = size
    /\ download_file card (datalog_path dd base ext)
         (os_path_join output_dir (datalog_path dd base ext)) (Some size) w
       = (Ok true,
          mk_world n0
            (<[os_path_join output_dir (datalog_path dd base ext) := bs]> (disk w))
            (trace w ++ [EvGet (url_of card (datalog_path dd base ext)) o])).
Proof.
  intros Hn [Hcl Hpos].
  destruct (Hagree _ _ Hcl Hpos) as (r & Hget & Hct & Hcomplete & Hlen).
  destruct (Hunchanged (url_of card (datalog_path dd base ext))) as [_ Hg].
  exists (get_body r), (Response r). split; [exact Hlen|].
  unfold download_file. rewrite prog_bind_run. unfold session_get. rewrite Hn.
  destruct (http_get n0 _) as [o n]. cbn [fst snd] in *. subst o n.
  rewrite Hct, prog_bind_run. unfold write_file. rewrite Hcomplete.
  rewrite prog_bind_run. unfold getsize. cbn [disk].
  rewrite lookup_insert_eq, prog_bind_run. unfold size_mismatch.
  rewrite Hlen, Z.eqb_refl, andb_false_r. reflexivity.
Qed.

Lemma repeatable_ret (f : totals -> totals) :
  (forall t t', f t' = second_run_totals t (f t) t') ->
  repeatable (λ t, mret (f t)).
Proof.
  intros Hf t w t1 w1 Hn [= <- <-]. split; [exact Hn|].
  split; [apply covers_refl|]. intros t' w' Hn' _. exists [].
  split; [reflexivity|]. rewrite world_eta by exact Hn'. rewrite <- Hf.
  reflexivity.
Qed.

Lemma second_run_totals_trans t ta t1 t' :
  second_run_totals ta t1 (second_run_totals t ta t') = second_run_totals t t1 t'.
Proof. unfold second_run_totals, fetched. cbn. apply totals_eq; lia. Qed.

Lemma repeatable_seq (op1 op2 : totals -> prog totals) :
  repeatable op1 -> repeatable op2 -> repeatable (λ t, op1 t ≫= op2).
Proof.
  intros H1 H2 t w t1 w1 Hn Hrun. rewrite prog_bind_run in Hrun.
  destruct (op1 t w) as [[ta|e] wa] eqn:E1; [|discriminate].
  destruct (H1 _ _ _ _ Hn E1) as (Hna & Hca & Hagain1).
  destruct (H2 _ _ _ _ Hna Hrun) as (Hn1 & Hc1 & Hagain2).
  split; [exact Hn1|]. split; [eapply covers_trans; eassumption|].
  intros t' w' Hn' Hc'.
  destruct (Hagain1 t' w' Hn' (covers_trans _ _ _ Hc1 Hc')) as (evs1 & Hev1 & Hr1).
  destruct (Hagain2 (second_run_totals t ta t')
              (mk_world n0 (disk w') (trace w' ++ evs1)) eq_refl Hc')
    as (evs2 & Hev2 & Hr2).
  exists (evs1 ++ evs2). split; [rewrite forallb_app, Hev1, Hev2; reflexivity|].
  rewrite prog_bind_run, Hr1, Hr2. cbn [disk trace].
  rewrite second_run_totals_trans, app_assoc. reflexivity.
Qed.

Lemma repeatable_after_probe {A} (m : prog A) (k : A -> totals -> prog totals) :
  is_probe m ->
  (forall a (w w1 : @world remote),
      net w = n0 -> m w = (Ok a, w1) -> repeatable (k a)) ->
  repeatable (λ t, a ← m; k a t).
Proof.
  intros (r & evs & Hevs & Hm) Hk t w t1 w1 Hn Hrun.
  rewrite prog_bind_run, (Hm w Hn) in Hrun.
  destruct r as [a|e]; [|discriminate].
  destruct (Hk a w _ Hn (Hm w Hn) t (mk_world n0 (disk w) (trace w ++ evs))
              t1 w1 eq_refl Hrun)
    as (Hn1 & Hc1 & Hagain).
  split; [exact Hn1|]. split; [exact Hc1|].
  intros t' w' Hn' Hc'.
  destruct (Hagain t' (mk_world n0 (disk w') (trace w' ++ evs)) eq_refl Hc')
    as (evs2 & Hev2 & Hr2).
  exists (evs ++ evs2). split; [rewrite forallb_app, Hevs, Hev2; reflexivity|].
  rewrite prog_bind_run, (Hm w' Hn'), Hr2. cbn [disk trace].
  rewrite app_assoc. reflexivity.
Qed.

Lemma fetch_edf_repeatable dd base size :
  hits (datalog_path dd base ".edf") size ->
  repeatable (fetch_edf card (datalog_path dd base ".edf")
                (os_path_join output_dir (datalog_path dd base ".edf")) size).
Proof.
  intros Hhit t w t1 w1 Hn Hrun.
  set (path := datalog_path dd base ".edf") in *.
  set (lp := os_path_join output_dir path) in *.
  assert (Hfirst : net w1 = n0 /\ covers (disk w) (disk w1)
                   /\ synced (disk w1) path /\ fetched t1 = fetched t + 1
                   /\ total_probed t1 = total_probed t
                   /\ total_not_found t1 = total_not_found t).
  { unfold fetch_edf in Hrun. rewrite prog_bind_run, same_size_has_size in Hrun.
    destruct (same_size (disk w) lp size) eqn:Hsz.
    - apply same_size_true in Hsz. injection Hrun as <- <-. split; [exact Hn|]. split; [apply covers_refl|].
      split; [|unfold fetched; cbn; lia].
      intros s' Hs'. rewrite (hits_unique _ _ _ Hs' Hhit). exact Hsz.
    - rewrite prog_bind_run in Hrun.
      destruct (download_file_agrees dd base ".edf" size w Hn Hhit)
        as (bs & o & Hlen & Hdl).
      fold path lp in Hdl. rewrite Hdl in Hrun. injection Hrun as <- <-.
      cbn [net disk]. split; [reflexivity|].
      destruct (covers_insert (disk w) dd base ".edf" bs size Hhit Hlen)
        as [Hc Hs].
      split; [exact Hc|]. split; [exact Hs|]. unfold fetched; cbn; lia. }
  destruct Hfirst as (Hn1 & Hc1 & Hs1 & Hf & Hp & Hnf).
  split; [exact Hn1|]. split; [exact Hc1|].
  intros t' w' Hn' Hc'. exists []. split; [reflexivity|].
  rewrite world_eta by exact Hn'.
  unfold fetch_edf. rewrite prog_bind_run, same_size_has_size.
  rewrite (proj2 (same_size_true (disk w') lp size)
             (Hc' dd base ".edf" Hs1 size Hhit)).
  unfold mret, prog_ret, second_run_totals. cbv beta iota.
  do 2 f_equal. apply totals_eq; lia.
Qed.

Lemma fetch_crc_repeatable dd base :
  repeatable (keeping (fetch_crc card (datalog_path dd base ".crc")
                         (os_path_join output_dir (datalog_path dd base ".crc")))).
Proof.
  intros t w t1 w1 Hn Hrun. unfold keeping in Hrun.
  set (path := datalog_path dd base ".crc") in *.
  set (lp := os_path_join output_dir path) in *.
  pose proof (is_real_file_probe path) as [_ Hprobe].
  set (o := fst (http_head n0 (url_of card path))) in *.
  set (ev := EvHead (url_of card path) o) in *.
  rewrite prog_bind_run in Hrun. unfold fetch_crc in Hrun.
  rewrite prog_bind_run, (Hprobe w Hn) in Hrun.
  destruct (classify_outcome o) as [crc|e] eqn:Ecl; [|discriminate].
  assert (Hagain : forall t' (w' : @world remote),
             net w' = n0 ->
             (hit crc = true -> has_size (disk w') lp (snd crc)) ->
             keeping (fetch_crc card path lp) t' w'
             = (Ok t', mk_world n0 (disk w') (trace w' ++ [ev]))).
  { intros t' w' Hn' Hsz. unfold keeping. rewrite prog_bind_run. unfold fetch_crc.
    rewrite prog_bind_run, (Hprobe w' Hn').
    destruct (hit crc) eqn:Ehit; [|reflexivity].
    rewrite prog_bind_run, same_size_has_size. cbn [disk].
    rewrite (proj2 (same_size_true (disk w') lp (snd crc)) (Hsz eq_refl)).
    reflexivity. }
  assert (Hfirst : t1 = t /\ net w1 = n0 /\ covers (disk w) (disk w1)
                   /\ (hit crc = true -> synced (disk w1) path)).
  { destruct (hit crc) eqn:Ehit.
    - assert (Hhit : hits path (snd crc)).
      { destruct crc as [e s]. unfold hit in Ehit. cbn [fst snd] in *.
        apply andb_true_iff in Ehit as [-> Hs]. apply Z.ltb_lt in Hs.
        split; assumption. }
      rewrite prog_bind_run, same_size_has_size in Hrun. cbn [disk] in Hrun.
      destruct (same_size (disk w) lp (snd crc)) eqn:Hsz.
      + apply same_size_true in Hsz. injection Hrun as <- <-. cbn [net disk].
        split; [reflexivity|]. split; [reflexivity|]. split; [apply covers_refl|].
        intros _ s' Hs'. rewrite (hits_unique _ _ _ Hs' Hhit). exact Hsz.
      + rewrite prog_bind_run in Hrun.
        destruct (download_file_agrees dd base ".crc" (snd crc)
                    (mk_world n0 (disk w) (trace w ++ [ev])) eq_refl Hhit)
          as (bs & o' & Hlen & Hdl).
        fold path lp in Hdl. rewrite Hdl in Hrun. injection Hrun as <- <-.
        cbn [net disk].
        destruct (covers_insert (disk w) dd base ".crc" bs (snd crc) Hhit Hlen)
          as [Hc Hs].
        split; [reflexivity|]. split; [reflexivity|]. split; [exact Hc|].
        intros _. exact Hs.
    - injection Hrun as <- <-. cbn [net disk].
      split; [reflexivity|]. split; [reflexivity|]. split; [apply covers_refl|].
      discriminate. }
  destruct Hfirst as (-> & Hn1 & Hc1 & Hs1).
  split; [exact Hn1|]. split; [exact Hc1|].
  intros t' w' Hn' Hc'. exists [ev]. split; [reflexivity|].
  rewrite Hagain; [|exact Hn'|].
  - do 2 f_equal. unfold second_run_totals, fetched. destruct t'. cbn.
    apply totals_eq; lia.
  - intros Ehit. apply (Hc' dd base ".crc" (Hs1 Ehit)).
    destruct crc as [e s]. unfold hit in Ehit. cbn [fst snd] in *.
    apply andb_true_iff in Ehit as [-> Hs]. apply Z.ltb_lt in Hs.
    split; assumption.
Qed.

Lemma repeatable_ext (op op' : totals -> prog totals) :
  (forall t w, op t w = op' t w) -> repeatable op' -> repeatable op.
Proof.
  intros E Hop t w t1 w1 Hn Hrun. rewrite E in Hrun.
  destruct (Hop _ _ _ _ Hn Hrun) as (Hn1 & Hc1 & Hagain).
  split; [exact Hn1|]. split; [exact Hc1|].
  intros t' w' Hn' Hc'. destruct (Hagain t' w' Hn' Hc') as (evs & Hev & Hr).
  exists evs. split; [exact Hev|]. rewrite E. exact Hr.
Qed.

Lemma fetch_files_repeatable dd fd hhmm files :
  Forall (file_hits dd fd hhmm) files ->
  repeatable (fetch_files card output_dir dd fd hhmm files).
Proof.
  induction files as [|[[ftype ss] size] files IH]; intros Hall.
  - apply (repeatable_ret (λ t, t)). intros t t'.
    unfold second_run_totals, fetched. destruct t'. cbn. apply totals_eq; lia.
  - inversion Hall as [|? ? Hhit Hall']; subst.
    eapply repeatable_ext;
      [|apply (repeatable_seq _ _
                 (fetch_edf_repeatable dd (datalog_basename fd hhmm ss ftype)
                    size Hhit)
                 (repeatable_seq _ _
                    (fetch_crc_repeatable dd (datalog_basename fd hhmm ss ftype))
                    (IH Hall')))].
    intros t w. cbn [fetch_files]. unfold keeping. rewrite !prog_bind_run.
    destruct (fetch_edf _ _ _ _ _ _) as [[ta|e] wa]; [|reflexivity].
    rewrite !prog_bind_run.
    destruct (fetch_crc _ _ _ _) as [[[]|e] wb]; reflexivity.
Qed.

Lemma bump_repeatable probed not_found :
  repeatable (λ t, mret (bump probed not_found t)).
Proof.
  apply (repeatable_ret (bump probed not_found)). intros t t'.
  unfold bump, second_run_totals, fetched. cbn. apply totals_eq; lia.
Qed.

Lemma search_types_then dd fd hhmm brp_ss skip_brp ftypes
    (K : list (string * string * Z) -> totals -> prog totals) :
  (forall files, Forall (file_hits dd fd hhmm) files -> repeatable (K files)) ->
  forall files0,
    Forall (file_hits dd fd hhmm) files0 ->
    repeatable (λ t, r ← search_types card dd fd hhmm brp_ss skip_brp ftypes
                           files0 t;
                     K (fst r) (snd r)).
Proof.
  intros HK. induction ftypes as [|ftype ftypes IH]; intros files0 Hall.
  - eapply repeatable_ext; [|apply (HK files0 Hall)]. intros t w. reflexivity.
  - cbn [search_types].
    destruct (skip_brp && String.eqb ftype "BRP"); [apply IH, Hall|].
    eapply repeatable_ext;
      [|apply (repeatable_after_probe
                 (find_seconds_near card dd fd hhmm ftype brp_ss default_window)
                 (λ a t,
                    r ← search_types card dd fd hhmm brp_ss skip_brp ftypes
                          match fst a with
                          | Some ss => files0 ++ [(ftype, ss, snd a)]
                          | None => files0
                          end (bump 1 0 t);
                    K (fst r) (snd r)))].
    + intros t w. rewrite !prog_bind_run.
      destruct (find_seconds_near _ _ _ _ _ _ _ _) as [[[ss size]|e] wa];
        [|reflexivity].
      cbn [fst snd]. unfold bump. rewrite Z.add_0_r. reflexivity.
    + apply find_seconds_near_is_probe.
    + intros [ss size] w w1 Hn Hnear. cbn [fst snd].
      eapply repeatable_ext;
        [|eapply (repeatable_seq (λ t, mret (bump 1 0 t)));
          [apply bump_repeatable|apply IH]].
      * intros t w'. reflexivity.
      * destruct ss as [ss|]; [|exact Hall].
        apply Forall_app; split; [exact Hall|]. constructor; [|constructor].
        eapply find_seconds_near_hits; eassumption.
Qed.

Lemma process_session_repeatable dir_date s :
  repeatable (process_session card output_dir dir_date s).
Proof.
  unfold process_session.
  set (fd := Datetime.strftime_Ymd (start_time s)).
  set (hhmm := Datetime.strftime_HM (start_time s)).
  eapply repeatable_ext;
    [|apply (repeatable_after_probe
               (find_seconds_for_type card dir_date fd hhmm "BRP")
               (λ a t,
                  match fst a with
                  | None => mret (bump 60 5 t)
                  | Some brp_ss =>
                      n ← lift (Py.int_of_str brp_ss);
                      r ← search_types card dir_date fd hhmm brp_ss true
                            DATALOG_TYPES_LATE [("BRP"%string, brp_ss, snd a)]
                            (bump (n + 1) 0 t);
                      r ← search_types card dir_date fd hhmm brp_ss false
                            DATALOG_TYPES_EARLY (fst r) (snd r);
                      fetch_files card output_dir dir_date fd hhmm (fst r) (snd r)
                  end))].
  - intros t w. rewrite !prog_bind_run.
    destruct (find_seconds_for_type _ _ _ _ _ _) as [[[[brp_ss|] size]|e] wa];
      [| |reflexivity].
    + cbn [fst snd]. rewrite !prog_bind_run.
      destruct (lift _ _) as [[n|e] wb]; [|reflexivity].
      unfold bump. rewrite Z.add_0_r. rewrite !prog_bind_run.
      destruct (search_types _ _ _ _ _ _ _ _ _ _) as [[[files t1]|e] wc];
        [|reflexivity].
      cbn [fst snd]. rewrite !prog_bind_run.
      destruct (search_types _ _ _ _ _ _ _ _ _ _) as [[[files' t2]|e] wd];
        reflexivity.
    + cbn [fst snd]. unfold bump. reflexivity.
  - apply find_seconds_for_type_is_probe.
  - intros [[brp_ss|] size] w w1 Hn Hscan; cbn [fst snd];
      [|apply bump_repeatable].
    pose proof (find_seconds_for_type_hits _ _ _ _ _ _ _ _ Hn Hscan) as Hbrp.
    apply (repeatable_after_probe (lift (Py.int_of_str brp_ss))
             (λ n t,
                r ← search_types card dir_date fd hhmm brp_ss true
                      DATALOG_TYPES_LATE [("BRP"%string, brp_ss, size)]
                      (bump (n + 1) 0 t);
                r ← search_types card dir_date fd hhmm brp_ss false
                      DATALOG_TYPES_EARLY (fst r) (snd r);
                fetch_files card output_dir dir_date fd hhmm (fst r) (snd r)));
      [apply is_probe_lift|].
    intros n _ _ _ _.
    eapply repeatable_ext;
      [|eapply (repeatable_seq (λ t, mret (bump (n + 1) 0 t)));
        [apply bump_repeatable
        |apply (search_types_then dir_date fd hhmm brp_ss true
                  DATALOG_TYPES_LATE
                  (λ files t,
                     r ← search_types card dir_date fd hhmm brp_ss false
                           DATALOG_TYPES_EARLY files t;
                     fetch_files card output_dir dir_date fd hhmm (fst r) (snd r)))]].
    + intros t w'. reflexivity.
    + intros files Hfiles.
      apply (search_types_then dir_date fd hhmm brp_ss false DATALOG_TYPES_EARLY
               (fetch_files card output_dir dir_date fd hhmm)); [|exact Hfiles].
      intros files' Hfiles'. apply fetch_files_repeatable, Hfiles'.
    + constructor; [exact Hbrp|constructor].
Qed.

Lemma process_sessions_repeatable dir_date dir_sessions :
  repeatable (process_sessions card output_dir dir_date dir_sessions).
Proof.
  induction dir_sessions as [|s dir_sessions IH].
  - apply (repeatable_ret (λ t, t)). intros t t'.
    unfold second_run_totals, fetched. destruct t'. cbn. apply totals_eq; lia.
  - eapply repeatable_ext;
      [|apply (repeatable_seq _ _ (process_session_repeatable dir_date s) IH)].
    intros t w. reflexivity.
Qed.

Lemma process_date_repeatable by_dir dir_date :
  repeatable (process_date card output_dir by_dir dir_date).
Proof.
  unfold process_date.
  eapply repeatable_ext;
    [|apply (repeatable_after_probe
               (is_real_directory card ("DATALOG/" +:+ dir_date))
               (λ is_dir t,
                  if negb is_dir then mret (bump 1 0 t)
                  else process_sessions card output_dir dir_date
                         (by_dir !!! dir_date) t))].
  - intros t w. rewrite !prog_bind_run.
    destruct (is_real_directory _ _ _) as [[[|]|e] wa]; try reflexivity.
    cbn [negb]. unfold bump. rewrite Z.add_0_r. reflexivity.
  - apply is_real_directory_is_probe.
  - intros [|] _ _ _ _; cbn [negb];
      [apply process_sessions_repeatable|apply bump_repeatable].
Qed.

Lemma process_dates_repeatable by_dir dates :
  repeatable (process_dates card output_dir by_dir dates).
Proof.
  induction dates as [|dir_date dates IH].
  - apply (repeatable_ret (λ t, t)). intros t t'.
    unfold second_run_totals, fetched. destruct t'. cbn. apply totals_eq; lia.
  - eapply repeatable_ext;
      [|apply (repeatable_seq _ _ (process_date_repeatable by_dir dir_date) IH)].
    intros t w. reflexivity.
Qed.

End Idempotence.


(** C8, as stated: the device does not change and nothing touches the output
    directory between the runs, yet the second run downloads the file again,
    because the three bytes stored are not the four bytes announced. *)
Lemma second_run_downloads_again :
  run_twice (one_brp_device "4")
  = (Ok (mk_totals 1 0 5 0), Ok (mk_totals 1 0 5 0)).
Proof. vm_compute. reflexivity. Qed.

Example second_run_skips :
  run_twice (one_brp_device "3")
  = (Ok (mk_totals 1 0 5 0), Ok (mk_totals 0 1 5 0)).
Proof. vm_compute. reflexivity. Qed.

Section FetchOrSkip.

Context {remote : Type} {dev : Device remote}.

Lemma download_file_sends_get card remote_path local_path expected_size
    (w : @world remote) :
  exists o rest,
    trace (snd (download_file card remote_path local_path expected_size w))
    = trace w ++ EvGet (url_of card remote_path) o :: rest.
Proof.
  unfold download_file. rewrite prog_bind_run. unfold session_get.
  destruct (http_get (net w) (url_of card remote_path)) as [o n].
  exists o. destruct o as [r|]; [|exists []; reflexivity].
  destruct (Py.contains _ _); [exists []; reflexivity|].
  rewrite prog_bind_run. unfold write_file.
  destruct (get_complete r); [|exists []; reflexivity].
  rewrite prog_bind_run. unfold getsize. cbn [disk].
  rewrite prog_bind_run.
  destruct (size_mismatch _ _).
  - eexists. unfold log. cbn [snd trace]. rewrite <- app_assoc. reflexivity.
  - exists []. reflexivity.
Qed.

Lemma fetch_edf_skips card remote_edf local_edf size t (w : @world remote) :
  same_size (disk w) local_edf size = true ->
  fetch_edf card remote_edf local_edf size t w
  = (Ok (mk_totals (total_downloaded t) (total_skipped t + 1)
                   (total_probed t) (total_not_found t)), w).
Proof.
  intros Hs. unfold fetch_edf. rewrite prog_bind_run, same_size_has_size, Hs.
  reflexivity.
Qed.

Lemma fetch_edf_fetches card remote_edf local_edf size t (w : @world remote) :
  same_size (disk w) local_edf size = false ->
  exists o rest,
    trace (snd (fetch_edf card remote_edf local_edf size t w))
    = trace w ++ EvGet (url_of card remote_edf) o :: rest.
Proof.
  intros Hs. unfold fetch_edf. rewrite prog_bind_run, same_size_has_size, Hs.
  rewrite prog_bind_run.
  destruct (download_file_sends_get card remote_edf local_edf (Some size) w)
    as (o & rest & Htr).
  exists o, rest.
  destruct (download_file _ _ _ _ _) as [[[|]|e] w1]; exact Htr.
Qed.

End FetchOrSkip.

(** C8, amended: a confirmed file is skipped exactly when the local copy has
    the confirmed size, and fetched with a GET otherwise; and when no request
    changes the device and every file it announces is served whole with the
    announced size, a second run sends no GET, writes nothing and downloads
    nothing: what the first run downloaded or skipped is skipped. *)
Theorem second_run_skips_every_file {remote : Type} {dev : Device remote}
    card sessions output_dir cutoff (w : @world remote) t1 :
  (forall remote_edf local_edf size t,
      (same_size (disk w) local_edf size = true ->
       fetch_edf card remote_edf local_edf size t w
       = (Ok (mk_totals (total_downloaded t) (total_skipped t + 1)
                        (total_probed t) (total_not_found t)), w))
      /\ (same_size (disk w) local_edf size = false ->
          exists o rest,
            trace (snd (fetch_edf card remote_edf local_edf size t w))
            = trace w ++ EvGet (url_of card remote_edf) o :: rest))
  /\ (unchanged_remote (net w) ->
      sizes_agree (net w) ->
      fst (download_datalog card sessions output_dir cutoff w) = Ok t1 ->
      let w1 := snd (download_datalog card sessions output_dir cutoff w) in
      exists t2 probes,
        download_datalog card sessions output_dir cutoff w1
        = (Ok t2, mk_world (net w1) (disk w1) (trace w1 ++ probes))
        /\ forallb is_head probes = true
        /\ total_downloaded t2 = 0
        /\ total_skipped t2 = total_downloaded t1 + total_skipped t1).
Proof.
  split.
  - intros remote_edf local_edf size t. split.
    + apply fetch_edf_skips.
    + apply fetch_edf_fetches.
  - intros Hun Hag Hrun w1.
    destruct (download_datalog card sessions output_dir cutoff w) as [r w1'] eqn:E.
    cbn [fst snd] in *. subst r w1.
    unfold download_datalog in *.
    destruct (filter_sessions cutoff sessions) as [|s filtered] eqn:Ef.
    + injection E as <- <-. exists zero_totals, [].
      split; [|repeat split].
      destruct w as [n d tr]. cbn. rewrite app_nil_r. reflexivity.
    + pose proof (process_dates_repeatable (net w) card output_dir Hun Hag
                    (group_by_dir (s :: filtered))
                    (sorted (map fst (map_to_list (group_by_dir (s :: filtered)))))
                    zero_totals w t1 w1' eq_refl E) as (Hn1 & _ & Hagain).
      destruct (Hagain zero_totals w1' Hn1
                  (covers_refl (net w) card output_dir (disk w1')))
        as (probes & Hprobes & Hrun2).
      exists (second_run_totals zero_totals t1 zero_totals), probes.
      rewrite Hn1. split; [exact Hrun2|]. split; [exact Hprobes|].
      unfold second_run_totals, fetched. cbn. split; lia.
Qed.

Lemma one_brp_device_agrees : sizes_agree (dev := one_brp_device "3") tt.
Proof.
  intros url size. unfold http_head, http_get, one_brp_device, device_with.
  cbv [List.find fst snd].
  destruct (String.eqb "http://192.168.4.1/DATALOG/20240110" url).
  - intros Hcl. vm_compute in Hcl. injection Hcl as <-. lia.
  - destruct (String.eqb _ url); intros Hcl; vm_compute in Hcl.
    + injection Hcl as <-. intros _. eexists. split; [reflexivity|].
      vm_compute. repeat split.
    + discriminate.
Qed.

Lemma second_run_skips_every_file_witness :
  let w1 := snd (download_datalog (dev := one_brp_device "3") the_card
                   [a_session] "out" None empty_world) in
  exists t2 probes,
    download_datalog (dev := one_brp_device "3") the_card [a_session] "out" None w1
    = (Ok t2, mk_world (net w1) (disk w1) (trace w1 ++ probes))
    /\ forallb is_head probes = true
    /\ total_downloaded t2 = 0
    /\ total_skipped t2 = 1 + 0.
Proof.
  refine (proj2 (second_run_skips_every_file (dev := one_brp_device "3") the_card
                   [a_session] "out" None empty_world (mk_totals 1 0 5 0)) _ _ _).
  - intros url. split; reflexivity.
  - exact one_brp_device_agrees.
  - vm_compute. reflexivity.
Defined.

(** * More properties of the summary-file decoder *)

Lemma tagged_pairs_bound table : forall k i pr,
  In (i, pr) (tagged_pairs k table) -> (k <= i < k + length table)%nat.
Proof.
  induction table as [|row table IH]; intros k i pr Hin; [destruct Hin|].
  cbn [tagged_pairs] in Hin. apply in_app_or in Hin as [Hin|Hin].
  - apply in_map_iff in Hin as (x & [= <- _] & _). cbn [length]. lia.
  - apply IH in Hin. cbn [length]. lia.
Qed.

Lemma valid_tagged_in pairs i on off :
  In (i, (on, off)) (valid_tagged pairs) ->
  In (i, (on, off)) pairs /\ valid_pair on off = true.
Proof. unfold valid_tagged. intros H. apply filter_In in H. exact H. Qed.

Lemma expected_session_in_noon_day start i on off :
  wf_datetime start -> valid_pair on off = true ->
  in_noon_day (toordinal start + Z.of_nat i) (expected_session start i on off).
Proof.
  intros Hwf Hv. pose proof (toordinal_pos _ Hwf) as Hpos.
  unfold valid_pair in Hv.
  repeat (apply andb_true_iff in Hv as [Hv ?]).
  repeat match goal with
         | H : (_ <? _) = true |- _ => apply Z.ltb_lt in H
         end.
  unfold in_noon_day, expected_session, date_plus_days.
  cbn [record_date start_time duration_min]. fold (toordinal start).
  set (N := toordinal start + Z.of_nat i).
  assert (HN : 1 <= N) by (unfold N; lia).
  unfold noon_plus, at_minutes.
  set (mins := 720 + on).
  assert (Hmins : 720 < mins < 2160) by (unfold mins; lia).
  clearbody N.
  destruct (ord2ymd (N + mins / 1440)) as [[y m] d] eqn:E.
  assert (Hq : 0 <= mins / 1440) by (apply Z.div_pos; lia).
  destruct (ord2ymd_spec (N + mins / 1440) y m d ltac:(lia) E) as (_ & _ & Hord).
  unfold minutes_after_noon, toordinal. cbn [year month day hour minute second].
  rewrite Hord.
  split; [reflexivity|]. split; [reflexivity|].
  assert (Hon : (N + mins / 1440 - N) * 1440
                + (mins mod 1440 / 60 - 12) * 60 + mins mod 1440 mod 60 = on).
  { unfold mins. Z.div_mod_to_equations. lia. }
  rewrite Hon. split; [lia|]. split; [lia|]. split; [lia|].
  destruct (Z.ltb_spec (mins mod 1440 / 60) 12);
    revert H3; Z.div_mod_to_equations; lia.
Qed.

(** X1: every session returned is filed under a record day of the file and
    lies between the noon of that day and the next noon: it starts on a
    full minute after 12:00 of the record day, ends before 12:00 of the day
    after, and its calendar day is the record day when it starts at 12:00
    or later and the following day when it starts before 12:00. *)
Theorem sessions_lie_in_their_noon_day bs sessions :
  parse_str_edf bs = Ok sessions ->
  exists p f,
    read_preamble (fopen bs) = Ok (p, f)
    /\ Forall (λ s, exists i : nat,
                 Z.of_nat i < num_records p
                 /\ in_noon_day (toordinal (start_dt p) + Z.of_nat i) s)
              sessions.
Proof.
  intros H.
  destruct (parse_str_edf_inv bs sessions H)
    as (p & f & lay & table & Hp & _ & Htab & Hwf & ->).
  exists p, f. split; [exact Hp|].
  apply List.Forall_forall. intros s Hin.
  apply in_map_iff in Hin as ([i [on off]] & <- & Hin).
  apply valid_tagged_in in Hin as [Hin Hv].
  apply tagged_pairs_bound in Hin.
  apply read_all_markers_length in Htab. unfold range in Htab.
  rewrite length_seq in Htab.
  exists i. split; [lia|]. apply expected_session_in_noon_day; assumption.
Qed.

Lemma sessions_lie_in_their_noon_day_witness :
  exists p f,
    read_preamble (fopen example_str_edf) = Ok (p, f)
    /\ Forall (λ s, exists i : nat,
                 Z.of_nat i < num_records p
                 /\ in_noon_day (toordinal (start_dt p) + Z.of_nat i) s)
              [mk_session "20240110" (mk_dt 2024 1 11 10 0 0) 60;
               mk_session "20240111" (mk_dt 2024 1 11 12 30 0) 60].
Proof.
  apply (sessions_lie_in_their_noon_day example_str_edf).
  vm_compute. reflexivity.
Defined.

Lemma tagged_pairs_sorted table : forall k,
  StronglySorted le (map fst (tagged_pairs k table)).
Proof.
  induction table as [|row table IH]; intros k; [constructor|].
  cbn [tagged_pairs]. rewrite map_app, map_map. cbn [fst].
  assert (Hall : Forall (le k) (map fst (tagged_pairs (S k) table))).
  { apply List.Forall_forall. intros i Hi. apply in_map_iff in Hi as ([i' pr] & <- & Hi).
    apply tagged_pairs_bound in Hi. cbn [fst]. lia. }
  induction (row_pairs row) as [|pr l IHl]; [apply IH|].
  cbn [map app]. constructor; [exact IHl|].
  apply Forall_app; split; [|exact Hall].
  apply List.Forall_forall. intros i Hi. apply in_map_iff in Hi as (x & <- & _). lia.
Qed.

Lemma StronglySorted_filter_fst {A} (f : nat * A -> bool) (l : list (nat * A)) :
  StronglySorted le (map fst l) -> StronglySorted le (map fst (List.filter f l)).
Proof.
  induction l as [|x l IH]; intros Hs; [constructor|].
  cbn [map] in Hs. apply StronglySorted_inv in Hs as [Hs Hall].
  cbn [List.filter]. destruct (f x); [|apply IH, Hs].
  cbn [map]. constructor; [apply IH, Hs|].
  apply List.Forall_forall. intros i Hi. apply in_map_iff in Hi as (y & <- & Hy).
  apply filter_In in Hy as [Hy _].
  rewrite List.Forall_forall in Hall. apply Hall. apply in_map. exact Hy.
Qed.

(** X2: the sessions come out in the order of the records: the list of their
    record days, counted from the start date of the header, never goes
    back. *)
Theorem sessions_in_record_order bs sessions :
  parse_str_edf bs = Ok sessions ->
  exists p f (idxs : list nat),
    read_preamble (fopen bs) = Ok (p, f)
    /\ Forall2 (λ s i,
                  record_date s
                  = format_Ymd (date_plus_days (start_dt p) (Z.of_nat i)))
               sessions idxs
    /\ StronglySorted le idxs.
Proof.
  intros H.
  destruct (parse_str_edf_inv bs sessions H)
    as (p & f & lay & table & Hp & _ & _ & _ & ->).
  exists p, f, (map fst (valid_tagged (tagged_pairs 0 table))).
  split; [exact Hp|]. split.
  - clear H. induction (valid_tagged (tagged_pairs 0 table)) as [|[i [on off]] l IH];
      cbn [map]; constructor; [reflexivity|exact IH].
  - apply StronglySorted_filter_fst, tagged_pairs_sorted.
Qed.

Lemma sessions_in_record_order_witness :
  exists p f (idxs : list nat),
    read_preamble (fopen example_noisy_str_edf) = Ok (p, f)
    /\ Forall2 (λ s i,
                  record_date s
                  = format_Ymd (date_plus_days (start_dt p) (Z.of_nat i)))
               [mk_session "19991231" (mk_dt 2000 1 1 10 0 0) 60;
                mk_session "20000101" (mk_dt 2000 1 1 12 30 0) 60] idxs
    /\ StronglySorted le idxs.
Proof.
  apply (sessions_in_record_order example_noisy_str_edf).
  vm_compute. reflexivity.
Defined.

(** ** Files that are cut short *)

Lemma read_inv f n bs f' :
  read f n = Ok (bs, f') ->
  -1 <= n
  /\ content f' = content f
  /\ position f' = position f + Z.of_nat (length bs)
  /\ (0 <= n -> bs = take (Z.to_nat n) (drop (Z.to_nat (position f)) (content f))).
Proof.
  unfold read. destruct (Z.ltb_spec n (-1)); [discriminate|].
  intros [= <- <-]. cbn [content position]. repeat split; try lia.
  intros Hn. destruct (Z.ltb_spec n 0); [lia|reflexivity].
Qed.

Lemma seek_inv f pos f' :
  seek f pos = Ok f' -> 0 <= pos /\ f' = mk_file (content f) pos.
Proof.
  unfold seek. destruct (Z.ltb_spec pos 0); [discriminate|].
  intros [= <-]. split; [lia|reflexivity].
Qed.

Lemma decode_int_nil : decode_int [] = Raise ValueError.
Proof. reflexivity. Qed.

Lemma read_ints_inv n : forall f vs f',
  read_ints n f = Ok (vs, f') ->
  content f' = content f /\ length vs = n.
Proof.
  induction n as [|n IH]; intros f vs f' H.
  - injection H as <- <-. split; reflexivity.
  - cbn [read_ints] in H.
    apply bind_Ok_inv in H as ([bs f1] & Hread & H).
    apply bind_Ok_inv in H as (v & _ & H).
    apply bind_Ok_inv in H as ([vs' f2] & Hrest & H).
    injection H as <- <-.
    apply read_inv in Hread as (_ & Hc & _). apply IH in Hrest as [Hc' Hl].
    split; [congruence|]. cbn [length]. f_equal. exact Hl.
Qed.

Lemma read_labels_inv n : forall f vs f',
  read_labels n f = Ok (vs, f') ->
  content f' = content f /\ length vs = n.
Proof.
  induction n as [|n IH]; intros f vs f' H.
  - injection H as <- <-. split; reflexivity.
  - cbn [read_labels] in H.
    apply bind_Ok_inv in H as ([bs f1] & Hread & H).
    apply bind_Ok_inv in H as (v & _ & H).
    apply bind_Ok_inv in H as ([vs' f2] & Hrest & H).
    injection H as <- <-.
    apply read_inv in Hread as (_ & Hc & _). apply IH in Hrest as [Hc' Hl].
    split; [congruence|]. cbn [length]. f_equal. exact Hl.
Qed.

(** Reading [n + 1] numbers of eight bytes needs the file to reach into the
    last of them. *)
Lemma read_ints_needs_bytes n : forall f vs f',
  0 <= position f ->
  read_ints (S n) f = Ok (vs, f') ->
  position f + 8 * Z.of_nat n < Z.of_nat (length (content f)).
Proof.
  induction n as [|n IH]; intros f vs f' Hpos H.
  - cbn [read_ints] in H.
    apply bind_Ok_inv in H as ([bs f1] & Hread & H).
    apply bind_Ok_inv in H as (v & Hv & _).
    apply read_inv in Hread as (_ & _ & _ & Hbs). specialize (Hbs ltac:(lia)).
    destruct (Z_lt_ge_dec (position f) (Z.of_nat (length (content f))))
      as [Hlt|Hge]; [lia|exfalso].
    rewrite drop_ge in Hbs by lia. rewrite take_nil in Hbs. subst bs.
    rewrite decode_int_nil in Hv. discriminate.
  - remember (S n) as n1 eqn:En1. cbn [read_ints] in H.
    apply bind_Ok_inv in H as ([bs f1] & Hread & H).
    apply bind_Ok_inv in H as (v & Hv & H).
    apply bind_Ok_inv in H as ([vs' f2] & Hrest & _).
    apply read_inv in Hread as (_ & Hc & Hp & Hbs). specialize (Hbs ltac:(lia)).
    subst n1. apply IH in Hrest; [|lia]. rewrite Hc, Hp in Hrest.
    assert (Hlen : length bs = Nat.min 8 (length (content f) - Z.to_nat (position f))).
    { rewrite Hbs, length_take, length_drop. reflexivity. }
    lia.
Qed.

Lemma last_in_snoc_other label other l o :
  other <> label -> last_in label l o -> last_in label (l ++ [other]) o.
Proof.
  intros Hne. destruct o as [i|]; cbn [last_in].
  - intros [Hi Hlast]. split.
    + apply lookup_app_l_Some. exact Hi.
    + intros k Hk Hl. apply lookup_app_Some in Hl as [Hl|[_ Hl]].
      * exact (Hlast k Hk Hl).
      * apply list_lookup_singleton_Some in Hl as [_ Hl]. congruence.
  - intros Hnot Hin. apply in_app_or in Hin as [Hin|[Hin|[]]]; [tauto|congruence].
Qed.

Lemma last_in_snoc_same label l :
  last_in label (l ++ [label]) (Some (length l)).
Proof.
  cbn [last_in]. split.
  - rewrite lookup_app_r by lia. rewrite Nat.sub_diag. reflexivity.
  - intros k Hk Hl. apply lookup_lt_Some in Hl. rewrite length_app in Hl.
    cbn [length] in Hl. lia.
Qed.

Lemma find_mask_from_last labels : forall pre on off,
  last_in "MaskOn" pre on -> last_in "MaskOff" pre off ->
  last_in "MaskOn" (pre ++ labels)
    (fst (find_mask_from (length pre) labels on off))
  /\ last_in "MaskOff" (pre ++ labels)
       (snd (find_mask_from (length pre) labels on off)).
Proof.
  induction labels as [|label labels IH]; intros pre on off Hon Hoff.
  - rewrite app_nil_r. split; assumption.
  - cbn [find_mask_from].
    replace (pre ++ label :: labels) with ((pre ++ [label]) ++ labels)
      by (rewrite <- app_assoc; reflexivity).
    replace (S (length pre)) with (length (pre ++ [label]))
      by (rewrite length_app; cbn [length]; lia).
    destruct (String.eqb_spec label "MaskOn") as [->|Hne1].
    + apply IH; [apply last_in_snoc_same|].
      apply last_in_snoc_other; [discriminate|exact Hoff].
    + destruct (String.eqb_spec label "MaskOff") as [->|Hne2].
      * apply IH; [apply last_in_snoc_other; [discriminate|exact Hon]|].
        apply last_in_snoc_same.
      * apply IH; apply last_in_snoc_other; assumption.
Qed.

Lemma find_mask_last labels :
  last_in "MaskOn" labels (fst (find_mask labels))
  /\ last_in "MaskOff" labels (snd (find_mask labels)).
Proof.
  apply (find_mask_from_last labels [] None None); intros [].
Qed.

(** X3: when a label occurs more than once among the signal labels, the
    decoder takes the last signal with the label MaskOn and the last with
    the label MaskOff: their samples per record and the samples of the
    signals before them give the place of the markers in a record. *)
Theorem last_marker_channel_is_used p lay :
  mask_layout p = Ok lay ->
  exists maskon_idx maskoff_idx,
    last_index "MaskOn" (labels p) maskon_idx
    /\ last_index "MaskOff" (labels p) maskoff_idx
    /\ maskon_idx <> maskoff_idx
    /\ maskon_nsamples lay = nth maskon_idx (samples_per_record p) 0
    /\ maskoff_nsamples lay = nth maskoff_idx (samples_per_record p) 0
    /\ maskon_sample_offset lay = sum (take maskon_idx (samples_per_record p))
    /\ maskoff_sample_offset lay = sum (take maskoff_idx (samples_per_record p)).
Proof.
  unfold mask_layout. pose proof (find_mask_last (labels p)) as [Hon Hoff].
  destruct (find_mask (labels p)) as [[i|] [j|]]; try discriminate.
  intros [= <-]. exists i, j. cbn [fst snd last_in] in *.
  split; [exact Hon|]. split; [exact Hoff|]. split; [|repeat split].
  intros ->. destruct Hon as [Hon _], Hoff as [Hoff _]. congruence.
Qed.

Lemma last_marker_channel_is_used_witness :
  exists maskon_idx maskoff_idx,
    last_index "MaskOn" ["MaskOn"; "Leak"; "MaskOn"; "MaskOff"]%string maskon_idx
    /\ last_index "MaskOff" ["MaskOn"; "Leak"; "MaskOn"; "MaskOff"]%string maskoff_idx
    /\ maskon_idx <> maskoff_idx
    /\ 3 = nth maskon_idx [1; 2; 3; 4] 0
    /\ 4 = nth maskoff_idx [1; 2; 3; 4] 0
    /\ 3 = sum (take maskon_idx [1; 2; 3; 4])
    /\ 6 = sum (take maskoff_idx [1; 2; 3; 4]).
Proof.
  apply (last_marker_channel_is_used
           (mk_preamble 1 4 1280 (mk_dt 2024 1 10 0 0 0) [1; 2; 3; 4]
                        ["MaskOn"; "Leak"; "MaskOn"; "MaskOff"]%string)
           (mk_layout 10 3 6 3 4)).
  reflexivity.
Defined.

Lemma read_preamble_fields f p f' :
  read_preamble f = Ok (p, f') ->
  exists f2,
    0 <= 256 + num_signals p * 216
    /\ read_ints (Z.to_nat (num_signals p))
         (mk_file (content f) (256 + num_signals p * 216))
       = Ok (samples_per_record p, f2)
    /\ read_labels (Z.to_nat (num_signals p)) (mk_file (content f) 256)
       = Ok (labels p, f')
    /\ content f' = content f.
Proof.
  unfold read_preamble. intros H.
  apply bind_Ok_inv in H as ([header f1] & Hread & H).
  apply bind_Ok_inv in H as (nr & _ & H).
  apply bind_Ok_inv in H as (ns & _ & H).
  apply bind_Ok_inv in H as (hb & _ & H).
  apply bind_Ok_inv in H as (dt & _ & H).
  apply bind_Ok_inv in H as (f2 & Hseek & H).
  apply bind_Ok_inv in H as ([spr f3] & Hints & H).
  apply bind_Ok_inv in H as (f4 & Hseek' & H).
  apply bind_Ok_inv in H as ([ls f5] & Hlabels & H).
  injection H as <- <-. cbn [num_signals samples_per_record labels].
  apply read_inv in Hread as (_ & Hc1 & _).
  apply seek_inv in Hseek as [Hpos ->]. apply seek_inv in Hseek' as [_ ->].
  pose proof (read_ints_inv _ _ _ _ Hints) as [Hc3 _]. cbn [content] in Hc3.
  pose proof (read_labels_inv _ _ _ _ Hlabels) as [Hc5 _]. cbn [content] in Hc5.
  rewrite Hc1 in Hints. rewrite Hc3, Hc1 in Hlabels.
  exists f3. split; [lia|]. split; [exact Hints|]. split; [exact Hlabels|].
  congruence.
Qed.

Lemma parse_needs_signals bs sessions :
  parse_str_edf bs = Ok sessions ->
  exists p f,
    read_preamble (fopen bs) = Ok (p, f)
    /\ 2 <= num_signals p
    /\ 248 + 224 * num_signals p < Z.of_nat (length bs).
Proof.
  intros H.
  destruct (parse_str_edf_inv bs sessions H)
    as (p & f & lay & table & Hp & Hlay & _ & _ & _).
  exists p, f. split; [exact Hp|].
  destruct (read_preamble_fields _ _ _ Hp) as (f2 & Hpos & Hints & Hlabels & _).
  cbn [content fopen] in *.
  assert (Hmask : exists i j : nat,
             labels p !! i = Some "MaskOn"%string
             /\ labels p !! j = Some "MaskOff"%string).
  { unfold mask_layout in Hlay.
    pose proof (find_mask_last (labels p)) as [Hon Hoff].
    destruct (find_mask (labels p)) as [[i|] [j|]]; try discriminate.
    exists i, j. cbn [fst snd last_in] in *. split; [apply Hon|apply Hoff]. }
  destruct Hmask as (i & j & Hi & Hj).
  assert (Hne : i <> j) by (intros ->; congruence).
  apply read_labels_inv in Hlabels as [_ Hlen].
  apply lookup_lt_Some in Hi, Hj.
  assert (Hns : 2 <= num_signals p) by lia.
  split; [exact Hns|].
  destruct (Z.to_nat (num_signals p)) as [|n] eqn:En; [lia|].
  apply read_ints_needs_bytes in Hints; [|cbn [position]; lia].
  cbn [position content] in Hints. lia.
Qed.

(** X4: a file of fewer than 697 bytes, an empty one included, is never
    decoded into a list of sessions: the decoder raises. *)
Theorem short_file_is_rejected bs :
  (length bs < 697)%nat -> exists e, parse_str_edf bs = Raise e.
Proof.
  intros Hlen. destruct (parse_str_edf bs) as [sessions|e] eqn:E; [|eauto].
  exfalso. destruct (parse_needs_signals bs sessions E) as (p & f & _ & Hns & Hl).
  lia.
Qed.

Lemma short_file_is_rejected_witness :
  exists e, parse_str_edf [] = Raise e.
Proof. apply (short_file_is_rejected []). cbn [length]. lia. Defined.

Lemma read_markers_inv p lay rec_idx f ons offs f' :
  read_markers p lay rec_idx f = Ok (ons, offs, f') ->
  content f' = content f
  /\ (0 < maskon_nsamples lay ->
      marker_end p lay rec_idx (maskon_sample_offset lay) (maskon_nsamples lay)
      <= Z.of_nat (length (content f)))
  /\ (0 < maskoff_nsamples lay ->
      marker_end p lay rec_idx (maskoff_sample_offset lay) (maskoff_nsamples lay)
      <= Z.of_nat (length (content f))).
Proof.
  unfold read_markers, marker_end. intros H.
  apply bind_Ok_inv in H as (f1 & Hs1 & H).
  apply bind_Ok_inv in H as ([buf1 f2] & Hr1 & H).
  apply bind_Ok_inv in H as (v1 & Hv1 & H).
  apply bind_Ok_inv in H as (f3 & Hs2 & H).
  apply bind_Ok_inv in H as ([buf2 f4] & Hr2 & H).
  apply bind_Ok_inv in H as (v2 & Hv2 & H).
  injection H as <- <- <-.
  apply seek_inv in Hs1 as [Hp1 ->]. apply seek_inv in Hs2 as [Hp2 ->].
  apply read_inv in Hr1 as (_ & Hc2 & _ & Hb1).
  apply read_inv in Hr2 as (_ & Hc4 & _ & Hb2).
  cbn [content position] in *.
  unfold struct_unpack_h in Hv1, Hv2.
  destruct (Z.eqb_spec (Z.of_nat (length buf1)) (2 * Z.max 0 (maskon_nsamples lay)))
    as [E1|]; [|discriminate].
  destruct (Z.eqb_spec (Z.of_nat (length buf2)) (2 * Z.max 0 (maskoff_nsamples lay)))
    as [E2|]; [|discriminate].
  split; [congruence|]. split.
  - intros Hn. specialize (Hb1 ltac:(lia)). rewrite Hb1 in E1.
    rewrite length_take, length_drop in E1. lia.
  - intros Hn. specialize (Hb2 ltac:(lia)). rewrite Hb2 in E2.
    rewrite length_take, length_drop, Hc2 in E2. lia.
Qed.

Lemma read_all_markers_inv p lay n : forall k f table,
  read_all_markers p lay (seq k n) f = Ok table ->
  forall rec_idx, (k <= rec_idx < k + n)%nat ->
    (0 < maskon_nsamples lay ->
     marker_end p lay rec_idx (maskon_sample_offset lay) (maskon_nsamples lay)
     <= Z.of_nat (length (content f)))
    /\ (0 < maskoff_nsamples lay ->
        marker_end p lay rec_idx (maskoff_sample_offset lay) (maskoff_nsamples lay)
        <= Z.of_nat (length (content f))).
Proof.
  induction n as [|n IH]; intros k f table H rec_idx Hidx; [lia|].
  cbn [seq read_all_markers] in H.
  apply bind_Ok_inv in H as ([[ons offs] f'] & Hrow & H).
  apply bind_Ok_inv in H as (rows & Hrows & _).
  apply read_markers_inv in Hrow as (Hc & Hon & Hoff).
  destruct (Nat.eq_dec rec_idx k) as [->|Hne]; [split; assumption|].
  rewrite <- Hc. apply (IH (S k) f' rows Hrows). lia.
Qed.

(** X5: a list of sessions is returned only when the file holds the
    samples of both marker channels of every record the header announces:
    a file that ends before the last of them is not decoded. *)
Theorem marker_samples_lie_in_the_file bs sessions :
  parse_str_edf bs = Ok sessions ->
  exists p f lay,
    read_preamble (fopen bs) = Ok (p, f)
    /\ mask_layout p = Ok lay
    /\ forall rec_idx : nat,
        Z.of_nat rec_idx < num_records p ->
        (0 < maskon_nsamples lay ->
         marker_end p lay rec_idx (maskon_sample_offset lay) (maskon_nsamples lay)
         <= Z.of_nat (length bs))
        /\ (0 < maskoff_nsamples lay ->
            marker_end p lay rec_idx (maskoff_sample_offset lay)
              (maskoff_nsamples lay)
            <= Z.of_nat (length bs)).
Proof.
  intros H.
  destruct (parse_str_edf_inv bs sessions H)
    as (p & f & lay & table & Hp & Hlay & Htab & _ & _).
  exists p, f, lay. split; [exact Hp|]. split; [exact Hlay|].
  intros rec_idx Hidx.
  destruct (read_preamble_fields _ _ _ Hp) as (_ & _ & _ & _ & Hc).
  cbn [content fopen] in Hc. rewrite <- Hc.
  unfold range in Htab. apply (read_all_markers_inv p lay _ 0%nat f table Htab).
  lia.
Qed.

Lemma marker_samples_lie_in_the_file_witness :
  exists p f lay,
    read_preamble (fopen example_str_edf) = Ok (p, f)
    /\ mask_layout p = Ok lay
    /\ forall rec_idx : nat,
        Z.of_nat rec_idx < num_records p ->
        (0 < maskon_nsamples lay ->
         marker_end p lay rec_idx (maskon_sample_offset lay) (maskon_nsamples lay)
         <= Z.of_nat (length example_str_edf))
        /\ (0 < maskoff_nsamples lay ->
            marker_end p lay rec_idx (maskoff_sample_offset lay)
              (maskoff_nsamples lay)
            <= Z.of_nat (length example_str_edf)).
Proof.
  apply (marker_samples_lie_in_the_file example_str_edf
           [mk_session "20240110" (mk_dt 2024 1 11 10 0 0) 60;
            mk_session "20240111" (mk_dt 2024 1 11 12 30 0) 60]).
  vm_compute. reflexivity.
Defined.

(** * More properties of the searches *)

Lemma seconds_round_trip : all_from 60 0 int_of_fmt_02d = true.
Proof. vm_compute. reflexivity. Qed.

Lemma int_of_fmt_02d_second c :
  0 <= c < 60 -> Py.int_of_str (Py.fmt_02d c) = Ok c.
Proof.
  intros Hc. pose proof (all_from_spec _ _ _ seconds_round_trip c ltac:(lia)) as H.
  unfold int_of_fmt_02d in H.
  destruct (Py.int_of_str (Py.fmt_02d c)) as [c'|]; [|discriminate].
  apply Z.eqb_eq in H. congruence.
Qed.

Lemma seq_split_at a n (pre : list Z) c post :
  map Z.of_nat (seq a n) = pre ++ c :: post ->
  c = Z.of_nat (a + length pre) /\ (length pre < n)%nat
  /\ pre = map Z.of_nat (seq a (length pre)).
Proof.
  revert a pre. induction n as [|n IH]; intros a pre H.
  - destruct pre; discriminate.
  - destruct pre as [|x pre]; cbn [seq map app] in H.
    + injection H as <- _. cbn [length]. split; [f_equal; lia|].
      split; [lia|reflexivity].
    + injection H as <- H. apply IH in H as (-> & Hl & Hpre). cbn [length].
      split; [f_equal; lia|]. split; [lia|].
      cbn [seq map]. f_equal. exact Hpre.
Qed.

Section ScanCount.

Context {remote : Type} {dev : Device remote}.

Lemma probe_events_heads card dd fd hhmm ftype l :
  forallb is_head (probe_events card dd fd hhmm ftype l) = true
  /\ length (probe_events card dd fd hhmm ftype l) = length l.
Proof.
  unfold probe_events. rewrite length_map. split; [|reflexivity].
  induction l as [|[c o] l IH]; [reflexivity|exact IH].
Qed.


End ScanCount.

Section StaticSearch.

Context {remote : Type} {dev : Device remote}.

Variable n0 : remote.
Variable card : EzShareCard.

Hypothesis Hunchanged : unchanged_remote n0.

(** A search on a device that does not change: what it returns was found,
    and the candidates before it were missed. *)
Lemma probe_in_order_static dd fd hhmm ftype cands :
  forall (w w1 : @world remote) r,
    net w = n0 ->
    probe_in_order card dd fd hhmm ftype cands w = (r, w1) ->
    match r with
    | Ok (Some ss, size) =>
        exists pre c post,
          cands = pre ++ c :: post /\ ss = Py.fmt_02d c
          /\ found n0 card dd fd hhmm ftype c size
          /\ Forall (missed n0 card dd fd hhmm ftype) pre
    | Ok (None, size) =>
        size = 0 /\ Forall (missed n0 card dd fd hhmm ftype) cands
    | Raise _ => True
    end.
Proof.
  induction cands as [|c cands IH]; intros w w1 r Hn Hrun.
  - injection Hrun as <- _. split; [reflexivity|constructor].
  - cbn [probe_in_order] in Hrun.
    rewrite prog_bind_run, (proj2 (is_real_file_probe n0 card Hunchanged _) w Hn)
      in Hrun.
    destruct (classify_outcome _) as [a|e] eqn:Ecl;
      [|injection Hrun as <- _; exact I].
    destruct (hit a) eqn:Ehit.
    + injection Hrun as <- _. exists [], c, cands.
      split; [reflexivity|]. split; [reflexivity|]. split; [|constructor].
      destruct a as [e s]. unfold hit in Ehit. cbn [fst snd] in *.
      apply andb_true_iff in Ehit as [-> Hs]. apply Z.ltb_lt in Hs.
      split; assumption.
    + apply IH in Hrun; [|reflexivity].
      assert (Hmiss : missed n0 card dd fd hhmm ftype c).
      { unfold missed, miss. rewrite Ecl, Ehit. reflexivity. }
      destruct r as [[[ss|] size]|e]; [| |exact I].
      * destruct Hrun as (pre & c' & post & -> & Hss & Hf & Hm).
        exists (c :: pre), c', post. split; [reflexivity|].
        split; [exact Hss|]. split; [exact Hf|]. constructor; assumption.
      * destruct Hrun as [Hz Hm]. split; [exact Hz|]. constructor; assumption.
Qed.

End StaticSearch.

(** X7: on a device that does not change, the scan over the seconds
    returns the least seconds in 0..59 at which the file is there, with its
    size, every smaller one having been missed; and it returns nothing only
    when all sixty were missed. *)
Theorem exhaustive_scan_finds_the_least {remote : Type} {dev : Device remote}
    card dd fd hhmm ftype (w : @world remote) :
  unchanged_remote (net w) ->
  let run := find_seconds_for_type card dd fd hhmm ftype w in
  (forall ss size,
      fst run = Ok (Some ss, size) ->
      exists c,
        0 <= c < 60 /\ ss = Py.fmt_02d c
        /\ found (net w) card dd fd hhmm ftype c size
        /\ forall c', 0 <= c' < c -> missed (net w) card dd fd hhmm ftype c')
  /\ (forall size,
        fst run = Ok (None, size) ->
        forall c, 0 <= c < 60 -> missed (net w) card dd fd hhmm ftype c).
Proof.
  intros Hun run.
  destruct run as [r w1] eqn:Erun. unfold run, find_seconds_for_type in Erun.
  rewrite scan_seconds_in_order in Erun.
  pose proof (probe_in_order_static (net w) card Hun dd fd hhmm ftype _ w w1 r
                eq_refl Erun) as H.
  cbn [fst]. split.
  - intros ss size ->. destruct H as (pre & c & post & Hc & Hss & Hf & Hm).
    apply seq_split_at in Hc as (Hcv & Hlt & Hpre).
    cbn [Nat.add] in Hcv.
    exists c. split; [lia|]. split; [exact Hss|]. split; [exact Hf|].
    intros c' Hc'. rewrite List.Forall_forall in Hm. apply Hm.
    rewrite Hpre. apply in_map_iff. exists (Z.to_nat c').
    split; [lia|]. apply in_seq. lia.
  - intros size ->. destruct H as [_ Hm]. intros c Hc.
    rewrite List.Forall_forall in Hm. apply Hm. apply in_map_iff.
    exists (Z.to_nat c). split; [lia|]. apply in_seq. unfold range. lia.
Qed.

Lemma exhaustive_scan_finds_the_least_witness :
  exists c,
    0 <= c < 60 /\ "37"%string = Py.fmt_02d c
    /\ found (dev := brp_at_37) tt the_card "20240110" "20240111" "1000" "BRP"
         c 123456
    /\ forall c', 0 <= c' < c ->
         missed (dev := brp_at_37) tt the_card "20240110" "20240111" "1000" "BRP" c'.
Proof.
  refine (proj1 (exhaustive_scan_finds_the_least (dev := brp_at_37) the_card
                   "20240110" "20240111" "1000" "BRP" empty_world _)
            "37"%string 123456 _).
  - intros url. split; reflexivity.
  - vm_compute. reflexivity.
Defined.

(** ** The order of the search near a reference *)

Lemma near_pairs_split ref n : forall a pre c post,
  flat_map (λ k, [ref + Z.of_nat k; ref - Z.of_nat k]) (seq a n)
  = pre ++ c :: post ->
  exists k,
    (a <= k < a + n)%nat
    /\ ((c = ref + Z.of_nat k
         /\ pre = flat_map (λ k, [ref + Z.of_nat k; ref - Z.of_nat k])
                    (seq a (k - a)))
        \/ (c = ref - Z.of_nat k
            /\ pre = flat_map (λ k, [ref + Z.of_nat k; ref - Z.of_nat k])
                       (seq a (k - a)) ++ [ref + Z.of_nat k])).
Proof.
  induction n as [|n IH]; intros a pre c post H.
  - destruct pre; discriminate.
  - cbn [seq flat_map app] in H.
    destruct pre as [|x [|y pre]]; cbn [app] in H.
    + injection H as <- _. exists a. split; [lia|]. left.
      rewrite Nat.sub_diag. split; reflexivity.
    + injection H as <- <- _. exists a. split; [lia|]. right.
      rewrite Nat.sub_diag. split; reflexivity.
    + injection H as <- <- H. apply IH in H as (k & Hk & Hcases).
      exists k. split; [lia|].
      replace (k - a)%nat with (S (k - S a)) by lia. cbn [seq flat_map app].
      destruct Hcases as [[-> ->]|[-> ->]]; [left|right]; split; reflexivity.
Qed.

Lemma in_near_pairs ref a n c :
  In c (flat_map (λ k, [ref + Z.of_nat k; ref - Z.of_nat k]) (seq a n))
  <-> exists k, (a <= k < a + n)%nat
                /\ (c = ref + Z.of_nat k \/ c = ref - Z.of_nat k).
Proof.
  rewrite in_flat_map. split.
  - intros (k & Hk & Hc). apply in_seq in Hk. exists k. split; [lia|].
    destruct Hc as [<-|[<-|[]]]; auto.
  - intros (k & Hk & Hc). exists k. split; [apply in_seq; lia|].
    destruct Hc as [->| ->]; cbn; auto.
Qed.

Lemma in_near_order ref window c :
  0 <= window -> In c (near_order ref window) <-> Z.abs (c - ref) <= window.
Proof.
  intros Hw. unfold near_order. cbn [In]. rewrite in_near_pairs. split.
  - intros [<-|(k & Hk & [->| ->])]; lia.
  - intros Hc. destruct (Z.eq_dec c ref) as [->|Hne]; [left; reflexivity|].
    right. exists (Z.to_nat (Z.abs (c - ref))). split; [lia|]. lia.
Qed.

(** What comes before a candidate in the order of the search: everything
    nearer to the reference, and the candidate at the same distance above
    the reference. *)
Lemma near_order_before ref window pre c post :
  near_order ref window = pre ++ c :: post ->
  (forall c', Z.abs (c' - ref) < Z.abs (c - ref) -> In c' pre)
  /\ (c < ref -> In (2 * ref - c) pre).
Proof.
  unfold near_order. intros H.
  destruct pre as [|x pre]; cbn [app] in H.
  - injection H as <- _. split; [intros c' Hc'|]; lia.
  - injection H as <- H. apply near_pairs_split in H as (k & Hk & Hcases).
    assert (Hnear : forall c', Z.abs (c' - ref) < Z.of_nat k ->
                      In c' (ref :: flat_map (λ k, [ref + Z.of_nat k;
                                                      ref - Z.of_nat k])
                                    (seq 1 (k - 1)))).
    { intros c' Hc'. destruct (Z.eq_dec c' ref) as [->|Hne]; [left; reflexivity|].
      right. apply in_near_pairs. exists (Z.to_nat (Z.abs (c' - ref))).
      split; lia. }
    destruct Hcases as [[-> ->]|[-> ->]].
    + split; [|lia]. intros c' Hc'. apply Hnear. lia.
    + split.
      * intros c' Hc'. specialize (Hnear c' ltac:(lia)).
        destruct Hnear as [Hr|Hin]; [left; exact Hr|].
        right. apply in_or_app. left. exact Hin.
      * intros _. right. apply in_or_app. right. left. lia.
Qed.

Lemma filter_split {A} (f : A -> bool) (l : list A) : forall pre c post,
  List.filter f l = pre ++ c :: post ->
  exists pre' post',
    l = pre' ++ c :: post' /\ pre = List.filter f pre' /\ f c = true.
Proof.
  induction l as [|x l IH]; intros pre c post H.
  - destruct pre; discriminate.
  - cbn [List.filter] in H. destruct (f x) eqn:Ex.
    + destruct pre as [|y pre]; cbn [app] in H.
      * injection H as <- _. exists [], l. auto.
      * injection H as <- H. apply IH in H as (pre' & post' & -> & -> & Hc).
        exists (x :: pre'), post'. cbn [List.filter]. rewrite Ex. auto.
    + apply IH in H as (pre' & post' & -> & -> & Hc).
      exists (x :: pre'), post'. cbn [List.filter]. rewrite Ex. auto.
Qed.

(** X8: on a device that does not change, the search near a reference
    returns seconds in 0..59 within the window of the reference at which the
    file is there; every seconds value nearer to the reference was missed,
    and so was the one at the same distance above the reference when the
    result lies below it; it returns nothing only when every seconds value
    within the window was missed. *)
Theorem nearby_search_finds_the_nearest {remote : Type} {dev : Device remote}
    card dd fd hhmm ftype reference_ss ref window (w : @world remote) :
  unchanged_remote (net w) ->
  Py.int_of_str reference_ss = Ok ref ->
  0 <= window ->
  let run := find_seconds_near card dd fd hhmm ftype reference_ss window w in
  (forall ss size,
      fst run = Ok (Some ss, size) ->
      exists c,
        0 <= c < 60 /\ Z.abs (c - ref) <= window /\ ss = Py.fmt_02d c
        /\ found (net w) card dd fd hhmm ftype c size
        /\ (forall c',
              0 <= c' < 60 -> Z.abs (c' - ref) < Z.abs (c - ref) ->
              missed (net w) card dd fd hhmm ftype c')
        /\ (c < ref -> 2 * ref - c < 60 ->
            missed (net w) card dd fd hhmm ftype (2 * ref - c)))
  /\ (forall size,
        fst run = Ok (None, size) ->
        forall c, 0 <= c < 60 -> Z.abs (c - ref) <= window ->
          missed (net w) card dd fd hhmm ftype c).
Proof.
  intros Hun Href Hw run.
  destruct run as [r w1] eqn:Erun. unfold run in Erun.
  rewrite (find_seconds_near_in_order _ _ _ _ _ _ ref) in Erun by assumption.
  pose proof (probe_in_order_static (net w) card Hun dd fd hhmm ftype _ w w1 r
                eq_refl Erun) as H.
  assert (Hsec : forall c, is_second c = true <-> 0 <= c < 60).
  { intros c. unfold is_second. rewrite andb_true_iff, Z.leb_le, Z.ltb_lt.
    reflexivity. }
  cbn [fst]. split.
  - intros ss size ->. destruct H as (pre & c & post & Hc & Hss & Hf & Hm).
    unfold near_candidates in Hc.
    apply filter_split in Hc as (pre' & post' & Hc & -> & Hcs).
    rewrite List.Forall_forall in Hm.
    assert (Hin : In c (near_order ref window)).
    { rewrite Hc. apply in_or_app. right. left. reflexivity. }
    apply in_near_order in Hin; [|exact Hw].
    apply near_order_before in Hc as [Hnearer Habove].
    exists c. split; [apply Hsec, Hcs|]. split; [exact Hin|].
    split; [exact Hss|]. split; [exact Hf|]. split.
    + intros c' Hc' Hd. apply Hm. apply filter_In.
      split; [apply Hnearer, Hd|apply Hsec, Hc'].
    + intros Hlt Hhi. apply Hm. apply filter_In.
      split; [apply Habove, Hlt|]. apply Hsec. apply Hsec in Hcs. lia.
  - intros size ->. destruct H as [_ Hm]. intros c Hc Hd.
    rewrite List.Forall_forall in Hm. apply Hm. unfold near_candidates.
    apply filter_In. split; [apply in_near_order; assumption|apply Hsec, Hc].
Qed.

Lemma nearby_search_finds_the_nearest_witness :
  exists c,
    0 <= c < 60 /\ Z.abs (c - 37) <= 15 /\ "45"%string = Py.fmt_02d c
    /\ found (dev := pld_at_45) tt the_card "20240110" "20240111" "1000" "PLD"
         c 4096
    /\ (forall c',
          0 <= c' < 60 -> Z.abs (c' - 37) < Z.abs (c - 37) ->
          missed (dev := pld_at_45) tt the_card "20240110" "20240111" "1000"
            "PLD" c')
    /\ (c < 37 -> 2 * 37 - c < 60 ->
        missed (dev := pld_at_45) tt the_card "20240110" "20240111" "1000" "PLD"
          (2 * 37 - c)).
Proof.
  refine (proj1 (nearby_search_finds_the_nearest (dev := pld_at_45) the_card
                   "20240110" "20240111" "1000" "PLD" "37" 37 15 empty_world
                   _ _ _)
            "45"%string 4096 _).
  - intros url. split; reflexivity.
  - reflexivity.
  - lia.
  - vm_compute. reflexivity.
Defined.

(** * What a run does to the outside *)

Lemma confirmed_in_app evs more url size :
  confirmed_in evs url size -> confirmed_in (evs ++ more) url size.
Proof.
  intros (o & Hin & Hcl & Hpos). exists o.
  split; [apply in_or_app; left; exact Hin|]. split; assumption.
Qed.

Lemma edf_fetched_app evs more :
  edf_fetched (evs ++ more) = edf_fetched evs + edf_fetched more.
Proof. unfold edf_fetched. rewrite List.filter_app, length_app. lia. Qed.

Lemma edf_fetched_nonneg evs : 0 <= edf_fetched evs.
Proof. unfold edf_fetched. lia. Qed.

Lemma edf_fetched_heads evs : forallb is_head evs = true -> edf_fetched evs = 0.
Proof.
  unfold edf_fetched. induction evs as [|e evs IH]; [reflexivity|].
  cbn [forallb]. intros H. apply andb_true_iff in H as [He H].
  cbn [List.filter]. destruct e; try discriminate. cbn. apply IH, H.
Qed.

Lemma accounts_refl t : accounts 0 t t [].
Proof. unfold accounts, edf_fetched. cbn. lia. Qed.

Lemma accounts_trans n1 n2 t ta t' more1 more2 :
  accounts n1 t ta more1 -> accounts n2 ta t' more2 ->
  accounts (n1 + n2) t t' (more1 ++ more2).
Proof. unfold accounts. rewrite edf_fetched_app. lia. Qed.

Lemma accounts_le n n' t t' more :
  n <= n' -> accounts n t t' more -> accounts n' t t' more.
Proof. unfold accounts. lia. Qed.

(** [download_file], case by case. *)
Lemma download_file_run {remote : Type} {dev : Device remote}
    card remote_path local_path expected_size (w : @world remote) :
  download_file card remote_path local_path expected_size w
  = let url := url_of card remote_path in
    let '(o, n) := http_get (net w) url in
    match o with
    | RequestException =>
        (Ok false, mk_world n (disk w) (trace w ++ [EvGet url o]))
    | Response r =>
        if Py.contains "text/html" (header_or_empty (get_content_type r))
        then (Ok false, mk_world n (disk w) (trace w ++ [EvGet url o]))
        else if get_complete r
        then (Ok true,
              mk_world n (<[local_path := get_body r]> (disk w))
                (trace w ++ EvGet url o
                   :: (if size_mismatch expected_size
                            (Z.of_nat (length (get_body r)))
                       then [EvSizeMismatch remote_path
                               (default 0 expected_size)
                               (Z.of_nat (length (get_body r)))]
                       else [])))
        else (Ok false,
              mk_world n (<[local_path := get_body r]> (disk w))
                (trace w ++ [EvGet url o]))
    end.
Proof.
  unfold download_file. rewrite prog_bind_run. unfold session_get.
  cbv zeta. destruct (http_get (net w) (url_of card remote_path)) as [o n].
  destruct o as [r|]; [|reflexivity].
  destruct (Py.contains _ _); [reflexivity|].
  rewrite prog_bind_run. unfold write_file.
  destruct (get_complete r); [|reflexivity].
  rewrite prog_bind_run. unfold getsize. cbn [disk].
  rewrite lookup_insert_eq, prog_bind_run.
  destruct (size_mismatch _ _); [|reflexivity].
  unfold log. cbn. rewrite <- app_assoc. reflexivity.
Qed.

Section StepsProperties.

Context {remote : Type} {dev : Device remote}.

Variable card : EzShareCard.
Variable allowed : list event -> string -> string -> option Z -> Prop.
Variable w0 : @world remote.

#[local] Abbreviation events_since := (events_since w0).
#[local] Abbreviation steps := (steps card allowed w0).
#[local] Abbreviation run_ok := (run_ok card allowed w0).

Lemma is_real_file_trace path (w : @world remote) :
  trace (snd (is_real_file card path w))
  = trace w ++ [EvHead (url_of card path) (fst (http_head (net w) (url_of card path)))]
  /\ disk (snd (is_real_file card path w)) = disk w
  /\ fst (is_real_file card path w)
     = classify_outcome (fst (http_head (net w) (url_of card path))).
Proof.
  rewrite is_real_file_run. destruct (http_head _ _) as [o n]. cbn. auto.
Qed.

Lemma download_file_trace remote_path local_path expected_size (w : @world remote) :
  exists o rest,
    trace (snd (download_file card remote_path local_path expected_size w))
    = trace w ++ EvGet (url_of card remote_path) o :: rest
    /\ Forall (λ e, match e with EvSizeMismatch _ _ _ => True | _ => False end) rest
    /\ (disk (snd (download_file card remote_path local_path expected_size w))
        = disk w
        \/ exists r,
            o = Response r
            /\ disk (snd (download_file card remote_path local_path
                            expected_size w))
               = <[local_path := get_body r]> (disk w)).
Proof.
  rewrite download_file_run. cbv zeta.
  destruct (http_get (net w) (url_of card remote_path)) as [o n].
  exists o.
  destruct o as [r|];
    [|exists []; cbn; split; [reflexivity|]; split; [constructor|]; left;
      reflexivity].
  destruct (Py.contains _ _);
    [exists []; cbn; split; [reflexivity|]; split; [constructor|]; left;
     reflexivity|].
  destruct (get_complete r).
  - eexists. cbn [snd trace disk]. split; [reflexivity|]. split; [|eauto].
    destruct (size_mismatch _ _); repeat constructor.
  - exists []. cbn. split; [reflexivity|]. split; [constructor|]. eauto.
Qed.

Lemma steps_trace w : steps w -> exists evs, trace w = trace w0 ++ evs.
Proof.
  induction 1 as [|w path _ [evs IH]|w rp lp es _ [evs IH] _].
  - exists []. rewrite app_nil_r. reflexivity.
  - destruct (is_real_file_trace path w) as (Htr & _). rewrite Htr, IH.
    eexists. rewrite <- app_assoc. reflexivity.
  - destruct (download_file_trace rp lp es w) as (o & rest & Htr & _).
    rewrite Htr, IH. eexists. rewrite <- app_assoc. reflexivity.
Qed.

Lemma events_since_more w w' more :
  steps w -> trace w' = trace w ++ more ->
  events_since w' = events_since w ++ more.
Proof.
  intros Hs Htr. destruct (steps_trace w Hs) as [evs Hevs].
  unfold events_since.
  rewrite Htr, Hevs, <- app_assoc, !drop_app_length. reflexivity.
Qed.

Lemma events_since_start : events_since w0 = [].
Proof. apply drop_all. Qed.

(** *** The rules of [run_ok] *)

Lemma run_ok_ret {A} (a : A) (w : @world remote)
    (Post : A -> list event -> @world remote -> Prop) :
  steps w -> Post a [] w -> run_ok (mret a) w Post.
Proof.
  intros Hs Hpost. exists []. cbn. rewrite app_nil_r.
  split; [reflexivity|]. split; [exact Hs|].
  split; [intros a' [= <-]; exact Hpost|discriminate].
Qed.

Lemma run_ok_lift {A} (r : result A) (w : @world remote)
    (Post : A -> list event -> @world remote -> Prop) :
  steps w -> (exists a, r = Ok a /\ Post a [] w) -> run_ok (lift r) w Post.
Proof.
  intros Hs (a & -> & Hpost). exists []. cbn. rewrite app_nil_r.
  split; [reflexivity|]. split; [exact Hs|].
  split; [intros a' [= <-]; exact Hpost|discriminate].
Qed.

Lemma run_ok_bind {A B} (m : prog A) (k : A -> prog B) (w : @world remote)
    (Mid : A -> list event -> @world remote -> Prop)
    (Post : B -> list event -> @world remote -> Prop) :
  steps w ->
  run_ok m w Mid ->
  (forall a more1 w1,
      steps w1 ->
      events_since w1 = events_since w ++ more1 ->
      Mid a more1 w1 ->
      run_ok (k a) w1 (λ b more2 w', Post b (more1 ++ more2) w')) ->
  run_ok (m ≫= k) w Post.
Proof.
  intros Hs (more1 & Htr1 & Hs1 & Hmid & Herr1) Hk. unfold run_ok.
  rewrite prog_bind_run.
  destruct (m w) as [[a|e] w1]; cbn [fst snd] in *.
  - destruct (Hk a more1 w1 Hs1 (events_since_more w w1 more1 Hs Htr1)
                (Hmid a eq_refl))
      as (more2 & Htr2 & Hs2 & Hpost & Herr2).
    exists (more1 ++ more2).
    split; [rewrite Htr2, Htr1, <- app_assoc; reflexivity|].
    split; [exact Hs2|]. split; [exact Hpost|exact Herr2].
  - exists more1. split; [exact Htr1|]. split; [exact Hs1|].
    split; [discriminate|]. intros e' [= <-]. apply Herr1. reflexivity.
Qed.

Lemma run_ok_conseq {A} (m : prog A) (w : @world remote)
    (Post Post' : A -> list event -> @world remote -> Prop) :
  steps w ->
  run_ok m w Post ->
  (forall a more w',
      steps w' -> events_since w' = events_since w ++ more ->
      Post a more w' -> Post' a more w') ->
  run_ok m w Post'.
Proof.
  intros Hs (more & Htr & Hs1 & H & Herr) Hpost.
  exists more. split; [exact Htr|]. split; [exact Hs1|]. split; [|exact Herr].
  intros a Ha. apply Hpost; [exact Hs1| |apply H, Ha].
  apply (events_since_more w _ more Hs Htr).
Qed.

Lemma run_ok_ext {A} (m m' : prog A) (w : @world remote)
    (Post : A -> list event -> @world remote -> Prop) :
  m w = m' w -> run_ok m' w Post -> run_ok m w Post.
Proof. unfold run_ok. intros ->. auto. Qed.

(** *** The requests *)

Lemma classify_outcome_raises o e :
  classify_outcome o = Raise e ->
  e = ValueError
  /\ exists r v,
      o = Response r
      /\ Py.contains "text/html" (header_or_empty (head_content_type r)) = false
      /\ head_content_length r = Some v
      /\ Py.int_of_str v = Raise ValueError.
Proof.
  destruct o as [r|]; cbn [classify_outcome]; [|discriminate].
  unfold classify_head. destruct (Py.contains _ _) eqn:Ect; [discriminate|].
  destruct (head_content_length r) as [v|] eqn:Ecl; [|discriminate].
  destruct (Py.int_of_str v) as [n|e'] eqn:Eint; [discriminate|].
  intros [= <-].
  assert (e' = ValueError) as ->.
  { unfold Py.int_of_str in Eint.
    match type of Eint with
    | match ?x with Some _ => _ | None => _ end = _ => destruct x
    end; congruence. }
  split; [reflexivity|]. exists r, v. auto.
Qed.

Lemma is_real_file_ok path (w : @world remote) :
  steps w ->
  run_ok (is_real_file card path) w
    (λ r more w',
       forallb is_head more = true
       /\ (hit r = true ->
           confirmed_in (events_since w') (url_of card path) (snd r))).
Proof.
  intros Hs. destruct (is_real_file_trace path w) as (Htr & _ & Hres).
  eexists. split; [exact Htr|]. split; [apply steps_probe, Hs|]. split.
  - intros [e s] Ha. split; [reflexivity|]. intros Hhit.
    rewrite (events_since_more w _ _ Hs Htr).
    unfold hit in Hhit. cbn [fst snd] in *.
    apply andb_true_iff in Hhit as [-> Hpos]. apply Z.ltb_lt in Hpos.
    eexists. split; [apply in_or_app; right; left; reflexivity|].
    split; [|exact Hpos]. rewrite <- Hres. exact Ha.
  - intros e He. rewrite Hres in He.
    apply classify_outcome_raises in He as (-> & r & v & Ho & Hct & Hcl & Hint).
    split; [reflexivity|]. exists (url_of card path), r, v.
    rewrite Htr, last_snoc, Ho. auto.
Qed.

Lemma same_size_on_disk_ok p size (w : @world remote)
    (Post : bool -> list event -> @world remote -> Prop) :
  steps w -> (forall b, Post b [] w) ->
  run_ok (same_size_on_disk p size) w Post.
Proof.
  intros Hs Hpost. exists []. cbn. rewrite app_nil_r.
  split; [reflexivity|]. split; [exact Hs|].
  split; [intros a _; apply Hpost|discriminate].
Qed.

Lemma download_file_ok remote_path local_path expected_size (w : @world remote) :
  steps w ->
  allowed (events_since w) remote_path local_path expected_size ->
  run_ok (download_file card remote_path local_path expected_size) w
    (λ ok more w',
       exists o rest,
         more = EvGet (url_of card remote_path) o :: rest
         /\ Forall (λ e, match e with EvSizeMismatch _ _ _ => True | _ => False end)
                   rest
         /\ ok = get_succeeded (EvGet (url_of card remote_path) o)).
Proof.
  intros Hs Hpre.
  pose proof (steps_fetch card allowed w0 w _ _ _ Hs Hpre) as Hs1.
  destruct (download_file_trace remote_path local_path expected_size w)
    as (o & rest & Htr & Hrest & _).
  eexists. split; [exact Htr|]. split; [exact Hs1|].
  clear Hs1. rewrite download_file_run in Htr |- *. cbv zeta in Htr |- *.
  destruct (http_get (net w) (url_of card remote_path)) as [o' n].
  assert (o' = o) as ->.
  { destruct o' as [r|]; [|cbn in Htr; apply app_inv_head in Htr; congruence].
    destruct (Py.contains _ _);
      [cbn in Htr; apply app_inv_head in Htr; congruence|].
    destruct (get_complete r); cbn in Htr; apply app_inv_head in Htr;
      congruence. }
  split.
  - intros ok Hok. exists o, rest. split; [reflexivity|]. split; [exact Hrest|].
    cbn [get_succeeded]. destruct o as [r|]; [|cbn in Hok; congruence].
    destruct (Py.contains _ _); [cbn in Hok |- *; congruence|].
    destruct (get_complete r); cbn in Hok |- *; congruence.
  - intros e He. destruct o as [r|]; [|discriminate].
    destruct (Py.contains _ _); [discriminate|].
    destruct (get_complete r); discriminate.
Qed.

(** *** What holds in every world of a run *)

(** Every GET was allowed by the events before it. *)
Lemma steps_gets_allowed w :
  steps w ->
  forall i url o,
    events_since w !! i = Some (EvGet url o) ->
    exists remote_path local_path expected_size,
      url = url_of card remote_path
      /\ allowed (take i (events_since w)) remote_path local_path expected_size.
Proof.
  induction 1 as [|w path Hs IH|w rp lp es Hs IH Hal]; intros i url o Hi.
  - rewrite events_since_start in Hi. discriminate.
  - destruct (is_real_file_trace path w) as (Htr & _).
    rewrite (events_since_more w _ _ Hs Htr) in *.
    apply lookup_app_Some in Hi as [Hi|[_ Hi]].
    + rewrite take_app_le by (apply lookup_lt_Some in Hi; lia).
      eapply IH, Hi.
    + apply list_lookup_singleton_Some in Hi as [_ Hi]. discriminate.
  - destruct (download_file_trace rp lp es w) as (o' & rest & Htr & Hrest & _).
    rewrite (events_since_more w _ _ Hs Htr) in *.
    apply lookup_app_Some in Hi as [Hi|[Hle Hi]].
    + rewrite take_app_le by (apply lookup_lt_Some in Hi; lia).
      eapply IH, Hi.
    + destruct (i - length (events_since w))%nat as [|j] eqn:Ej.
      * injection Hi as <- <-. exists rp, lp, es. split; [reflexivity|].
        replace i with (length (events_since w)) by lia.
        rewrite take_app_length. exact Hal.
      * cbn in Hi. rewrite Forall_forall in Hrest.
        apply list_elem_of_lookup_2, Hrest in Hi. destruct Hi.
Qed.

(** A file of the disk either is as it was or holds what a GET of the run
    received. *)
Lemma steps_disk w :
  steps w ->
  forall p,
    disk w !! p = disk w0 !! p
    \/ exists i remote_path expected_size r,
        events_since w !! i = Some (EvGet (url_of card remote_path) (Response r))
        /\ allowed (take i (events_since w)) remote_path p expected_size
        /\ disk w !! p = Some (get_body r).
Proof.
  induction 1 as [|w path Hs IH|w rp lp es Hs IH Hal]; intros p.
  - left. reflexivity.
  - destruct (is_real_file_trace path w) as (Htr & Hd & _).
    rewrite (events_since_more w _ _ Hs Htr), Hd.
    destruct (IH p) as [Hp|(i & rp & es & r & Hi & Hal & Hp)]; [left; exact Hp|].
    right. exists i, rp, es, r.
    split; [apply lookup_app_l_Some, Hi|].
    rewrite take_app_le by (apply lookup_lt_Some in Hi; lia). auto.
  - destruct (download_file_trace rp lp es w) as (o & rest & Htr & _ & Hd).
    rewrite (events_since_more w _ _ Hs Htr).
    assert (Hold : disk w !! p = disk w0 !! p
                   \/ exists i remote_path expected_size r,
                       (events_since w ++ EvGet (url_of card rp) o :: rest) !! i
                       = Some (EvGet (url_of card remote_path) (Response r))
                       /\ allowed (take i (events_since w
                                           ++ EvGet (url_of card rp) o :: rest))
                            remote_path p expected_size
                       /\ disk w !! p = Some (get_body r)).
    { destruct (IH p) as [Hp|(i & rp' & es' & r & Hi & Hal' & Hp)];
        [left; exact Hp|].
      right. exists i, rp', es', r.
      split; [apply lookup_app_l_Some, Hi|].
      rewrite take_app_le by (apply lookup_lt_Some in Hi; lia). auto. }
    destruct Hd as [->|(r & -> & ->)]; [exact Hold|].
    destruct (decide (lp = p)) as [->|Hne].
    + right. exists (length (events_since w)), rp, es, r.
      split; [apply list_lookup_middle; reflexivity|].
      rewrite take_app_length. split; [exact Hal|apply lookup_insert_eq].
    + rewrite lookup_insert_ne by exact Hne. exact Hold.
Qed.

End StepsProperties.

(** * The days and their sessions *)

(** ** The order on strings *)

Lemma str_ltb_irrefl a : Py.str_ltb a a = false.
Proof.
  induction a as [|x a IH]; [reflexivity|]. cbn [Py.str_ltb].
  rewrite N.ltb_irrefl. exact IH.
Qed.

Lemma str_ltb_trans a : forall b c,
  Py.str_ltb a b = true -> Py.str_ltb b c = true -> Py.str_ltb a c = true.
Proof.
  induction a as [|x a IH]; intros [|y b] [|z c]; cbn [Py.str_ltb];
    try discriminate; try reflexivity.
  destruct (N.ltb_spec (N_of_ascii x) (N_of_ascii y)) as [Hxy|Hxy].
  - intros _. destruct (N.ltb_spec (N_of_ascii y) (N_of_ascii z)) as [Hyz|Hyz].
    + intros _. destruct (N.ltb_spec (N_of_ascii x) (N_of_ascii z)); [reflexivity|lia].
    + destruct (N.ltb_spec (N_of_ascii z) (N_of_ascii y)); [discriminate|].
      intros _. destruct (N.ltb_spec (N_of_ascii x) (N_of_ascii z)); [reflexivity|lia].
  - destruct (N.ltb_spec (N_of_ascii y) (N_of_ascii x)); [discriminate|].
    intros Hab. destruct (N.ltb_spec (N_of_ascii y) (N_of_ascii z)) as [Hyz|Hyz].
    + intros _. destruct (N.ltb_spec (N_of_ascii x) (N_of_ascii z)); [reflexivity|lia].
    + destruct (N.ltb_spec (N_of_ascii z) (N_of_ascii y)); [discriminate|].
      intros Hbc.
      destruct (N.ltb_spec (N_of_ascii x) (N_of_ascii z)); [reflexivity|].
      destruct (N.ltb_spec (N_of_ascii z) (N_of_ascii x)); [lia|].
      eapply IH; eassumption.
Qed.

Lemma N_of_ascii_inj x y : N_of_ascii x = N_of_ascii y -> x = y.
Proof.
  intros H. rewrite <- (ascii_N_embedding x), <- (ascii_N_embedding y), H.
  reflexivity.
Qed.

Lemma str_ltb_total a : forall b,
  a <> b -> Py.str_ltb a b = true \/ Py.str_ltb b a = true.
Proof.
  induction a as [|x a IH]; intros [|y b] Hne; cbn [Py.str_ltb];
    [congruence|auto|auto|].
  destruct (N.ltb_spec (N_of_ascii x) (N_of_ascii y)) as [Hxy|Hxy]; [auto|].
  destruct (N.ltb_spec (N_of_ascii y) (N_of_ascii x)) as [Hyx|Hyx]; [auto|].
  assert (x = y) as -> by (apply N_of_ascii_inj; lia).
  apply IH. congruence.
Qed.

(** ** [sorted] *)

Lemma insert_sorted_perm x l : Permutation (insert_sorted x l) (x :: l).
Proof.
  induction l as [|y l IH]; [reflexivity|]. cbn [insert_sorted].
  destruct (Py.str_ltb y x); [|reflexivity].
  rewrite IH. apply perm_swap.
Qed.

Lemma sorted_perm l : Permutation (sorted l) l.
Proof.
  induction l as [|x l IH]; [reflexivity|]. cbn [sorted fold_right].
  fold (sorted l). rewrite insert_sorted_perm, IH. reflexivity.
Qed.

Lemma insert_sorted_sorted x l :
  ~ In x l -> StronglySorted str_lt l -> StronglySorted str_lt (insert_sorted x l).
Proof.
  induction l as [|y l IH]; intros Hnot Hs.
  - repeat constructor.
  - cbn [insert_sorted]. apply StronglySorted_inv in Hs as [Hs Hall].
    destruct (Py.str_ltb y x) eqn:Eyx.
    + constructor; [apply IH; [intros Hin; apply Hnot; right; exact Hin|exact Hs]|].
      rewrite List.Forall_forall. intros z Hz.
      apply (Permutation_in _ (insert_sorted_perm x l)) in Hz.
      destruct Hz as [<-|Hz]; [exact Eyx|].
      rewrite List.Forall_forall in Hall. apply Hall, Hz.
    + assert (Hxy : str_lt x y).
      { destruct (str_ltb_total x y) as [H|H]; [|exact H|congruence].
        intros ->. apply Hnot. left. reflexivity. }
      constructor; [constructor; assumption|].
      constructor; [exact Hxy|].
      rewrite List.Forall_forall in *. intros z Hz.
      eapply str_ltb_trans; [exact Hxy|apply Hall, Hz].
Qed.

Lemma sorted_sorted l : List.NoDup l -> StronglySorted str_lt (sorted l).
Proof.
  induction 1 as [|x l Hnot Hnd IH]; [constructor|].
  cbn [sorted fold_right]. fold (sorted l). apply insert_sorted_sorted; [|exact IH].
  intros Hin. apply Hnot. exact (Permutation_in _ (sorted_perm l) Hin).
Qed.

(** ** [by_dir] *)

Lemma group_by_dir_fold d l : forall by_dir : gmap string (list SessionRecord),
  fold_left (λ by_dir s,
               <[record_date s := default [] (by_dir !! record_date s) ++ [s]]>
                 by_dir) l by_dir !! d
  = match sessions_of_day d l with
    | [] => by_dir !! d
    | found => Some (default [] (by_dir !! d) ++ found)
    end.
Proof.
  induction l as [|s l IH]; intros by_dir; [reflexivity|].
  cbn [fold_left]. rewrite IH. unfold sessions_of_day. cbn [List.filter].
  destruct (String.eqb_spec (record_date s) d) as [->|Hne].
  - rewrite lookup_insert_eq.
    destruct (List.filter _ l); [reflexivity|].
    cbn [from_option id]. rewrite <- app_assoc. reflexivity.
  - rewrite lookup_insert_ne by exact Hne. reflexivity.
Qed.

Lemma group_by_dir_lookup d l :
  group_by_dir l !! d
  = match sessions_of_day d l with
    | [] => None
    | found => Some found
    end.
Proof.
  unfold group_by_dir. rewrite (group_by_dir_fold d l ∅), lookup_empty.
  reflexivity.
Qed.

Lemma group_by_dir_lookup_total d l :
  group_by_dir l !!! d = sessions_of_day d l.
Proof.
  unfold lookup_total, map_lookup_total. rewrite group_by_dir_lookup.
  destruct (sessions_of_day d l); reflexivity.
Qed.

(** X9: the dict by_dir has a key for exactly the record days of the
    sessions, and under each key the sessions of that day, in the order of
    the list. *)
Theorem by_dir_holds_the_sessions_of_each_day sessions d :
  (forall found, group_by_dir sessions !! d = Some found ->
                 found = sessions_of_day d sessions /\ found <> [])
  /\ (group_by_dir sessions !! d = None ->
      forall s, In s sessions -> record_date s <> d).
Proof.
  unfold group_by_dir. rewrite (group_by_dir_fold d sessions ∅), lookup_empty.
  cbn [from_option id app]. split.
  - intros found. destruct (sessions_of_day d sessions) as [|s l];
      [discriminate|]. intros [= <-]. split; [reflexivity|discriminate].
  - intros Hnone s Hin Hd.
    assert (Hf : In s (sessions_of_day d sessions)).
    { apply filter_In. split; [exact Hin|]. apply String.eqb_eq, Hd. }
    destruct (sessions_of_day d sessions); [destruct Hf|discriminate].
Qed.

Lemma group_by_dir_keys sessions d :
  is_Some (group_by_dir sessions !! d)
  <-> exists s, In s sessions /\ record_date s = d.
Proof.
  rewrite group_by_dir_lookup. unfold sessions_of_day. split.
  - destruct (List.filter _ sessions) as [|s l] eqn:E; [intros [x Hx]; discriminate|].
    intros _. assert (Hin : In s (List.filter (λ s, String.eqb (record_date s) d)
                                    sessions)) by (rewrite E; left; reflexivity).
    apply filter_In in Hin as [Hin Hd]. apply String.eqb_eq in Hd. eauto.
  - intros (s & Hin & Hd).
    assert (Hf : In s (List.filter (λ s, String.eqb (record_date s) d) sessions)).
    { apply filter_In. split; [exact Hin|]. apply String.eqb_eq, Hd. }
    destruct (List.filter _ sessions); [destruct Hf|eauto].
Qed.

Lemma sessions_of_day_other d s l :
  record_date s <> d -> sessions_of_day d (s :: l) = sessions_of_day d l.
Proof.
  intros Hne. unfold sessions_of_day. cbn [List.filter].
  destruct (String.eqb_spec (record_date s) d); [contradiction|reflexivity].
Qed.

Lemma concat_days_cons s l ks :
  List.NoDup ks -> In (record_date s) ks ->
  Permutation (concat (map (λ d, sessions_of_day d (s :: l)) ks))
              (s :: concat (map (λ d, sessions_of_day d l) ks)).
Proof.
  induction 1 as [|k ks Hnot Hnd IH]; intros Hin; [destruct Hin|].
  cbn [map concat].
  destruct (String.eqb_spec (record_date s) k) as [E|Hne].
  - unfold sessions_of_day at 1. cbn [List.filter].
    rewrite (proj2 (String.eqb_eq _ _) E). cbn [app].
    constructor. apply Permutation_app_head.
    assert (Hext : map (λ d, sessions_of_day d (s :: l)) ks
                   = map (λ d, sessions_of_day d l) ks).
    { apply map_ext_in. intros d Hd. apply sessions_of_day_other.
      intros E'. apply Hnot. congruence. }
    rewrite Hext. reflexivity.
  - rewrite sessions_of_day_other by exact Hne.
    destruct Hin as [E|Hin]; [congruence|].
    rewrite (IH Hin). symmetry. apply Permutation_middle.
Qed.

Lemma concat_days ks l :
  List.NoDup ks -> (forall s, In s l -> In (record_date s) ks) ->
  Permutation (concat (map (λ d, sessions_of_day d l) ks)) l.
Proof.
  intros Hnd. induction l as [|s l IH]; intros Hall.
  - clear. induction ks as [|k ks IH]; [reflexivity|exact IH].
  - rewrite concat_days_cons; [|exact Hnd|apply Hall; left; reflexivity].
    constructor. apply IH. intros s' Hs'. apply Hall. right. exact Hs'.
Qed.

Lemma in_days_of filtered d :
  In d (days_of filtered) <-> exists s, In s filtered /\ record_date s = d.
Proof.
  unfold days_of.
  rewrite <- (group_by_dir_keys filtered d).
  split.
  - intros Hin. apply (Permutation_in _ (sorted_perm _)) in Hin.
    apply in_map_iff in Hin as ([k v] & <- & Hkv).
    apply list_elem_of_In, elem_of_map_to_list in Hkv. eauto.
  - intros [v Hv]. apply (Permutation_in _ (Permutation_sym (sorted_perm _))).
    apply in_map_iff. exists (d, v). split; [reflexivity|].
    apply list_elem_of_In, elem_of_map_to_list. exact Hv.
Qed.

Lemma days_of_NoDup filtered : List.NoDup (days_of filtered).
Proof.
  unfold days_of.
  eapply Permutation_NoDup; [symmetry; apply sorted_perm|].
  apply NoDup_ListNoDup, NoDup_fst_map_to_list.
Qed.

Lemma sessions_handled_perm filtered :
  Permutation (sessions_handled (group_by_dir filtered) (days_of filtered))
              filtered.
Proof.
  unfold sessions_handled.
  rewrite (map_ext _ (λ d, sessions_of_day d filtered))
    by (intros d; apply group_by_dir_lookup_total).
  apply concat_days; [apply days_of_NoDup|].
  intros s Hs. apply in_days_of. eauto.
Qed.

(** X10: the record days are gone through in increasing order of their
    names, each day of a session once and no other; each is a key of
    by_dir; and going through the sessions of each day in turn handles every
    session that passed the filter exactly once. *)
Theorem days_are_visited_in_order_each_once filtered :
  StronglySorted str_lt (days_of filtered)
  /\ (forall d,
        In d (days_of filtered)
        <-> exists s, In s filtered /\ record_date s = d)
  /\ (forall d,
        In d (days_of filtered) -> is_Some (group_by_dir filtered !! d))
  /\ Permutation (sessions_handled (group_by_dir filtered) (days_of filtered))
                 filtered.
Proof.
  split; [|split; [|split]].
  - unfold days_of. apply sorted_sorted.
    apply NoDup_ListNoDup, NoDup_fst_map_to_list.
  - apply in_days_of.
  - intros d Hd. apply group_by_dir_keys, in_days_of, Hd.
  - apply sessions_handled_perm.
Qed.

(** ** The download loop as a run *)

Lemma string_length_append (a b : string) :
  String.length (a +:+ b) = (String.length a + String.length b)%nat.
Proof.
  induction a as [|c a IH]; [reflexivity|].
  change (String c a +:+ b) with (String c (a +:+ b)).
  cbn [String.length Nat.add]. f_equal. exact IH.
Qed.

(** A suffix no longer than [s] ends [a +:+ s] exactly when it ends [s]. *)
Lemma ends_with_skip suffix a s :
  (String.length suffix <= String.length s)%nat ->
  ends_with suffix (a +:+ s) = ends_with suffix s.
Proof.
  intros Hlen. induction a as [|c a IH]; [reflexivity|].
  change (String c a +:+ s) with (String c (a +:+ s)). cbn [ends_with].
  rewrite IH. replace (String.eqb _ _) with false; [reflexivity|].
  symmetry. apply String.eqb_neq. intros E.
  apply (f_equal String.length) in E. cbn [String.length] in E.
  rewrite string_length_append in E. lia.
Qed.

Lemma lstrip_datalog_path dd base ext :
  Py.lstrip_char "/" (datalog_path dd base ext) = datalog_path dd base ext.
Proof. reflexivity. Qed.

Lemma ends_with_datalog_url suffix card dd base ext :
  (String.length suffix <= String.length ext)%nat ->
  ends_with suffix (url_of card (datalog_path dd base ext))
  = ends_with suffix ext.
Proof.
  intros Hlen. unfold url_of. rewrite lstrip_datalog_path. unfold datalog_path.
  rewrite !ends_with_skip; [reflexivity|..];
    rewrite ?string_length_append; lia.
Qed.

Lemma edf_fetched_get url o rest :
  Forall (λ e, match e with EvSizeMismatch _ _ _ => True | _ => False end) rest ->
  edf_fetched (EvGet url o :: rest)
  = if get_succeeded (EvGet url o) && ends_with ".edf" url then 1 else 0.
Proof.
  intros Hrest. unfold edf_fetched. cbn [List.filter is_edf_get].
  assert (Hnil : List.filter (λ e, get_succeeded e && is_edf_get e) rest = []).
  { induction Hrest as [|e rest He _ IH]; [reflexivity|].
    cbn [List.filter]. destruct e; try destruct He. cbn. exact IH. }
  destruct (get_succeeded (EvGet url o) && ends_with ".edf" url);
    cbn [length]; rewrite Hnil; reflexivity.
Qed.

Section DatalogRun.

Context {remote : Type} {dev : Device remote}.

Variable card : EzShareCard.
Variable output_dir : string.
Variable w0 : @world remote.

#[local] Abbreviation allowed := (datalog_fetch card output_dir).
#[local] Abbreviation events_since := (events_since w0).
#[local] Abbreviation steps := (steps card allowed w0).
#[local] Abbreviation run_ok := (run_ok card allowed w0).
#[local] Abbreviation file_confirmed := (file_confirmed card).

Lemma probe_in_order_ok dd fd hhmm ftype cands :
  forall w : @world remote,
    steps w ->
    run_ok (probe_in_order card dd fd hhmm ftype cands) w
      (λ r more w',
         forallb is_head more = true
         /\ forall ss,
             fst r = Some ss ->
             (exists c, In c cands /\ ss = Py.fmt_02d c)
             /\ confirmed_in (events_since w')
                  (url_of card (edf_path dd fd hhmm ss ftype)) (snd r)).
Proof.
  induction cands as [|c cands IH]; intros w Hs.
  - apply run_ok_ret; [exact Hs|]. split; [reflexivity|discriminate].
  - cbn [probe_in_order].
    eapply run_ok_bind; [exact Hs|apply is_real_file_ok, Hs|].
    intros r more1 w1 Hs1 Hev [Hh Hc]. cbv beta.
    destruct (hit r) eqn:Ehit.
    + apply run_ok_ret; [exact Hs1|]. rewrite app_nil_r.
      split; [exact Hh|]. intros ss [= <-].
      split; [exists c; split; [left|]; reflexivity|]. apply Hc. reflexivity.
    + eapply run_ok_conseq; [exact Hs1|apply IH, Hs1|].
      intros b more2 w' _ _ [Hh2 Hc2].
      split; [rewrite forallb_app, Hh, Hh2; reflexivity|].
      intros ss Hss. destruct (Hc2 ss Hss) as [(c' & Hin & Hc') Hconf].
      split; [exists c'; split; [right; exact Hin|exact Hc']|exact Hconf].
Qed.

Lemma find_seconds_for_type_ok dd fd hhmm ftype (w : @world remote) :
  steps w ->
  run_ok (find_seconds_for_type card dd fd hhmm ftype) w
    (λ r more w',
       forallb is_head more = true
       /\ forall ss,
           fst r = Some ss ->
           (exists c, 0 <= c < 60 /\ ss = Py.fmt_02d c)
           /\ confirmed_in (events_since w')
                (url_of card (edf_path dd fd hhmm ss ftype)) (snd r)).
Proof.
  intros Hs.
  eapply run_ok_ext; [unfold find_seconds_for_type; apply scan_seconds_in_order|].
  eapply run_ok_conseq; [exact Hs|apply probe_in_order_ok, Hs|].
  intros r more w' _ _ [Hh Hc]. split; [exact Hh|].
  intros ss Hss. destruct (Hc ss Hss) as [(c & Hin & Hcs) Hconf].
  split; [|exact Hconf]. exists c. split; [|exact Hcs].
  apply in_map_iff in Hin as (k & <- & Hk). apply in_seq in Hk.
  unfold range in Hk. lia.
Qed.

Lemma find_seconds_near_ok dd fd hhmm ftype reference_ss window
    (w : @world remote) :
  steps w ->
  (exists ref, Py.int_of_str reference_ss = Ok ref) ->
  run_ok (find_seconds_near card dd fd hhmm ftype reference_ss window) w
    (λ r more w',
       forallb is_head more = true
       /\ forall ss,
           fst r = Some ss ->
           confirmed_in (events_since w')
             (url_of card (edf_path dd fd hhmm ss ftype)) (snd r)).
Proof.
  intros Hs [ref0 Href]. unfold find_seconds_near.
  eapply (run_ok_bind card allowed w0 _ _ _ (λ _ more _, more = []));
    [exact Hs|apply run_ok_lift; [exact Hs|]|].
  - exists ref0. split; [exact Href|reflexivity].
  - intros ref more1 w1 Hs1 _ ->. cbv beta. cbn [app].
    eapply run_ok_ext; [apply scan_offsets_in_order|].
    eapply run_ok_conseq; [exact Hs1|apply probe_in_order_ok, Hs1|].
    intros b more2 w' _ _ [Hh Hc]. split; [exact Hh|].
    intros ss Hss. apply (Hc ss Hss).
Qed.

Lemma file_confirmed_more dd fd hhmm evs more files :
  Forall (file_confirmed dd fd hhmm evs) files ->
  Forall (file_confirmed dd fd hhmm (evs ++ more)) files.
Proof.
  intros H. eapply Forall_impl; [exact H|].
  intros [[ftype ss] size]. apply confirmed_in_app.
Qed.

Lemma search_types_ok dd fd hhmm brp_ss skip_brp ftypes :
  (exists ref, Py.int_of_str brp_ss = Ok ref) ->
  forall files t (w : @world remote),
    steps w ->
    Forall (file_confirmed dd fd hhmm (events_since w)) files ->
    run_ok (search_types card dd fd hhmm brp_ss skip_brp ftypes files t) w
      (λ r more w',
         forallb is_head more = true
         /\ Forall (file_confirmed dd fd hhmm (events_since w')) (fst r)
         /\ (length (fst r)
             <= length files + length (searched_types skip_brp ftypes))%nat
         /\ total_downloaded (snd r) = total_downloaded t
         /\ total_skipped (snd r) = total_skipped t
         /\ total_not_found (snd r) = total_not_found t
         /\ total_probed t <= total_probed (snd r)).
Proof.
  intros Href.
  induction ftypes as [|ftype ftypes IH]; intros files t w Hs Hfiles.
  - apply run_ok_ret; [exact Hs|]. cbn. repeat split; try assumption; lia.
  - cbn [search_types searched_types List.filter].
    destruct (skip_brp && String.eqb ftype "BRP") eqn:Eskip; cbn [negb].
    + apply IH; assumption.
    + eapply run_ok_bind;
        [exact Hs|apply find_seconds_near_ok; [exact Hs|exact Href]|].
      intros [ss size] more1 w1 Hs1 Hev [Hh Hc]. cbv beta iota.
      eapply run_ok_conseq; [exact Hs1|apply IH; [exact Hs1|]|].
      * rewrite Hev. destruct ss as [ss|].
        -- apply Forall_app. split; [apply file_confirmed_more, Hfiles|].
           constructor; [|constructor]. cbn [file_confirmed].
           rewrite <- Hev. apply Hc. reflexivity.
        -- apply file_confirmed_more, Hfiles.
      * intros [files' t'] more2 w' _ _ (Hh2 & Hf & Hl & Hd & Hsk & Hnf & Hp).
        cbn [fst snd total_downloaded total_skipped total_not_found
             total_probed] in *.
        split; [rewrite forallb_app, Hh, Hh2; reflexivity|].
        split; [exact Hf|]. unfold searched_types in Hl.
        split; [|repeat split; try assumption; lia].
        destruct ss; rewrite ?length_app in Hl; cbn [length] in *; lia.
Qed.

Lemma fetch_edf_ok dd base size t (w : @world remote) :
  steps w ->
  confirmed_in (events_since w) (url_of card (datalog_path dd base ".edf")) size ->
  run_ok (fetch_edf card (datalog_path dd base ".edf")
            (os_path_join output_dir (datalog_path dd base ".edf")) size t) w
    (λ t' more w', accounts 1 t t' more).
Proof.
  intros Hs Hconf. unfold fetch_edf.
  eapply (run_ok_bind card allowed w0 _ _ _ (λ _ more _, more = []));
    [exact Hs|apply same_size_on_disk_ok; [exact Hs|reflexivity]|].
  intros same more1 w1 Hs1 Hev ->. cbv beta. cbn [app].
  rewrite app_nil_r in Hev. destruct same.
  - apply run_ok_ret; [exact Hs1|]. unfold accounts, edf_fetched. cbn. lia.
  - eapply run_ok_bind; [exact Hs1|apply download_file_ok; [exact Hs1|]|].
    + exists dd, base, ".edf"%string, size. rewrite Hev. auto.
    + intros ok more2 w2 Hs2 _ (o & rest & -> & Hrest & ->). cbv beta.
      pose proof (edf_fetched_get (url_of card (datalog_path dd base ".edf"))
                    o rest Hrest) as Hcount.
      rewrite ends_with_datalog_url in Hcount by (cbn; lia).
      change (ends_with ".edf" ".edf") with true in Hcount.
      rewrite andb_true_r in Hcount.
      destruct (get_succeeded _); apply run_ok_ret; try exact Hs2;
        rewrite app_nil_r; unfold accounts; rewrite Hcount; cbn; lia.
Qed.

Lemma fetch_crc_ok dd base (w : @world remote) :
  steps w ->
  run_ok (fetch_crc card (datalog_path dd base ".crc")
            (os_path_join output_dir (datalog_path dd base ".crc"))) w
    (λ _ more w', edf_fetched more = 0).
Proof.
  intros Hs. unfold fetch_crc.
  eapply run_ok_bind; [exact Hs|apply is_real_file_ok, Hs|].
  intros crc more1 w1 Hs1 Hev [Hh Hc]. cbv beta.
  pose proof (edf_fetched_heads _ Hh) as H0.
  destruct (hit crc) eqn:Ehit;
    [|apply run_ok_ret; [exact Hs1|rewrite app_nil_r; exact H0]].
  eapply (run_ok_bind card allowed w0 _ _ _ (λ _ more _, more = []));
    [exact Hs1|apply same_size_on_disk_ok; [exact Hs1|reflexivity]|].
  intros same more2 w2 Hs2 Hev2 ->. cbv beta. rewrite app_nil_r in Hev2.
  destruct same;
    [apply run_ok_ret; [exact Hs2|rewrite !app_nil_r; exact H0]|].
  eapply run_ok_bind; [exact Hs2|apply download_file_ok; [exact Hs2|]|].
  - exists dd, base, ".crc"%string, (snd crc). rewrite Hev2.
    split; [auto|]. split; [reflexivity|]. split; [reflexivity|].
    split; [reflexivity|]. apply Hc. reflexivity.
  - intros ok more3 w3 Hs3 _ (o & rest & -> & Hrest & _). cbv beta.
    apply run_ok_ret; [exact Hs3|]. rewrite !app_nil_r.
    rewrite !edf_fetched_app, H0, (edf_fetched_get _ _ _ Hrest).
    rewrite ends_with_datalog_url by (cbn; lia).
    change (ends_with ".edf" ".crc") with false. rewrite andb_false_r.
    cbn. reflexivity.
Qed.

Lemma fetch_files_ok dd fd hhmm files :
  forall t (w : @world remote),
    steps w ->
    Forall (file_confirmed dd fd hhmm (events_since w)) files ->
    run_ok (fetch_files card output_dir dd fd hhmm files t) w
      (λ t' more w', accounts (Z.of_nat (length files)) t t' more).
Proof.
  induction files as [|[[ftype ss] size] files IH]; intros t w Hs Hfiles.
  - apply run_ok_ret; [exact Hs|]. apply accounts_refl.
  - apply Forall_cons in Hfiles as [Hfile Hfiles]. cbn [fetch_files].
    cbv zeta.
    eapply run_ok_bind; [exact Hs|apply fetch_edf_ok; [exact Hs|exact Hfile]|].
    intros t1 more1 w1 Hs1 Hev1 Hacc1. cbv beta.
    eapply run_ok_bind; [exact Hs1|apply fetch_crc_ok, Hs1|].
    intros [] more2 w2 Hs2 Hev2 Hzero. cbv beta.
    eapply run_ok_conseq; [exact Hs2|apply IH; [exact Hs2|]|].
    + rewrite Hev2, Hev1. apply file_confirmed_more, file_confirmed_more, Hfiles.
    + intros t' more3 w3 _ _ Hacc3. cbn [length].
      replace (Z.of_nat (S (length files))) with (1 + Z.of_nat (length files))
        by lia.
      apply (accounts_trans _ _ t t1 t'); [exact Hacc1|].
      unfold accounts in *. rewrite edf_fetched_app, Hzero. lia.
Qed.

Lemma process_session_ok dir_date s t (w : @world remote) :
  steps w ->
  run_ok (process_session card output_dir dir_date s t) w
    (λ t' more w', accounts 5 t t' more).
Proof.
  intros Hs. unfold process_session. cbv zeta.
  set (fd := Datetime.strftime_Ymd (start_time s)).
  set (hhmm := Datetime.strftime_HM (start_time s)).
  eapply run_ok_bind; [exact Hs|apply find_seconds_for_type_ok, Hs|].
  intros [[brp_ss|] brp_size] more1 w1 Hs1 Hev1 [Hh1 Hc1]; cbv beta iota;
    pose proof (edf_fetched_heads _ Hh1) as H1.
  - assert (Href : exists c, 0 <= c < 60 /\ Py.int_of_str brp_ss = Ok c).
    { destruct (Hc1 brp_ss eq_refl) as [(c & Hc & ->) _].
      exists c. split; [exact Hc|apply int_of_fmt_02d_second, Hc]. }
    destruct Href as (c & Hc & Href).
    eapply (run_ok_bind card allowed w0 _ _ _
              (λ n more _, more = [] /\ n = c));
      [exact Hs1|apply run_ok_lift; [exact Hs1|eauto]|].
    intros n more2 w2 Hs2 Hev2 [-> ->]. cbv beta. rewrite app_nil_r in *.
    eapply run_ok_bind;
      [exact Hs2
      |apply (search_types_ok dir_date fd hhmm brp_ss true DATALOG_TYPES_LATE
                (ex_intro _ c Href) [("BRP"%string, brp_ss, brp_size)]);
         [exact Hs2|]
      |].
    { constructor; [|constructor]. cbn [file_confirmed]. rewrite Hev2.
      apply (Hc1 brp_ss eq_refl). }
    intros [files1 t1] more3 w3 Hs3 Hev3 (Hh3 & Hf3 & Hl3 & Hd3 & Hsk3 & Hnf3 & Hp3).
    cbv beta iota. cbn [fst snd] in *.
    eapply run_ok_bind;
      [exact Hs3
      |apply (search_types_ok dir_date fd hhmm brp_ss false DATALOG_TYPES_EARLY
                (ex_intro _ c Href) files1 t1); [exact Hs3|exact Hf3]
      |].
    intros [files2 t2] more4 w4 Hs4 Hev4 (Hh4 & Hf4 & Hl4 & Hd4 & Hsk4 & Hnf4 & Hp4).
    cbv beta iota. cbn [fst snd] in *.
    eapply run_ok_conseq; [exact Hs4|apply fetch_files_ok; [exact Hs4|exact Hf4]|].
    intros t' more5 w5 _ _ Hacc.
    pose proof (edf_fetched_heads _ Hh3) as H3.
    pose proof (edf_fetched_heads _ Hh4) as H4.
    change (length (searched_types true DATALOG_TYPES_LATE)) with 2%nat in Hl3.
    change (length (searched_types false DATALOG_TYPES_EARLY)) with 2%nat in Hl4.
    cbn [length total_downloaded total_skipped total_not_found total_probed]
      in *.
    unfold accounts in *. rewrite !edf_fetched_app, H1, H3, H4.
    change (edf_fetched []) with 0. lia.
  - apply run_ok_ret; [exact Hs1|]. rewrite app_nil_r.
    unfold accounts. rewrite H1. cbn. lia.
Qed.

Lemma process_sessions_ok dir_date dir_sessions :
  forall t (w : @world remote),
    steps w ->
    run_ok (process_sessions card output_dir dir_date dir_sessions t) w
      (λ t' more w', accounts (5 * Z.of_nat (length dir_sessions)) t t' more).
Proof.
  induction dir_sessions as [|s dir_sessions IH]; intros t w Hs.
  - apply run_ok_ret; [exact Hs|]. apply accounts_refl.
  - cbn [process_sessions].
    eapply run_ok_bind; [exact Hs|apply process_session_ok, Hs|].
    intros t1 more1 w1 Hs1 _ Hacc1. cbv beta.
    eapply run_ok_conseq; [exact Hs1|apply IH, Hs1|].
    intros t' more2 w' _ _ Hacc2. cbv beta in *. cbn [length].
    replace (5 * Z.of_nat (S (length dir_sessions)))
      with (5 + 5 * Z.of_nat (length dir_sessions)) by lia.
    eapply accounts_trans; eassumption.
Qed.

Lemma is_real_directory_ok path (w : @world remote) :
  steps w ->
  run_ok (is_real_directory card path) w
    (λ _ more w', forallb is_head more = true).
Proof.
  intros Hs. unfold is_real_directory.
  eapply run_ok_bind; [exact Hs|apply is_real_file_ok, Hs|].
  intros [e s] more1 w1 Hs1 _ [Hh _]. cbv beta iota.
  apply run_ok_ret; [exact Hs1|]. rewrite app_nil_r. exact Hh.
Qed.

Lemma process_date_ok by_dir dir_date t (w : @world remote) :
  steps w ->
  run_ok (process_date card output_dir by_dir dir_date t) w
    (λ t' more w',
       accounts (5 * Z.of_nat (length (by_dir !!! dir_date : list SessionRecord)))
                t t' more).
Proof.
  intros Hs. unfold process_date.
  eapply run_ok_bind; [exact Hs|apply is_real_directory_ok, Hs|].
  intros is_dir more1 w1 Hs1 _ Hh. cbv beta.
  pose proof (edf_fetched_heads _ Hh) as H1.
  destruct is_dir; cbn [negb].
  - eapply run_ok_conseq; [exact Hs1|apply process_sessions_ok, Hs1|].
    intros t' more2 w' _ _ Hacc. unfold accounts in *.
    rewrite edf_fetched_app, H1. lia.
  - apply run_ok_ret; [exact Hs1|]. rewrite app_nil_r.
    unfold accounts. rewrite H1. cbn. lia.
Qed.

Lemma process_dates_ok by_dir dates :
  forall t (w : @world remote),
    steps w ->
    run_ok (process_dates card output_dir by_dir dates t) w
      (λ t' more w',
         accounts (5 * Z.of_nat (length (sessions_handled by_dir dates)))
                  t t' more).
Proof.
  induction dates as [|dir_date dates IH]; intros t w Hs.
  - apply run_ok_ret; [exact Hs|]. apply accounts_refl.
  - cbn [process_dates].
    eapply run_ok_bind; [exact Hs|apply process_date_ok, Hs|].
    intros t1 more1 w1 Hs1 _ Hacc1. cbv beta.
    eapply run_ok_conseq; [exact Hs1|apply IH, Hs1|].
    intros t' more2 w' _ _ Hacc2. cbv beta in *.
    unfold sessions_handled. cbn [map concat]. rewrite length_app.
    fold (sessions_handled by_dir dates).
    replace (5 * Z.of_nat (length (by_dir !!! dir_date : list SessionRecord)
                           + length (sessions_handled by_dir dates)))
      with (5 * Z.of_nat (length (by_dir !!! dir_date : list SessionRecord))
            + 5 * Z.of_nat (length (sessions_handled by_dir dates))) by lia.
    eapply accounts_trans; eassumption.
Qed.

Lemma download_datalog_ok sessions cutoff :
  run_ok (download_datalog card sessions output_dir cutoff) w0
    (λ t more w',
       accounts (5 * Z.of_nat (length (filter_sessions cutoff sessions)))
                zero_totals t more).
Proof.
  unfold download_datalog. cbv zeta.
  destruct (filter_sessions cutoff sessions) as [|s filtered] eqn:E.
  - apply run_ok_ret; [apply steps_start|]. apply accounts_refl.
  - eapply run_ok_conseq;
      [apply steps_start|apply process_dates_ok, steps_start|].
    intros t more w' _ _ Hacc. cbv beta in *.
    fold (days_of (s :: filtered)) in Hacc.
    rewrite (Permutation_length (sessions_handled_perm (s :: filtered))) in Hacc.
    exact Hacc.
Qed.

End DatalogRun.

(** What a run of [download_datalog] from the world [w] adds to the trace,
    and the world it reaches. *)
Lemma download_datalog_steps {remote : Type} {dev : Device remote}
    card sessions output_dir cutoff (w : @world remote) :
  let run := download_datalog card sessions output_dir cutoff w in
  exists evs,
    trace (snd run) = trace w ++ evs
    /\ events_since w (snd run) = evs
    /\ steps card (datalog_fetch card output_dir) w (snd run)
    /\ (forall t,
          fst run = Ok t ->
          accounts (5 * Z.of_nat (length (filter_sessions cutoff sessions)))
                   zero_totals t evs)
    /\ (forall e, fst run = Raise e -> bad_length e (trace (snd run))).
Proof.
  intros run.
  destruct (download_datalog_ok card output_dir w sessions cutoff)
    as (evs & Htr & Hs & Hacc & Herr).
  exists evs. split; [exact Htr|].
  split; [|split; [exact Hs|split; [exact Hacc|exact Herr]]].
  unfold events_since, run. rewrite Htr, drop_app_length. reflexivity.
Qed.

(** X11: the download loop sends a GET only for a file of a DATALOG
    directory that a HEAD request sent earlier in the same run, for the same
    URL, has found with a size above zero. *)
Theorem every_get_follows_its_probe {remote : Type} {dev : Device remote}
    card sessions output_dir cutoff (w : @world remote) :
  let run := download_datalog card sessions output_dir cutoff w in
  exists evs,
    trace (snd run) = trace w ++ evs
    /\ gets_confirmed evs
    /\ forall i url o,
        evs !! i = Some (EvGet url o) ->
        exists dd base ext,
          (ext = ".edf" \/ ext = ".crc")%string
          /\ url = url_of card (datalog_path dd base ext).
Proof.
  intros run.
  destruct (download_datalog_steps card sessions output_dir cutoff w)
    as (evs & Htr & Hev & Hs & _ & _).
  fold run in Htr, Hev, Hs. exists evs. split; [exact Htr|].
  assert (H : forall i url o,
             evs !! i = Some (EvGet url o) ->
             exists dd base ext size,
               (ext = ".edf" \/ ext = ".crc")%string
               /\ url = url_of card (datalog_path dd base ext)
               /\ confirmed_in (take i evs) url size).
  { intros i url o Hi. rewrite <- Hev in Hi.
    destruct (steps_gets_allowed _ _ _ _ Hs i url o Hi)
      as (rp & lp & es & -> & dd & base & ext & size & Hext & -> & _ & _ & Hc).
    rewrite Hev in Hc. exists dd, base, ext, size. auto. }
  split.
  - intros i url o Hi.
    destruct (H i url o Hi) as (dd & base & ext & size & _ & _ & Hc). eauto.
  - intros i url o Hi.
    destruct (H i url o Hi) as (dd & base & ext & size & Hext & Hurl & _). eauto.
Qed.

(** X12: a file of the local disk is changed by the download loop only
    when it is the copy, under the output directory, of an .edf or .crc file
    of a DATALOG directory, and it then holds the bytes that a GET of the
    run received for that file; every other file is left as it was. *)
Theorem only_fetched_datalog_files_are_written {remote : Type}
    {dev : Device remote} card sessions output_dir cutoff (w : @world remote) p :
  let run := download_datalog card sessions output_dir cutoff w in
  disk (snd run) !! p = disk w !! p
  \/ exists dd base ext r,
      (ext = ".edf" \/ ext = ".crc")%string
      /\ p = os_path_join output_dir (datalog_path dd base ext)
      /\ In (EvGet (url_of card (datalog_path dd base ext)) (Response r))
            (events_since w (snd run))
      /\ disk (snd run) !! p = Some (get_body r).
Proof.
  intros run.
  destruct (download_datalog_steps card sessions output_dir cutoff w)
    as (evs & _ & _ & Hs & _ & _).
  fold run in Hs.
  destruct (steps_disk _ _ _ _ Hs p)
    as [Hp|(i & rp & es & r & Hi & (dd & base & ext & size & Hext & -> & -> & _) & Hp)];
    [left; exact Hp|].
  right. exists dd, base, ext, r. split; [exact Hext|]. split; [reflexivity|].
  split; [|exact Hp].
  apply list_elem_of_In. eapply list_elem_of_lookup_2, Hi.
Qed.

(** X13: the number [download_datalog] returns is the number of .edf
    files it fetched in the run: the GET requests for an .edf file that
    were answered, not with the HTML page, and streamed to the end. *)
Theorem returned_count_is_the_edf_files_fetched {remote : Type}
    {dev : Device remote} card sessions output_dir cutoff (w : @world remote) t :
  fst (download_datalog card sessions output_dir cutoff w) = Ok t ->
  total_downloaded t
  = edf_fetched (events_since w
                   (snd (download_datalog card sessions output_dir cutoff w))).
Proof.
  intros Hrun.
  destruct (download_datalog_steps card sessions output_dir cutoff w)
    as (evs & _ & Hev & _ & Hacc & _).
  rewrite Hev. destruct (Hacc t Hrun) as (Hd & _). cbn in Hd. lia.
Qed.

Lemma returned_count_is_the_edf_files_fetched_witness :
  total_downloaded (mk_totals 1 0 5 0)
  = edf_fetched (events_since empty_world
                   (snd (download_datalog (dev := one_brp_device "3") the_card
                           [a_session] "out" None empty_world))).
Proof.
  apply (returned_count_is_the_edf_files_fetched (dev := one_brp_device "3")).
  vm_compute. reflexivity.
Defined.

(** X14: for every session that passed the filter the counters move by at
    most five: the files downloaded, the files skipped and the files given
    up as not found add up to at most five times the number of those
    sessions, and no counter is negative. *)
Theorem at_most_five_files_per_session {remote : Type} {dev : Device remote}
    card sessions output_dir cutoff (w : @world remote) t :
  fst (download_datalog card sessions output_dir cutoff w) = Ok t ->
  0 <= total_downloaded t /\ 0 <= total_skipped t /\ 0 <= total_not_found t
  /\ 0 <= total_probed t
  /\ total_downloaded t + total_skipped t + total_not_found t
     <= 5 * Z.of_nat (length (filter_sessions cutoff sessions)).
Proof.
  intros Hrun.
  destruct (download_datalog_steps card sessions output_dir cutoff w)
    as (evs & _ & _ & _ & Hacc & _).
  destruct (Hacc t Hrun) as (Hd & Hsk & Hnf & Hsum & Hp). cbn in *.
  pose proof (edf_fetched_nonneg evs). lia.
Qed.

Lemma at_most_five_files_per_session_witness :
  0 <= 1 /\ 0 <= 0 /\ 0 <= 0 /\ 0 <= 5 /\ 1 + 0 + 0 <= 5 * 1.
Proof.
  apply (at_most_five_files_per_session (dev := one_brp_device "3") the_card
           [a_session] "out" None empty_world (mk_totals 1 0 5 0)).
  vm_compute. reflexivity.
Defined.

(** * Failing requests *)

Section Offline.

Context {remote : Type} {dev : Device remote}.

Hypothesis Hoff : always_fails dev.

Lemma process_dates_offline card output_dir by_dir dates :
  forall t (w : @world remote),
    let run := process_dates card output_dir by_dir dates t w in
    fst run = Ok (mk_totals (total_downloaded t) (total_skipped t)
                            (total_probed t + Z.of_nat (length dates))
                            (total_not_found t))
    /\ disk (snd run) = disk w
    /\ trace (snd run)
       = trace w ++ map (λ d, EvHead (day_url card d) RequestException) dates.
Proof.
  induction dates as [|d dates IH]; intros t w run.
  - unfold run. cbn. rewrite Z.add_0_r, app_nil_r. destruct t. auto.
  - unfold run. cbn [process_dates]. rewrite prog_bind_run.
    assert (Hdir : exists n,
               is_real_directory card ("DATALOG/" +:+ d) w
               = (Ok false,
                  mk_world n (disk w)
                    (trace w ++ [EvHead (day_url card d) RequestException]))).
    { rewrite is_real_directory_run, is_real_file_run. fold (day_url card d).
      pose proof (Hoff (net w) (day_url card d)) as Ho.
      destruct (http_head (net w) (day_url card d)) as [o n].
      cbn [fst] in Ho. subst o. exists n. reflexivity. }
    destruct Hdir as [n Hdir].
    rewrite (process_date_not_directory _ _ _ _ _ _ _ Hdir).
    specialize (IH (mk_totals (total_downloaded t) (total_skipped t)
                              (total_probed t + 1) (total_not_found t))
                   (mk_world n (disk w)
                      (trace w ++ [EvHead (day_url card d) RequestException]))).
    cbv zeta in IH. destruct IH as (Hr & Hd & Htr).
    rewrite Hr, Hd, Htr. cbn [total_downloaded total_skipped total_probed
                               total_not_found disk trace length map].
    split; [do 2 f_equal; lia|]. split; [reflexivity|].
    rewrite <- app_assoc. reflexivity.
Qed.

End Offline.

Lemma days_of_nil : days_of [] = [].
Proof. unfold days_of, group_by_dir. cbn. rewrite map_to_list_empty. reflexivity. Qed.

(** X16: when every HEAD request fails, the download loop sends one
    request for each record day, in order, and nothing else; it writes
    nothing, counts one probe for each day and returns 0. *)
Theorem offline_card_is_probed_once_per_day {remote : Type}
    {dev : Device remote} card sessions output_dir cutoff (w : @world remote) :
  always_fails dev ->
  let days := days_of (filter_sessions cutoff sessions) in
  let run := download_datalog card sessions output_dir cutoff w in
  fst run = Ok (mk_totals 0 0 (Z.of_nat (length days)) 0)
  /\ disk (snd run) = disk w
  /\ trace (snd run)
     = trace w ++ map (λ d, EvHead (day_url card d) RequestException) days.
Proof.
  intros Hoff days run. unfold run, days, download_datalog. cbv zeta.
  destruct (filter_sessions cutoff sessions) as [|s filtered].
  - rewrite days_of_nil. cbn. rewrite app_nil_r. auto.
  - apply (process_dates_offline Hoff card output_dir
             (group_by_dir (s :: filtered)) (days_of (s :: filtered))
             zero_totals w).
Qed.

Lemma offline_card_is_probed_once_per_day_witness :
  let run := download_datalog (dev := unreachable_device) the_card [a_session]
               "out" None empty_world in
  fst run = Ok (mk_totals 0 0 1 0)
  /\ disk (snd run) = disk empty_world
  /\ trace (snd run)
     = trace empty_world
       ++ [EvHead "http://192.168.4.1/DATALOG/20240110" RequestException].
Proof.
  apply (offline_card_is_probed_once_per_day (dev := unreachable_device)
           the_card [a_session] "out" None empty_world).
  intros n url. reflexivity.
Defined.

(** * What [download_file] leaves behind *)

(** X17: [download_file] answers False and leaves every local file as it
    was when the request fails or the HTML page comes back. After any
    other response, a run that returns answers True exactly when the stream
    reached its end, and the local path then holds the bytes received: all
    of them when it answers True, whatever size was expected, and the part
    received when the stream broke off and it answers False. No other file
    is touched. (Failures of the local file system, such as those of
    [os.makedirs], are not part of the model; the statement is about the
    runs that return.) *)
Theorem download_file_stores_what_it_received {remote : Type}
    {dev : Device remote} card remote_path local_path expected_size
    (w : @world remote) :
  let run := download_file card remote_path local_path expected_size w in
  let o := fst (http_get (net w) (url_of card remote_path)) in
  (forall p, p <> local_path -> disk (snd run) !! p = disk w !! p)
  /\ (o = RequestException
      \/ (exists r,
             o = Response r
             /\ Py.contains "text/html" (header_or_empty (get_content_type r))
                = true) ->
      fst run = Ok false /\ disk (snd run) = disk w)
  /\ (forall r b,
        o = Response r ->
        Py.contains "text/html" (header_or_empty (get_content_type r)) = false ->
        fst run = Ok b ->
        b = get_complete r
        /\ disk (snd run) !! local_path = Some (get_body r)).
Proof.
  intros run o. unfold run, o. rewrite download_file_run. cbv zeta.
  destruct (http_get (net w) (url_of card remote_path)) as [o' n]. cbn [fst].
  split; [|split].
  - intros p Hp. destruct o' as [r|]; [|reflexivity].
    destruct (Py.contains _ _); [reflexivity|].
    destruct (get_complete r); cbn [snd disk];
      apply lookup_insert_ne; congruence.
  - intros [->|(r & -> & Hct)]; [split; reflexivity|].
    rewrite Hct. split; reflexivity.
  - intros r b -> Hct. rewrite Hct.
    destruct (get_complete r); cbn [fst snd disk]; intros [= <-];
      (split; [reflexivity|apply lookup_insert_eq]).
Qed.

Lemma download_file_stores_what_it_received_witness :
  let brp := "DATALOG/20240110/20240111_100000_BRP.edf"%string in
  (fst (download_file (dev := unreachable_device) the_card brp "out/a.edf" None
          empty_world) = Ok false
   /\ disk (snd (download_file (dev := unreachable_device) the_card brp
                   "out/a.edf" None empty_world)) = disk empty_world)
  /\ true = true
  /\ disk (snd (download_file (dev := one_brp_device "3") the_card brp
                  "out/a.edf" (Some 5) empty_world)) !! "out/a.edf"%string
     = Some [x01; x02; x03].
Proof.
  intros brp. split.
  - apply (download_file_stores_what_it_received (dev := unreachable_device)
             the_card brp "out/a.edf" None empty_world).
    left. reflexivity.
  - apply (proj2 (proj2
             (download_file_stores_what_it_received (dev := one_brp_device "3")
                the_card brp "out/a.edf" (Some 5) empty_world))
             (mk_get (Some "text/plain"%string) [x01; x02; x03] true) true);
      vm_compute; reflexivity.
Defined.

(** * Root files and settings *)

Section SyncRun.

Context {remote : Type} {dev : Device remote}.

Variable card : EzShareCard.

Lemma root_files_loop_sync output_dir fnames :
  forall downloaded skipped (w : @world remote),
    root_files_loop card output_dir fnames downloaded skipped w
    = sync_loop card (map (λ fname, (fname, os_path_join output_dir fname))
                          fnames)
        downloaded skipped w.
Proof.
  induction fnames as [|fname fnames IH]; intros downloaded skipped w;
    [reflexivity|].
  cbn [root_files_loop sync_loop map]. cbv zeta. rewrite !prog_bind_run.
  destruct (is_real_file _ _ _) as [[[e s]|err] w1]; [|reflexivity].
  destruct e; cbn [negb]; [|apply IH]. rewrite !prog_bind_run.
  destruct (same_size_on_disk _ _ _) as [[[|]|err] w2]; [apply IH| |reflexivity].
  rewrite !prog_bind_run.
  destruct (download_file _ _ _ _ _) as [[[|]|err] w3]; [apply IH|apply IH|reflexivity].
Qed.

Lemma settings_loop_sync settings_dir fnames :
  forall downloaded skipped (w : @world remote),
    settings_loop card settings_dir fnames downloaded skipped w
    = sync_loop card (map (λ fname, ("SETTINGS/" +:+ fname,
                                      os_path_join settings_dir fname))
                          fnames)
        downloaded skipped w.
Proof.
  induction fnames as [|fname fnames IH]; intros downloaded skipped w;
    [reflexivity|].
  cbn [settings_loop sync_loop map]. cbv zeta. rewrite !prog_bind_run.
  destruct (is_real_file _ _ _) as [[[e s]|err] w1]; [|reflexivity].
  destruct e; cbn [negb]; [|apply IH]. rewrite !prog_bind_run.
  destruct (same_size_on_disk _ _ _) as [[[|]|err] w2]; [apply IH| |reflexivity].
  rewrite !prog_bind_run.
  destruct (download_file _ _ _ _ _) as [[[|]|err] w3]; [apply IH|apply IH|reflexivity].
Qed.

Lemma probed_urls_app evs more :
  probed_urls (evs ++ more) = probed_urls evs ++ probed_urls more.
Proof. unfold probed_urls. apply flat_map_app. Qed.

Lemma files_fetched_app evs more :
  files_fetched (evs ++ more) = files_fetched evs + files_fetched more.
Proof. unfold files_fetched. rewrite List.filter_app, length_app. lia. Qed.

Lemma get_events url o rest :
  Forall (λ e, match e with EvSizeMismatch _ _ _ => True | _ => False end) rest ->
  probed_urls (EvGet url o :: rest) = []
  /\ files_fetched (EvGet url o :: rest)
     = if get_succeeded (EvGet url o) then 1 else 0.
Proof.
  intros Hrest.
  assert (H : probed_urls rest = [] /\ List.filter get_succeeded rest = []).
  { induction Hrest as [|e rest He _ [IH1 IH2]]; [split; reflexivity|].
    destruct e; try destruct He. split; [exact IH1|exact IH2]. }
  destruct H as [H1 H2]. split; [exact H1|].
  unfold files_fetched. cbn [List.filter].
  destruct (get_succeeded (EvGet url o)); cbn [length]; rewrite H2; reflexivity.
Qed.

Variable files0 : list (string * string).
Variable w0 : @world remote.

#[local] Abbreviation allowed := (sync_fetch card files0).
#[local] Abbreviation events_since := (events_since w0).
#[local] Abbreviation steps := (steps card allowed w0).
#[local] Abbreviation run_ok := (run_ok card allowed w0).

(** One probe, with the event it adds. *)
Lemma is_real_file_event path (w : @world remote) :
  steps w ->
  run_ok (is_real_file card path) w
    (λ r more w',
       exists o,
         more = [EvHead (url_of card path) o] /\ classify_outcome o = Ok r).
Proof.
  intros Hs.
  destruct (is_real_file_ok card allowed w0 path w Hs) as (more & Htr & Hs1 & _ & Herr).
  exists more. split; [exact Htr|]. split; [exact Hs1|]. split; [|exact Herr].
  intros r Hr. destruct (is_real_file_trace card path w) as (Htr' & _ & Hres).
  rewrite Htr' in Htr. apply app_inv_head in Htr. subst more.
  eexists. split; [reflexivity|]. rewrite <- Hres. exact Hr.
Qed.

Lemma sync_loop_ok files :
  forall downloaded skipped (w : @world remote),
    steps w -> incl files files0 ->
    run_ok (sync_loop card files downloaded skipped) w
      (λ r more w',
         probed_urls more = map (λ f, url_of card (fst f)) files
         /\ fst r = downloaded + files_fetched more
         /\ skipped <= snd r
         /\ files_fetched more + (snd r - skipped) <= Z.of_nat (length files)).
Proof.
  induction files as [|[remote_path local_path] files IH];
    intros downloaded skipped w Hs Hincl.
  - apply run_ok_ret; [exact Hs|]. cbn [fst snd map length].
    change (files_fetched []) with 0. repeat split; try reflexivity; lia.
  - assert (Hin : In (remote_path, local_path) files0)
      by (apply Hincl; left; reflexivity).
    assert (Hincl' : incl files files0)
      by (intros f Hf; apply Hincl; right; exact Hf).
    assert (Hnext : forall d s more1 (w1 : @world remote),
               steps w1 ->
               probed_urls more1 = [url_of card remote_path] ->
               d = downloaded + files_fetched more1 ->
               skipped <= s ->
               files_fetched more1 + (s - skipped) <= 1 ->
               run_ok (sync_loop card files d s) w1
                 (λ r more2 w',
                    probed_urls (more1 ++ more2)
                    = map (λ f, url_of card (fst f))
                          ((remote_path, local_path) :: files)
                    /\ fst r = downloaded + files_fetched (more1 ++ more2)
                    /\ skipped <= snd r
                    /\ files_fetched (more1 ++ more2) + (snd r - skipped)
                       <= Z.of_nat (length ((remote_path, local_path) :: files)))).
    { intros d s more1 w1 Hs1 Hp Hd Hsk Hle.
      eapply run_ok_conseq; [exact Hs1|apply IH; [exact Hs1|exact Hincl']|].
      intros r more2 w' _ _ (Hp2 & Hd2 & Hs2 & Hle2). cbv beta.
      rewrite probed_urls_app, files_fetched_app, Hp, Hp2. cbn [map fst app length].
      split; [reflexivity|]. lia. }
    cbn [sync_loop].
    eapply run_ok_bind; [exact Hs|apply is_real_file_event, Hs|].
    intros [exists_ remote_size] more1 w1 Hs1 Hev1 (o & -> & Hcl). cbv beta iota.
    destruct exists_; cbn [negb].
    + eapply (run_ok_bind card allowed w0 _ _ _ (λ _ more _, more = []));
        [exact Hs1|apply same_size_on_disk_ok; [exact Hs1|reflexivity]|].
      intros same more2 w2 Hs2 Hev2 ->. cbv beta. rewrite app_nil_r in Hev2.
      destruct same.
      * eapply run_ok_conseq;
          [exact Hs2
          |apply (Hnext downloaded (skipped + 1) [EvHead (url_of card remote_path) o]);
             [exact Hs2|reflexivity|unfold files_fetched; cbn; lia|lia
             |unfold files_fetched; cbn; lia]
          |].
        intros r more3 w' _ _ H. cbn [app] in *. exact H.
      * eapply run_ok_bind; [exact Hs2|apply download_file_ok; [exact Hs2|]|].
        { exists remote_size. split; [exact Hin|]. split; [reflexivity|].
          rewrite Hev2, Hev1. exists o.
          split; [apply in_or_app; right; left; reflexivity|exact Hcl]. }
        intros ok more3 w3 Hs3 _ (o' & rest & -> & Hrest & ->). cbv beta.
        destruct (get_events (url_of card remote_path) o' rest Hrest) as [Hp Hf].
        set (evs := EvHead (url_of card remote_path) o
                      :: [] ++ EvGet (url_of card remote_path) o' :: rest).
        assert (Hpe : probed_urls evs = [url_of card remote_path]).
        { unfold evs. cbn [app]. change (EvHead ?u ?x :: ?l) with ([EvHead u x] ++ l).
          rewrite probed_urls_app, Hp. reflexivity. }
        assert (Hfe : files_fetched evs
                      = if get_succeeded (EvGet (url_of card remote_path) o')
                        then 1 else 0).
        { unfold evs. cbn [app]. change (EvHead ?u ?x :: ?l) with ([EvHead u x] ++ l).
          rewrite files_fetched_app, Hf. reflexivity. }
        destruct (get_succeeded (EvGet (url_of card remote_path) o')) eqn:Eok.
        -- eapply run_ok_conseq;
             [exact Hs3
             |apply (Hnext (downloaded + 1) skipped evs);
                [exact Hs3|exact Hpe|lia|lia|lia]
             |].
           intros r more4 w' _ _ H. unfold evs in H. cbn [app] in *.
           exact H.
        -- eapply run_ok_conseq;
             [exact Hs3
             |apply (Hnext downloaded skipped evs);
                [exact Hs3|exact Hpe|lia|lia|lia]
             |].
           intros r more4 w' _ _ H. unfold evs in H. cbn [app] in *.
           exact H.
    + eapply run_ok_conseq;
        [exact Hs1
        |apply (Hnext downloaded skipped [EvHead (url_of card remote_path) o]);
           [exact Hs1|reflexivity|unfold files_fetched; cbn; lia|lia
           |unfold files_fetched; cbn; lia]
        |].
      intros r more3 w' _ _ H. exact H.
Qed.

End SyncRun.

(** What a run of the shared loop from the world [w] does. *)
Lemma sync_loop_run {remote : Type} {dev : Device remote} card files
    (w : @world remote) :
  let run := sync_loop card files 0 0 w in
  let evs := events_since w (snd run) in
  trace (snd run) = trace w ++ evs
  /\ steps card (sync_fetch card files) w (snd run)
  /\ forall r,
      fst run = Ok r ->
      probed_urls evs = map (λ f, url_of card (fst f)) files
      /\ fst r = files_fetched evs
      /\ 0 <= fst r <= Z.of_nat (length files).
Proof.
  intros run evs.
  destruct (sync_loop_ok card files w files 0 0 w (steps_start _ _ _)
              (incl_refl files))
    as (more & Htr & Hs & Hpost & _).
  fold run in Htr, Hs, Hpost.
  assert (Hev : evs = more).
  { unfold evs, events_since. rewrite Htr, drop_app_length. reflexivity. }
  rewrite Hev. split; [exact Htr|]. split; [exact Hs|].
  intros r Hr. destruct (Hpost r Hr) as (Hp & Hd & Hsk & Hle).
  split; [exact Hp|]. split; [lia|].
  unfold files_fetched in *. lia.
Qed.

Lemma download_root_files_run {remote : Type} {dev : Device remote}
    card output_dir (w : @world remote) :
  download_root_files card output_dir w
  = match sync_loop card (root_paths output_dir) 0 0 w with
    | (Ok r, w') => (Ok (fst r), w')
    | (Raise e, w') => (Raise e, w')
    end.
Proof.
  unfold download_root_files. rewrite prog_bind_run, root_files_loop_sync.
  fold (root_paths output_dir).
  destruct (sync_loop _ _ _ _ _) as [[[d s]|e] w']; reflexivity.
Qed.

Lemma download_settings_run {remote : Type} {dev : Device remote}
    card output_dir (w : @world remote) :
  download_settings card output_dir w
  = match sync_loop card (settings_paths output_dir) 0 0 w with
    | (Ok r, w') => (Ok (fst r), w')
    | (Raise e, w') => (Raise e, w')
    end.
Proof.
  unfold download_settings. cbv zeta. rewrite prog_bind_run, settings_loop_sync.
  fold (settings_paths output_dir).
  destruct (sync_loop _ _ _ _ _) as [[[d s]|e] w']; reflexivity.
Qed.

(** X18: when [download_root_files] returns, it has sent one HEAD
    request for each of the six root files, in the order of the list, and
    the number it returns is the number of files it fetched, between 0 and
    6; and so [download_settings] for the two files under SETTINGS/. A file
    that is skipped or whose download fails is not counted. *)
Theorem root_files_and_settings_are_probed_in_turn {remote : Type}
    {dev : Device remote} card output_dir (w : @world remote) :
  (forall n,
      fst (download_root_files card output_dir w) = Ok n ->
      let evs := events_since w (snd (download_root_files card output_dir w)) in
      probed_urls evs = map (url_of card) ROOT_FILES
      /\ n = files_fetched evs /\ 0 <= n <= 6)
  /\ (forall n,
        fst (download_settings card output_dir w) = Ok n ->
        let evs := events_since w (snd (download_settings card output_dir w)) in
        probed_urls evs
        = map (λ fname, url_of card ("SETTINGS/" +:+ fname)) SETTINGS_FILES
        /\ n = files_fetched evs /\ 0 <= n <= 2).
Proof.
  split; intros n Hn evs.
  - unfold evs. rewrite download_root_files_run in Hn |- *.
    destruct (sync_loop_run card (root_paths output_dir) w) as (_ & _ & H).
    destruct (sync_loop card (root_paths output_dir) 0 0 w) as [[r|e] w'];
      [|discriminate].
    injection Hn as <-. cbn [fst snd] in *.
    destruct (H r eq_refl) as (Hp & Hf & Hle).
    unfold root_paths in Hp. rewrite map_map in Hp. cbn [fst] in Hp.
    split; [exact Hp|]. split; [exact Hf|exact Hle].
  - unfold evs. rewrite download_settings_run in Hn |- *.
    destruct (sync_loop_run card (settings_paths output_dir) w) as (_ & _ & H).
    destruct (sync_loop card (settings_paths output_dir) 0 0 w) as [[r|e] w'];
      [|discriminate].
    injection Hn as <-. cbn [fst snd] in *.
    destruct (H r eq_refl) as (Hp & Hf & Hle).
    unfold settings_paths in Hp. rewrite map_map in Hp. cbn [fst] in Hp.
    split; [exact Hp|]. split; [exact Hf|exact Hle].
Qed.

(** What the fetches of a run of the shared loop were allowed by, and what
    they left on the disk. *)
Lemma sync_loop_fetches {remote : Type} {dev : Device remote} card files
    (w w' : @world remote) :
  steps card (sync_fetch card files) w w' ->
  let evs := events_since w w' in
  (forall i url o,
      evs !! i = Some (EvGet url o) ->
      exists remote_path local_path size,
        In (remote_path, local_path) files
        /\ url = url_of card remote_path
        /\ exists_in (take i evs) url size)
  /\ (forall p,
        disk w' !! p = disk w !! p
        \/ exists remote_path r,
            In (remote_path, p) files
            /\ In (EvGet (url_of card remote_path) (Response r)) evs
            /\ disk w' !! p = Some (get_body r)).
Proof.
  intros Hs evs. split.
  - intros i url o Hi.
    destruct (steps_gets_allowed _ _ _ _ Hs i url o Hi)
      as (rp & lp & es & -> & size & Hin & _ & Hex).
    exists rp, lp, size. auto.
  - intros p.
    destruct (steps_disk _ _ _ _ Hs p)
      as [Hp|(i & rp & es & r & Hi & (size & Hin & _ & _) & Hp)];
      [left; exact Hp|].
    right. exists rp, r. split; [exact Hin|]. split; [|exact Hp].
    apply list_elem_of_In. eapply list_elem_of_lookup_2, Hi.
Qed.

(** X19: [download_root_files] sends a GET only for one of the six
    root files, after a HEAD request of the same run reported it as
    existing (with any size, zero included), and changes a local file only
    when it is the copy of a root file directly under the output directory,
    which then holds the bytes received; and so [download_settings] for the
    two settings files and their copies under the SETTINGS directory of the
    output directory. *)
Theorem root_files_and_settings_fetch_only_reported_files {remote : Type}
    {dev : Device remote} card output_dir (w : @world remote) :
  (let w' := snd (download_root_files card output_dir w) in
   let evs := events_since w w' in
   (forall i url o,
       evs !! i = Some (EvGet url o) ->
       exists fname size,
         In fname ROOT_FILES /\ url = url_of card fname
         /\ exists_in (take i evs) url size)
   /\ (forall p,
         disk w' !! p = disk w !! p
         \/ exists fname r,
             In fname ROOT_FILES /\ p = os_path_join output_dir fname
             /\ In (EvGet (url_of card fname) (Response r)) evs
             /\ disk w' !! p = Some (get_body r)))
  /\ (let w' := snd (download_settings card output_dir w) in
      let evs := events_since w w' in
      (forall i url o,
          evs !! i = Some (EvGet url o) ->
          exists fname size,
            In fname SETTINGS_FILES
            /\ url = url_of card ("SETTINGS/" +:+ fname)
            /\ exists_in (take i evs) url size)
      /\ (forall p,
            disk w' !! p = disk w !! p
            \/ exists fname r,
                In fname SETTINGS_FILES
                /\ p = os_path_join (os_path_join output_dir "SETTINGS") fname
                /\ In (EvGet (url_of card ("SETTINGS/" +:+ fname)) (Response r))
                      evs
                /\ disk w' !! p = Some (get_body r))).
Proof.
  split.
  - intros w' evs.
    assert (Hs : steps card (sync_fetch card (root_paths output_dir)) w w').
    { unfold w'. rewrite download_root_files_run.
      destruct (sync_loop_run card (root_paths output_dir) w) as (_ & Hs & _).
      destruct (sync_loop card (root_paths output_dir) 0 0 w) as [[r|e] w1];
        exact Hs. }
    destruct (sync_loop_fetches card _ w w' Hs) as [Hget Hdisk]. split.
    + intros i url o Hi.
      destruct (Hget i url o Hi) as (rp & lp & size & Hin & Hurl & Hex).
      apply in_map_iff in Hin as (fname & [= <- <-] & Hin). eauto.
    + intros p. destruct (Hdisk p) as [Hp|(rp & r & Hin & Hev & Hp)];
        [left; exact Hp|].
      apply in_map_iff in Hin as (fname & [= <- <-] & Hin).
      right. exists fname, r. auto.
  - intros w' evs.
    assert (Hs : steps card (sync_fetch card (settings_paths output_dir)) w w').
    { unfold w'. rewrite download_settings_run.
      destruct (sync_loop_run card (settings_paths output_dir) w) as (_ & Hs & _).
      destruct (sync_loop card (settings_paths output_dir) 0 0 w) as [[r|e] w1];
        exact Hs. }
    destruct (sync_loop_fetches card _ w w' Hs) as [Hget Hdisk]. split.
    + intros i url o Hi.
      destruct (Hget i url o Hi) as (rp & lp & size & Hin & Hurl & Hex).
      apply in_map_iff in Hin as (fname & [= <- <-] & Hin). eauto.
    + intros p. destruct (Hdisk p) as [Hp|(rp & r & Hin & Hev & Hp)];
        [left; exact Hp|].
      apply in_map_iff in Hin as (fname & [= <- <-] & Hin).
      right. exists fname, r. auto.
Qed.

(** * Edge cases of the probe and of the search near a reference *)

(** X20: an answer that is not the HTML page and carries no
    Content-Length is reported by the probe as an existing file of size 0;
    [is_real_directory] takes the path for a directory, and the searches for
    the seconds take it for a miss. *)
Theorem answer_without_length_is_taken_for_a_directory {remote : Type}
    {dev : Device remote} card path (w : @world remote) r n :
  http_head (net w) (url_of card (Py.rstrip_char "/" path)) = (Response r, n) ->
  Py.contains "text/html" (header_or_empty (head_content_type r)) = false ->
  head_content_length r = None ->
  fst (is_real_file card (Py.rstrip_char "/" path) w) = Ok (true, 0)
  /\ fst (is_real_directory card path w) = Ok true
  /\ miss (Response r) = true.
Proof.
  intros Hhead Hct Hcl.
  assert (Hfile : is_real_file card (Py.rstrip_char "/" path) w
                  = (Ok (true, 0),
                     mk_world n (disk w)
                       (trace w ++ [EvHead (url_of card (Py.rstrip_char "/" path))
                                      (Response r)]))).
  { rewrite is_real_file_run, Hhead. cbn [classify_outcome].
    unfold classify_head. rewrite Hct, Hcl. reflexivity. }
  split; [rewrite Hfile; reflexivity|]. split.
  - rewrite is_real_directory_run, Hfile. reflexivity.
  - unfold miss. cbn [classify_outcome]. unfold classify_head.
    rewrite Hct, Hcl. reflexivity.
Qed.

Lemma answer_without_length_is_taken_for_a_directory_witness :
  let dev := {| http_head := λ (_ : unit) (_ : string),
                  (Response (mk_head (Some "text/plain"%string) None), tt);
                http_get := λ _ _, (RequestException, tt) |} in
  fst (is_real_file (dev := dev) the_card (Py.rstrip_char "/" "STR.edf/")
         empty_world) = Ok (true, 0)
  /\ fst (is_real_directory (dev := dev) the_card "STR.edf/" empty_world)
     = Ok true
  /\ miss (Response (mk_head (Some "text/plain"%string) None)) = true.
Proof.
  intros dev.
  apply (answer_without_length_is_taken_for_a_directory (dev := dev) the_card
           "STR.edf/" empty_world (mk_head (Some "text/plain"%string) None) tt);
    reflexivity.
Defined.

Lemma near_order_length ref window :
  0 <= window -> Z.of_nat (length (near_order ref window)) = 2 * window + 1.
Proof.
  intros Hw. unfold near_order. cbn [length].
  assert (H : forall a n,
             length (flat_map (λ k, [ref + Z.of_nat k; ref - Z.of_nat k])
                       (seq a n)) = (2 * n)%nat).
  { intros a n. revert a. induction n as [|n IH]; intros a; [reflexivity|].
    cbn [seq flat_map app length]. rewrite IH. lia. }
  rewrite H. lia.
Qed.

(** X21: the search near a reference sends no request and returns
    (None, 0) when the window is negative or when no seconds value within
    the window of the reference lies in 0..59; it raises without sending a
    request when the reference is not a number; and in every case it sends
    at most 2 * window + 1 requests, all of them HEAD, and writes nothing. *)
Theorem nearby_search_edge_cases {remote : Type} {dev : Device remote}
    card dd fd hhmm ftype reference_ss window (w : @world remote) :
  let run := find_seconds_near card dd fd hhmm ftype reference_ss window w in
  (forall ref,
      Py.int_of_str reference_ss = Ok ref ->
      window < 0 \/ ref + window < 0 \/ 60 <= ref - window ->
      run = (Ok (None, 0), w))
  /\ (forall e, Py.int_of_str reference_ss = Raise e -> run = (Raise e, w))
  /\ (forall ref,
        Py.int_of_str reference_ss = Ok ref -> 0 <= window ->
        disk (snd run) = disk w
        /\ exists probes,
            trace (snd run) = trace w ++ probes
            /\ forallb is_head probes = true
            /\ Z.of_nat (length probes) <= 2 * window + 1).
Proof.
  intros run. split; [|split].
  - intros ref Href Hout. unfold run, find_seconds_near.
    rewrite prog_bind_run. unfold lift. rewrite Href.
    rewrite scan_offsets_in_order.
    assert (Hnil : List.filter is_second
                     (flat_map (λ k, candidates ref (Z.of_nat k))
                        (range (window + 1))) = []).
    { destruct (Z_lt_ge_dec window 0) as [Hneg|Hpos].
      - unfold range. replace (Z.to_nat (window + 1)) with 0%nat by lia.
        reflexivity.
      - rewrite candidates_order by lia.
        destruct (List.filter is_second (near_order ref window)) as [|c l] eqn:E;
          [reflexivity|exfalso].
        assert (Hin : In c (List.filter is_second (near_order ref window)))
          by (rewrite E; left; reflexivity).
        apply filter_In in Hin as [Hin Hsec].
        apply in_near_order in Hin; [|lia].
        unfold is_second in Hsec. apply andb_true_iff in Hsec as [H0 H60].
        apply Z.leb_le in H0. apply Z.ltb_lt in H60. lia. }
    rewrite Hnil. reflexivity.
  - intros e Href. unfold run, find_seconds_near.
    rewrite prog_bind_run. unfold lift. rewrite Href. reflexivity.
  - intros ref Href Hw. unfold run.
    rewrite (find_seconds_near_in_order _ _ _ _ _ _ ref) by assumption.
    destruct (probe_in_order_searched card dd fd hhmm ftype
                (near_candidates ref window) w)
      as (Hdisk & misses & tail & Hc & _ & Hcases).
    split; [exact Hdisk|].
    assert (Hlen : Z.of_nat (length (near_candidates ref window))
                   <= 2 * window + 1).
    { rewrite <- (near_order_length ref window Hw). unfold near_candidates.
      pose proof (filter_length_le is_second (near_order ref window)). lia. }
    rewrite Hc, length_app, length_map in Hlen.
    destruct Hcases as [(_ & _ & Htr)|(c & o & tl & -> & Htr & _)].
    + exists (probe_events card dd fd hhmm ftype misses).
      destruct (probe_events_heads card dd fd hhmm ftype misses) as [Hh Hl].
      split; [exact Htr|]. split; [exact Hh|]. rewrite Hl. lia.
    + exists (probe_events card dd fd hhmm ftype (misses ++ [(c, o)])).
      destruct (probe_events_heads card dd fd hhmm ftype (misses ++ [(c, o)]))
        as [Hh Hl].
      split; [exact Htr|]. split; [exact Hh|].
      rewrite Hl, length_app. cbn [length] in *. lia.
Qed.

(** * The cutoff *)

(** ** Dates as strings of digits *)

Lemma fmt_0d_4_digits : all_from (Z.to_nat 9000) 1000 (fmt_as 4 digits4) = true.
Proof. vm_compute. reflexivity. Qed.

Lemma fmt_02d_digits : all_from (Z.to_nat 100) 0 (fmt_as 2 digits2) = true.
Proof. vm_compute. reflexivity. Qed.

Lemma format_Ymd_digits y m d :
  1000 <= y <= 9999 -> 0 <= m <= 99 -> 0 <= d <= 99 ->
  format_Ymd (y, m, d) = digits4 y +:+ digits2 m +:+ digits2 d.
Proof.
  intros Hy Hm Hd. unfold format_Ymd, Py.fmt_02d.
  assert (H4 : fmt_as 4 digits4 y = true)
    by (apply (all_from_spec _ _ _ fmt_0d_4_digits); rewrite Z2Nat.id; lia).
  assert (Hm2 : fmt_as 2 digits2 m = true)
    by (apply (all_from_spec _ _ _ fmt_02d_digits); rewrite Z2Nat.id; lia).
  assert (Hd2 : fmt_as 2 digits2 d = true)
    by (apply (all_from_spec _ _ _ fmt_02d_digits); rewrite Z2Nat.id; lia).
  unfold fmt_as in *. apply String.eqb_eq in H4, Hm2, Hd2.
  rewrite H4, Hm2, Hd2. reflexivity.
Qed.

Lemma N_of_digit_char a :
  0 <= a <= 9 -> N_of_ascii (Py.digit_char a) = Z.to_N (48 + a).
Proof.
  intros Ha. unfold Py.digit_char. apply N_ascii_embedding. lia.
Qed.

Lemma str_ltb_digit a b s t :
  0 <= a <= 9 -> 0 <= b <= 9 ->
  Py.str_ltb (String (Py.digit_char a) s) (String (Py.digit_char b) t)
  = if a <? b then true else if b <? a then false else Py.str_ltb s t.
Proof.
  intros Ha Hb. cbn [Py.str_ltb]. rewrite !N_of_digit_char by assumption.
  destruct (Z.ltb_spec a b), (Z.ltb_spec b a);
    destruct (N.ltb_spec (Z.to_N (48 + a)) (Z.to_N (48 + b)));
    destruct (N.ltb_spec (Z.to_N (48 + b)) (Z.to_N (48 + a)));
    try reflexivity; lia.
Qed.

(** The order of the strings is the order of the dates as numbers. *)
Lemma str_ltb_format_Ymd y m d y' m' d' :
  1000 <= y <= 9999 -> 0 <= m <= 99 -> 0 <= d <= 99 ->
  1000 <= y' <= 9999 -> 0 <= m' <= 99 -> 0 <= d' <= 99 ->
  Py.str_ltb (format_Ymd (y, m, d)) (format_Ymd (y', m', d'))
  = (date_key (y, m, d) <? date_key (y', m', d')).
Proof.
  intros Hy Hm Hd Hy' Hm' Hd'.
  rewrite !format_Ymd_digits by assumption.
  unfold digits4, digits2, date_key.
  change (String ?a (String ?b (String ?c (String ?e EmptyString)))
          +:+ String ?f (String ?g EmptyString)
          +:+ String ?h (String ?i EmptyString))
    with (String a (String b (String c (String e (String f (String g
            (String h (String i EmptyString)))))))).
  set (a3 := y / 1000). set (a2 := y / 100 mod 10).
  set (a1 := (y mod 100) / 10). set (a0 := (y mod 100) mod 10).
  set (b1 := m / 10). set (b0 := m mod 10).
  set (c1 := d / 10). set (c0 := d mod 10).
  set (a3' := y' / 1000). set (a2' := y' / 100 mod 10).
  set (a1' := (y' mod 100) / 10). set (a0' := (y' mod 100) mod 10).
  set (b1' := m' / 10). set (b0' := m' mod 10).
  set (c1' := d' / 10). set (c0' := d' mod 10).
  assert (Ey : y = 1000 * a3 + 100 * a2 + 10 * a1 + a0
               /\ 0 <= a3 <= 9 /\ 0 <= a2 <= 9 /\ 0 <= a1 <= 9 /\ 0 <= a0 <= 9)
    by (unfold a3, a2, a1, a0; Z.div_mod_to_equations; lia).
  assert (Em : m = 10 * b1 + b0 /\ 0 <= b1 <= 9 /\ 0 <= b0 <= 9)
    by (unfold b1, b0; Z.div_mod_to_equations; lia).
  assert (Ed : d = 10 * c1 + c0 /\ 0 <= c1 <= 9 /\ 0 <= c0 <= 9)
    by (unfold c1, c0; Z.div_mod_to_equations; lia).
  assert (Ey' : y' = 1000 * a3' + 100 * a2' + 10 * a1' + a0'
                /\ 0 <= a3' <= 9 /\ 0 <= a2' <= 9 /\ 0 <= a1' <= 9
                /\ 0 <= a0' <= 9)
    by (unfold a3', a2', a1', a0'; Z.div_mod_to_equations; lia).
  assert (Em' : m' = 10 * b1' + b0' /\ 0 <= b1' <= 9 /\ 0 <= b0' <= 9)
    by (unfold b1', b0'; Z.div_mod_to_equations; lia).
  assert (Ed' : d' = 10 * c1' + c0' /\ 0 <= c1' <= 9 /\ 0 <= c0' <= 9)
    by (unfold c1', c0'; Z.div_mod_to_equations; lia).
  clearbody a3 a2 a1 a0 b1 b0 c1 c0 a3' a2' a1' a0' b1' b0' c1' c0'.
  rewrite !str_ltb_digit by lia. cbn [Py.str_ltb].
  destruct (Z.ltb_spec (y * 10000 + m * 100 + d) (y' * 10000 + m' * 100 + d'));
    repeat match goal with
           | |- context [?a <? ?b] => destruct (Z.ltb_spec a b)
           end;
    try reflexivity; lia.
Qed.

(** ** The order of the days *)

Lemma valid_date_bounds y m d :
  valid_date y m d = true -> 1 <= m <= 12 /\ 1 <= d <= days_in_month y m.
Proof.
  unfold valid_date. intros Hv.
  repeat (apply andb_true_iff in Hv as [Hv ?]).
  repeat match goal with
         | H : (_ <=? _) = true |- _ => apply Z.leb_le in H
         end.
  lia.
Qed.

Lemma month_cases m :
  1 <= m <= 12 ->
  m = 1 \/ m = 2 \/ m = 3 \/ m = 4 \/ m = 5 \/ m = 6 \/ m = 7 \/ m = 8
  \/ m = 9 \/ m = 10 \/ m = 11 \/ m = 12.
Proof. lia. Qed.

(** The days before a month and those of the month itself, together. *)
Lemma days_before_month_step y m :
  1 <= m <= 12 ->
  days_before_month y m + days_in_month y m
  = if m =? 12 then 365 + (if is_leap y then 1 else 0)
    else days_before_month y (m + 1).
Proof.
  intros Hm. apply month_cases in Hm.
  unfold days_before_month, days_in_month.
  repeat destruct Hm as [->|Hm]; [..|subst m];
    destruct (is_leap y); reflexivity.
Qed.

Lemma days_in_month_bounds y m :
  1 <= m <= 12 -> 28 <= days_in_month y m <= 31.
Proof.
  intros Hm. apply month_cases in Hm. unfold days_in_month.
  repeat destruct Hm as [->|Hm]; [..|subst m];
    destruct (is_leap y); vm_compute; split; discriminate.
Qed.

Lemma days_before_month_le y : forall k m,
  1 <= m -> m + Z.of_nat k <= 12 ->
  days_before_month y m <= days_before_month y (m + Z.of_nat k).
Proof.
  induction k as [|k IH]; intros m Hm Hk.
  - rewrite Z.add_0_r. lia.
  - replace (m + Z.of_nat (S k)) with ((m + 1) + Z.of_nat k) by lia.
    pose proof (days_before_month_step y m ltac:(lia)) as Hs.
    destruct (Z.eqb_spec m 12) as [->|_]; [lia|].
    pose proof (days_in_month_bounds y m ltac:(lia)).
    specialize (IH (m + 1) ltac:(lia) ltac:(lia)). lia.
Qed.

Lemma days_before_month_end y m d :
  valid_date y m d = true ->
  days_before_month y m + d <= 365 + (if is_leap y then 1 else 0).
Proof.
  intros Hv. apply valid_date_bounds in Hv as [Hm Hd].
  pose proof (days_before_month_step y m Hm) as Hs.
  destruct (Z.eqb_spec m 12) as [->|Hne]; [lia|].
  pose proof (days_before_month_le y (Z.to_nat (12 - (m + 1))) (m + 1)
                ltac:(lia) ltac:(lia)) as Hle.
  replace (m + 1 + Z.of_nat (Z.to_nat (12 - (m + 1)))) with 12 in Hle by lia.
  pose proof (days_before_month_step y 12 ltac:(lia)) as H12.
  pose proof (days_in_month_bounds y 12 ltac:(lia)).
  cbn [Z.eqb Pos.eqb] in H12. lia.
Qed.

Lemma days_before_year_succ y :
  days_before_year (y + 1)
  = days_before_year y + 365 + (if is_leap y then 1 else 0).
Proof.
  unfold days_before_year, is_leap.
  replace (y + 1 - 1) with y by lia.
  destruct (Z.eqb_spec (y mod 4) 0), (Z.eqb_spec (y mod 100) 0),
    (Z.eqb_spec (y mod 400) 0); cbn [negb andb orb];
    Z.div_mod_to_equations; lia.
Qed.

Lemma days_before_year_le a b :
  a <= b -> days_before_year a <= days_before_year b.
Proof.
  intros Hab. unfold days_before_year. Z.div_mod_to_equations. lia.
Qed.

(** Later dates have later ordinals. *)
Lemma ymd2ord_lt y m d y' m' d' :
  valid_date y m d = true -> valid_date y' m' d' = true ->
  date_key (y, m, d) < date_key (y', m', d') ->
  ymd2ord y m d < ymd2ord y' m' d'.
Proof.
  intros Hv Hv' Hk.
  pose proof (days_before_month_end y m d Hv) as Hend.
  apply valid_date_bounds in Hv as [Hm Hd].
  apply valid_date_bounds in Hv' as [Hm' Hd'].
  pose proof (days_in_month_bounds y m Hm).
  pose proof (days_in_month_bounds y' m' Hm').
  unfold date_key in Hk. unfold ymd2ord.
  destruct (Z.lt_trichotomy y y') as [Hy|[->|Hy]]; [| |lia].
  - pose proof (days_before_year_succ y) as Hs.
    pose proof (days_before_year_le (y + 1) y' ltac:(lia)).
    pose proof (days_before_month_nonneg y' m' ltac:(lia)). lia.
  - destruct (Z.lt_trichotomy m m') as [Hlt|[->|Hlt]]; [|lia|lia].
    pose proof (days_before_month_step y' m Hm) as Hs.
    destruct (Z.eqb_spec m 12) as [->|_]; [lia|].
    pose proof (days_before_month_le y' (Z.to_nat (m' - (m + 1))) (m + 1)
                  ltac:(lia) ltac:(lia)) as Hle.
    replace (m + 1 + Z.of_nat (Z.to_nat (m' - (m + 1)))) with m' in Hle by lia.
    lia.
Qed.

Lemma ymd2ord_lt_iff y m d y' m' d' :
  valid_date y m d = true -> valid_date y' m' d' = true ->
  date_key (y, m, d) < date_key (y', m', d')
  <-> ymd2ord y m d < ymd2ord y' m' d'.
Proof.
  intros Hv Hv'. split; [apply ymd2ord_lt; assumption|].
  intros Ho.
  destruct (Z.lt_trichotomy (date_key (y, m, d)) (date_key (y', m', d')))
    as [Hlt|[Heq|Hgt]]; [exact Hlt| |].
  - exfalso.
    pose proof Hv as Hb. pose proof Hv' as Hb'.
    apply valid_date_bounds in Hb as [Hm Hd].
    apply valid_date_bounds in Hb' as [Hm' Hd'].
    pose proof (days_in_month_bounds y m Hm).
    pose proof (days_in_month_bounds y' m' Hm').
    unfold date_key in Heq.
    assert (y = y') by lia. subst y'.
    assert (m = m') by lia. subst m'.
    assert (d = d') by lia. subst d'. lia.
  - exfalso. pose proof (ymd2ord_lt _ _ _ _ _ _ Hv' Hv Hgt). lia.
Qed.

(** The days from 1000-01-01 on have a year of four digits. *)
Lemma ord2ymd_4_digits n y m d :
  FIRST_4_DIGIT_DAY <= n <= MAXORDINAL -> ord2ymd n = (y, m, d) ->
  1000 <= y <= 9999 /\ valid_date y m d = true /\ ymd2ord y m d = n.
Proof.
  unfold FIRST_4_DIGIT_DAY. intros Hn Ho.
  pose proof (ord2ymd_year_bound n y m d ltac:(lia) Ho) as Hy.
  unfold MAXYEAR in Hy.
  apply ord2ymd_spec in Ho as (_ & Hv & Hr); [|lia].
  split; [|split; assumption].
  split; [|lia].
  destruct (Z_le_gt_dec 1000 y) as [Hle|Hgt]; [exact Hle|exfalso].
  pose proof (days_before_month_end y m d Hv).
  pose proof (days_before_year_succ y).
  pose proof (days_before_year_le (y + 1) 1000 ltac:(lia)) as Hle.
  change (days_before_year 1000) with 364877 in Hle.
  unfold ymd2ord in Hr. lia.
Qed.

(** The strings of two days compare as the days do. *)
Lemma str_ltb_days n n' :
  FIRST_4_DIGIT_DAY <= n <= MAXORDINAL ->
  FIRST_4_DIGIT_DAY <= n' <= MAXORDINAL ->
  Py.str_ltb (format_Ymd (ord2ymd n)) (format_Ymd (ord2ymd n')) = (n <? n').
Proof.
  intros Hn Hn'.
  destruct (ord2ymd n) as [[y m] d] eqn:E.
  destruct (ord2ymd n') as [[y' m'] d'] eqn:E'.
  apply ord2ymd_4_digits in E as (Hy & Hv & Hr); [|exact Hn].
  apply ord2ymd_4_digits in E' as (Hy' & Hv' & Hr'); [|exact Hn'].
  pose proof (ymd2ord_lt_iff _ _ _ _ _ _ Hv Hv') as Hiff.
  pose proof Hv as Hb. pose proof Hv' as Hb'.
  apply valid_date_bounds in Hb as [Hm Hd].
  apply valid_date_bounds in Hb' as [Hm' Hd'].
  pose proof (days_in_month_bounds y m Hm).
  pose proof (days_in_month_bounds y' m' Hm').
  rewrite str_ltb_format_Ymd by lia.
  rewrite Hr, Hr' in Hiff.
  destruct (Z.ltb_spec (date_key (y, m, d)) (date_key (y', m', d')));
    destruct (Z.ltb_spec n n'); try reflexivity; lia.
Qed.

(** ** The cutoff *)

Lemma cutoff_of_days now days_back :
  wf_datetime now ->
  1 <= toordinal now - days_back <= MAXORDINAL ->
  cutoff_of now (Some days_back)
  = Ok (Some (format_Ymd (ord2ymd (toordinal now - days_back)))).
Proof.
  intros Hwf Hc.
  pose proof (toordinal_pos now Hwf) as Hpos.
  assert (Hmax : toordinal now <= MAXORDINAL).
  { pose proof Hwf as Hm. apply make_ok in Hm as (_ & Hy & Hv & _).
    pose proof (days_before_month_end _ _ _ Hv).
    pose proof (days_before_year_succ (year now)).
    pose proof (days_before_year_le (year now + 1) 10000 ltac:(unfold MAXYEAR in Hy; lia)) as Hle.
    change (days_before_year 10000) with 3652059 in Hle.
    unfold toordinal, ymd2ord, MAXORDINAL. lia. }
  assert (Hsod : 0 <= hour now * 3600 + minute now * 60 + second now < 86400).
  { apply make_ok in Hwf as (_ & _ & _ & Hh & Hmi & Hs). lia. }
  unfold MAXORDINAL in *.
  unfold cutoff_of.
  rewrite make_delta_days by (unfold MAX_DELTA_DAYS; lia).
  rewrite bind_Ok. unfold datetime_sub, timedelta_neg.
  cbn [td_days td_seconds].
  change (- 0) with 0. change (0 / 86400) with 0. change (0 mod 86400) with 0.
  rewrite Z.add_0_r.
  replace ((- MAX_DELTA_DAYS <=? - days_back) && (- days_back <=? MAX_DELTA_DAYS))
    with true
    by (symmetry; apply andb_true_iff; unfold MAX_DELTA_DAYS;
        split; apply Z.leb_le; lia).
  rewrite bind_Ok. unfold Datetime.add. cbn [td_days td_seconds].
  rewrite Z.add_0_r, (Z.div_small _ 86400 Hsod), Z.add_0_r.
  replace (toordinal now + - days_back) with (toordinal now - days_back) by lia.
  replace ((0 <? toordinal now - days_back)
           && (toordinal now - days_back <=? MAXORDINAL)) with true
    by (symmetry; apply andb_true_iff; unfold MAXORDINAL;
        split; [apply Z.ltb_lt|apply Z.leb_le]; lia).
  destruct (ord2ymd (toordinal now - days_back)) as [[y m] d].
  rewrite bind_Ok. reflexivity.
Qed.

(** X22: with [days_back] given, the cutoff is the day that many days
    before today, and a session is kept exactly when its record day is not
    before that day (all days from the year 1000 on). *)
Theorem sessions_of_the_last_days_are_kept now days_back sessions s n :
  wf_datetime now ->
  FIRST_4_DIGIT_DAY <= toordinal now - days_back <= MAXORDINAL ->
  FIRST_4_DIGIT_DAY <= n <= MAXORDINAL ->
  record_date s = format_Ymd (ord2ymd n) ->
  exists c,
    cutoff_of now (Some days_back) = Ok (Some c)
    /\ c = format_Ymd (ord2ymd (toordinal now - days_back))
    /\ (In s (filter_sessions (Some c) sessions)
        <-> In s sessions /\ toordinal now - days_back <= n).
Proof.
  intros Hwf Hc Hn Hrec.
  exists (format_Ymd (ord2ymd (toordinal now - days_back))).
  split; [apply cutoff_of_days; [exact Hwf|unfold FIRST_4_DIGIT_DAY in Hc; lia]|].
  split; [reflexivity|].
  unfold filter_sessions. rewrite filter_In.
  assert (Hb : before_cutoff
                 (Some (format_Ymd (ord2ymd (toordinal now - days_back)))) s
               = (n <? toordinal now - days_back)).
  { unfold before_cutoff. rewrite Hrec, str_ltb_days by assumption.
    destruct (ord2ymd (toordinal now - days_back)) as [[y m] d] eqn:E.
    apply ord2ymd_4_digits in E as (Hy & Hv & _); [|exact Hc].
    apply valid_date_bounds in Hv as [Hm Hd].
    pose proof (days_in_month_bounds y m Hm).
    rewrite format_Ymd_digits by lia. reflexivity. }
  rewrite Hb.
  destruct (Z.ltb_spec n (toordinal now - days_back)); cbn [negb];
    intuition (try lia; try discriminate).
Qed.

Lemma sessions_of_the_last_days_are_kept_witness :
  let now := mk_dt 2024 1 10 8 30 0 in
  let s := mk_session "20240105" (mk_dt 2024 1 5 22 0 0) 400 in
  exists c,
    cutoff_of now (Some 7) = Ok (Some c)
    /\ c = format_Ymd (ord2ymd (toordinal now - 7))
    /\ (In s (filter_sessions (Some c) [s])
        <-> In s [s] /\ toordinal now - 7 <= ymd2ord 2024 1 5).
Proof.
  intros now s.
  apply (sessions_of_the_last_days_are_kept now 7 [s] s (ymd2ord 2024 1 5)).
  - reflexivity.
  - vm_compute. split; discriminate.
  - vm_compute. split; discriminate.
  - vm_compute. reflexivity.
Defined.

(** ** What [download_datalog] raises *)

(** The computation of the cutoff raises nothing but OverflowError, and
    only with [days_back] given and the day that many days before today
    outside the calendar. *)
Lemma cutoff_of_raises now days_back e :
  cutoff_of now days_back = Raise e ->
  e = OverflowError
  /\ exists d,
      days_back = Some d
      /\ (wf_datetime now -> ~ 1 <= toordinal now - d <= MAXORDINAL).
Proof.
  destruct days_back as [d|]; [|discriminate]. intros Hraise.
  split.
  - unfold cutoff_of in Hraise.
    apply bind_Raise_inv in Hraise as [Hraise|(delta & _ & Hraise)].
    { unfold Datetime.make_delta in Hraise.
      destruct (_ && _); congruence. }
    apply bind_Raise_inv in Hraise as [Hraise|(dt & _ & Hraise)];
      [|discriminate].
    unfold datetime_sub in Hraise.
    apply bind_Raise_inv in Hraise as [Hraise|(neg & _ & Hraise)].
    { unfold timedelta_neg in Hraise. destruct (_ && _); congruence. }
    unfold Datetime.add in Hraise.
    destruct (_ && _); [|congruence].
    destruct (ord2ymd _) as [[y m] dd]. discriminate.
  - exists d. split; [reflexivity|]. intros Hwf Hin.
    rewrite (cutoff_of_days now d Hwf Hin) in Hraise. discriminate.
Qed.

(** X15: [download_datalog] raises in two ways only. One is the
    OverflowError of the cutoff, when [days_back] is given and the day that
    many days before today is outside the calendar: nothing has been
    requested or written then. The other is the ValueError of [int] on a
    Content-Length that is not a number, in the answer to the HEAD request
    it sent last. A request that fails never makes it raise. (Failures of
    the local file system are not part of the model.) *)
Theorem download_loop_raises_only_for_a_bad_length {remote : Type}
    {dev : Device remote} now card sessions output_dir days_back
    (w : @world remote) e :
  let run := download_datalog_since now card sessions output_dir days_back w in
  fst run = Raise e ->
  (e = OverflowError
   /\ snd run = w
   /\ exists d,
       days_back = Some d
       /\ (wf_datetime now -> ~ 1 <= toordinal now - d <= MAXORDINAL))
  \/ (exists cutoff,
         cutoff_of now days_back = Ok cutoff
         /\ bad_length e (trace (snd run))).
Proof.
  intros run Hrun. unfold run, download_datalog_since in *.
  rewrite prog_bind_run in Hrun |- *. unfold lift in *.
  destruct (cutoff_of now days_back) as [cutoff|e'] eqn:Ecut.
  - right. exists cutoff. split; [reflexivity|].
    destruct (download_datalog_steps card sessions output_dir cutoff w)
      as (evs & _ & _ & _ & _ & Herr).
    apply Herr, Hrun.
  - left. cbn [fst snd] in *. injection Hrun as ->.
    destruct (cutoff_of_raises now days_back e Ecut) as (-> & Hd).
    split; [reflexivity|]. split; [reflexivity|exact Hd].
Qed.

Lemma download_loop_raises_only_for_a_bad_length_witness :
  (OverflowError = OverflowError
   /\ snd (download_datalog_since (dev := one_brp_device "3")
             (mk_dt 2024 1 10 8 30 0) the_card [a_session] "out"
             (Some 800000) empty_world) = empty_world)
  /\ bad_length ValueError
       (trace (snd (download_datalog_since
                      (dev := device_with
                                [("http://192.168.4.1/DATALOG/20240110", "12k")]%string
                                [])
                      (mk_dt 2024 1 10 8 30 0) the_card [a_session] "out"
                      (Some 7) empty_world))).
Proof.
  split.
  - destruct (download_loop_raises_only_for_a_bad_length
                (dev := one_brp_device "3") (mk_dt 2024 1 10 8 30 0) the_card
                [a_session] "out" (Some 800000) empty_world OverflowError)
      as [(He & Hw & _)|(cutoff & Hcut & _)].
    + vm_compute. reflexivity.
    + split; [exact He|exact Hw].
    + vm_compute in Hcut. discriminate.
  - destruct (download_loop_raises_only_for_a_bad_length
                (dev := device_with
                          [("http://192.168.4.1/DATALOG/20240110", "12k")]%string [])
                (mk_dt 2024 1 10 8 30 0) the_card [a_session] "out" (Some 7)
                empty_world ValueError)
      as [(He & _)|(cutoff & _ & Hbad)].
    + vm_compute. reflexivity.
    + discriminate.
    + exact Hbad.
Defined.

(** * Root files and settings, run again *)

Lemma append_inj_r (a b c : string) : a +:+ b = a +:+ c -> b = c.
Proof.
  induction a as [|ch a IH]; intros H; [exact H|].
  change (String ch a +:+ b) with (String ch (a +:+ b)) in H.
  change (String ch a +:+ c) with (String ch (a +:+ c)) in H.
  injection H as H. auto.
Qed.

Lemma os_path_join_inj a b c :
  String.get 0 b <> Some "/"%char -> String.get 0 c <> Some "/"%char ->
  os_path_join a b = os_path_join a c -> b = c.
Proof.
  intros Hb Hc. unfold os_path_join.
  assert (Eb : forall X Y : string,
             match b with String "/" _ => X | _ => Y end = Y).
  { intros X Y. destruct b as [|ch b]; [reflexivity|].
    destruct (ascii_dec ch "/"%char) as [->|Hne]; [cbn in Hb; congruence|].
    destruct ch as [[] [] [] [] [] [] [] []]; try reflexivity. congruence. }
  assert (Ec : forall X Y : string,
             match c with String "/" _ => X | _ => Y end = Y).
  { intros X Y. destruct c as [|ch c]; [reflexivity|].
    destruct (ascii_dec ch "/"%char) as [->|Hne]; [cbn in Hc; congruence|].
    destruct ch as [[] [] [] [] [] [] [] []]; try reflexivity. congruence. }
  rewrite Eb, Ec.
  destruct (String.eqb a "" || endswith_char "/" a); intros H.
  - exact (append_inj_r _ _ _ H).
  - apply append_inj_r in H.
    change ("/" +:+ b) with (String "/" b) in H.
    change ("/" +:+ c) with (String "/" c) in H.
    congruence.
Qed.

Lemma NoDup_map_on {A B} (f : A -> B) (l : list A) :
  (forall x y, In x l -> In y l -> f x = f y -> x = y) ->
  List.NoDup l -> List.NoDup (map f l).
Proof.
  intros Hinj Hnd. induction Hnd as [|x l Hx Hnd IH]; cbn [map]; constructor.
  - intros Hin. apply in_map_iff in Hin as (y & Hxy & Hy).
    assert (y = x) by (apply Hinj; [right; exact Hy|left; reflexivity|exact Hxy]).
    subst y. exact (Hx Hy).
  - apply IH. intros a b Ha Hb. apply Hinj; right; assumption.
Qed.

Lemma joined_NoDup dir (fnames : list string) :
  Forall (λ f, String.get 0 f <> Some "/"%char) fnames ->
  List.NoDup fnames ->
  List.NoDup (map (os_path_join dir) fnames).
Proof.
  intros Hf Hnd. apply NoDup_map_on; [|exact Hnd].
  intros x y Hx Hy. rewrite List.Forall_forall in Hf.
  apply os_path_join_inj; auto.
Qed.

Lemma root_paths_NoDup output_dir :
  List.NoDup (map snd (root_paths output_dir)).
Proof.
  unfold root_paths. rewrite map_map. cbn [snd].
  apply joined_NoDup.
  - unfold ROOT_FILES. repeat constructor; cbn; discriminate.
  - unfold ROOT_FILES.
    repeat (constructor; [cbn; intuition discriminate|]). constructor.
Qed.

Lemma settings_paths_NoDup output_dir :
  List.NoDup (map snd (settings_paths output_dir)).
Proof.
  unfold settings_paths. rewrite map_map. cbn [snd].
  apply joined_NoDup.
  - unfold SETTINGS_FILES. repeat constructor; cbn; discriminate.
  - unfold SETTINGS_FILES.
    repeat (constructor; [cbn; intuition discriminate|]). constructor.
Qed.

Section SyncAgain.

Context {remote : Type} {dev : Device remote}.

Variable n0 : remote.
Variable card : EzShareCard.

Hypothesis Hunchanged : unchanged_remote n0.

(** With the local copies in step, the loop only probes and skips. *)
Lemma sync_loop_again files : forall downloaded skipped (w : @world remote),
  net w = n0 ->
  in_step n0 card (disk w) files ->
  exists evs skipped',
    forallb is_head evs = true
    /\ sync_loop card files downloaded skipped w
       = (Ok (downloaded, skipped'), mk_world n0 (disk w) (trace w ++ evs)).
Proof.
  induction files as [|[rp lp] files IH]; intros downloaded skipped w Hn Hstep.
  - exists [], skipped. split; [reflexivity|].
    rewrite app_nil_r. destruct w as [n d tr]. cbn in *. subst n. reflexivity.
  - apply Forall_cons_1 in Hstep as [(ex & size & Hcl & Hhas) Hstep].
    cbn [fst snd] in Hcl, Hhas.
    cbn [sync_loop]. rewrite prog_bind_run, is_real_file_run, Hn.
    destruct (Hunchanged (url_of card rp)) as [Hh _].
    destruct (http_head n0 (url_of card rp)) as [o n]. cbn [fst snd] in *.
    subst n. rewrite Hcl.
    set (w1 := mk_world n0 (disk w) (trace w ++ [EvHead (url_of card rp) o])).
    destruct ex; cbn [negb].
    + destruct (Hhas eq_refl) as (bs & Hl & Hlen).
      rewrite prog_bind_run. unfold same_size_on_disk.
      replace (disk w1 !! lp) with (Some bs) by (symmetry; exact Hl).
      rewrite Hlen, Z.eqb_refl.
      destruct (IH downloaded (skipped + 1) w1 eq_refl Hstep)
        as (evs & skipped' & Hheads & Hrun).
      exists (EvHead (url_of card rp) o :: evs), skipped'.
      split; [exact Hheads|]. rewrite Hrun. unfold w1. cbn [disk trace].
      rewrite <- app_assoc. reflexivity.
    + destruct (IH downloaded skipped w1 eq_refl Hstep)
        as (evs & skipped' & Hheads & Hrun).
      exists (EvHead (url_of card rp) o :: evs), skipped'.
      split; [exact Hheads|]. rewrite Hrun. unfold w1. cbn [disk trace].
      rewrite <- app_assoc. reflexivity.
Qed.

Lemma in_step_insert d files lp bs :
  ~ In lp (map snd files) ->
  in_step n0 card d files -> in_step n0 card (<[lp := bs]> d) files.
Proof.
  intros Hlp Hstep. unfold in_step in *.
  rewrite List.Forall_forall in *. intros f Hf.
  destruct (Hstep f Hf) as (ex & size & Hcl & Hhas).
  exists ex, size. split; [exact Hcl|].
  intros Hex. destruct (Hhas Hex) as (bs' & Hl & Hlen).
  exists bs'. split; [|exact Hlen].
  rewrite lookup_insert_ne; [exact Hl|].
  intros ->. apply Hlp. apply in_map. exact Hf.
Qed.

(** A run that returns leaves the local copies in step. *)
Lemma sync_loop_first files : forall done downloaded skipped (w : @world remote) r w1,
  List.NoDup (map snd (done ++ files)) ->
  serves_reported n0 card files ->
  net w = n0 ->
  in_step n0 card (disk w) done ->
  sync_loop card files downloaded skipped w = (Ok r, w1) ->
  net w1 = n0 /\ in_step n0 card (disk w1) (done ++ files).
Proof.
  induction files as [|[rp lp] files IH];
    intros done downloaded skipped w r w1 Hnd Hserve Hn Hstep Hrun.
  - cbn in Hrun. injection Hrun as _ <-. rewrite app_nil_r. auto.
  - assert (Hnd' : List.NoDup (map snd ((done ++ [(rp, lp)]) ++ files)))
      by (rewrite <- app_assoc; exact Hnd).
    assert (Hserve' : serves_reported n0 card files).
    { intros rp' lp' size Hin. apply (Hserve rp' lp' size). right. exact Hin. }
    assert (Hfresh : ~ In lp (map snd done)).
    { rewrite map_app in Hnd. cbn [map snd] in Hnd.
      apply NoDup_remove_2 in Hnd. intros Hin. apply Hnd.
      apply in_or_app. left. exact Hin. }
    replace (done ++ (rp, lp) :: files) with ((done ++ [(rp, lp)]) ++ files)
      by (rewrite <- app_assoc; reflexivity).
    cbn [sync_loop] in Hrun.
    rewrite prog_bind_run, is_real_file_run, Hn in Hrun.
    destruct (Hunchanged (url_of card rp)) as [Hh _].
    pose proof (Hserve rp lp) as Hs.
    destruct (http_head n0 (url_of card rp)) as [o n] eqn:Eh. cbn [fst snd] in *.
    subst n.
    destruct (classify_outcome o) as [[ex size]|e] eqn:Hcl; [|discriminate].
    set (wh := mk_world n0 (disk w) (trace w ++ [EvHead (url_of card rp) o]))
      in Hrun.
    destruct ex; cbn [negb] in Hrun.
    + rewrite prog_bind_run in Hrun. unfold same_size_on_disk in Hrun.
      cbn [disk wh] in Hrun.
      destruct (disk w !! lp) as [bs|] eqn:Hl.
      * destruct (Z.eqb_spec (Z.of_nat (length bs)) size) as [Hlen|Hne].
        -- refine (IH (done ++ [(rp, lp)]) _ _ _ _ _ Hnd' Hserve' _ _ Hrun);
             [reflexivity|].
           apply Forall_app. split; [exact Hstep|].
           constructor; [|constructor]. exists true, size.
           cbn [fst snd]. rewrite Eh. split; [exact Hcl|]. intros _. exists bs. auto.
        -- destruct (Hs size (or_introl eq_refl) eq_refl)
             as (resp & Hget & Hct & Hcomplete & Hlen).
           rewrite prog_bind_run, download_file_run in Hrun.
           destruct (Hunchanged (url_of card rp)) as [_ Hg].
           cbn [net wh] in Hrun.
           destruct (http_get n0 (url_of card rp)) as [og ng].
           cbn [fst snd] in *. subst og ng.
           rewrite Hct, Hcomplete in Hrun.
           refine (IH (done ++ [(rp, lp)]) _ _ _ _ _ Hnd' Hserve' _ _ Hrun);
             [reflexivity|].
           cbn [disk wh]. apply Forall_app. split.
           ++ apply in_step_insert; assumption.
           ++ constructor; [|constructor]. exists true, size.
              cbn [fst snd]. rewrite Eh. split; [exact Hcl|]. intros _.
              exists (get_body resp). rewrite lookup_insert_eq. auto.
      * destruct (Hs size (or_introl eq_refl) eq_refl)
          as (resp & Hget & Hct & Hcomplete & Hlen).
        rewrite prog_bind_run, download_file_run in Hrun.
        destruct (Hunchanged (url_of card rp)) as [_ Hg].
        cbn [net wh] in Hrun.
        destruct (http_get n0 (url_of card rp)) as [og ng].
        cbn [fst snd] in *. subst og ng.
        rewrite Hct, Hcomplete in Hrun.
        refine (IH (done ++ [(rp, lp)]) _ _ _ _ _ Hnd' Hserve' _ _ Hrun);
             [reflexivity|].
        cbn [disk wh]. apply Forall_app. split.
        -- apply in_step_insert; assumption.
        -- constructor; [|constructor]. exists true, size.
           cbn [fst snd]. rewrite Eh. split; [exact Hcl|]. intros _.
           exists (get_body resp). rewrite lookup_insert_eq. auto.
    + refine (IH (done ++ [(rp, lp)]) _ _ _ _ _ Hnd' Hserve' _ _ Hrun);
             [reflexivity|].
      apply Forall_app. split; [exact Hstep|].
      constructor; [|constructor]. exists false, size.
      cbn [fst snd]. rewrite Eh. split; [exact Hcl|]. discriminate.
Qed.

Lemma in_step_same_copies files d d' :
  same_copies files d d' -> in_step n0 card d files -> in_step n0 card d' files.
Proof.
  intros Hsame Hstep. unfold in_step in *.
  rewrite List.Forall_forall in *. intros f Hf.
  destruct (Hstep f Hf) as (ex & size & Hcl & Hhas).
  exists ex, size. split; [exact Hcl|].
  intros Hex. destruct (Hhas Hex) as (bs & Hl & Hlen).
  exists bs. rewrite (Hsame f Hf). auto.
Qed.

(** The loop run, and run again from a world that kept the local copies. *)
Lemma sync_loop_twice files (w w1 w' : @world remote) r :
  List.NoDup (map snd files) ->
  serves_reported n0 card files ->
  net w = n0 -> net w' = n0 ->
  sync_loop card files 0 0 w = (Ok r, w1) ->
  same_copies files (disk w1) (disk w') ->
  exists evs skipped',
    forallb is_head evs = true
    /\ sync_loop card files 0 0 w'
       = (Ok (0, skipped'), mk_world n0 (disk w') (trace w' ++ evs)).
Proof.
  intros Hnd Hserve Hn Hn' Hrun Hsame.
  destruct (sync_loop_first files [] 0 0 w r w1 Hnd Hserve Hn
              ltac:(constructor) Hrun) as [_ Hstep].
  cbn [app] in Hstep.
  apply (sync_loop_again files 0 0 w' Hn').
  exact (in_step_same_copies _ _ _ Hsame Hstep).
Qed.

End SyncAgain.

(** X23: on a card that no request changes and that serves each root
    file it reports whole, with the size reported, a run of
    [download_root_files] that returned is followed, as long as the local
    copies are kept, by runs that send HEAD requests only, write nothing and
    return 0; and so for [download_settings]. *)
Theorem unchanged_root_files_and_settings_are_skipped {remote : Type}
    {dev : Device remote} card output_dir (w w' : @world remote) :
  unchanged_remote (net w) ->
  net w' = net w ->
  (serves_reported (net w) card (root_paths output_dir) ->
   forall n,
     fst (download_root_files card output_dir w) = Ok n ->
     same_copies (root_paths output_dir)
       (disk (snd (download_root_files card output_dir w))) (disk w') ->
     fetches_nothing (download_root_files card output_dir) w')
  /\ (serves_reported (net w) card (settings_paths output_dir) ->
      forall n,
        fst (download_settings card output_dir w) = Ok n ->
        same_copies (settings_paths output_dir)
          (disk (snd (download_settings card output_dir w))) (disk w') ->
        fetches_nothing (download_settings card output_dir) w').
Proof.
  intros Hun Hn'. split; intros Hserve n Hrun Hsame.
  - rewrite download_root_files_run in Hrun, Hsame.
    destruct (sync_loop card (root_paths output_dir) 0 0 w) as [[r|e] w1] eqn:E;
      [|discriminate].
    cbn [fst snd] in Hsame.
    destruct (sync_loop_twice (net w) card Hun (root_paths output_dir) w w1 w' r
                (root_paths_NoDup output_dir) Hserve eq_refl Hn' E Hsame)
      as (evs & skipped' & Hheads & Hagain).
    exists evs. split; [exact Hheads|].
    rewrite download_root_files_run, Hagain, Hn'. reflexivity.
  - rewrite download_settings_run in Hrun, Hsame.
    destruct (sync_loop card (settings_paths output_dir) 0 0 w) as [[r|e] w1] eqn:E;
      [|discriminate].
    cbn [fst snd] in Hsame.
    destruct (sync_loop_twice (net w) card Hun (settings_paths output_dir) w w1 w' r
                (settings_paths_NoDup output_dir) Hserve eq_refl Hn' E Hsame)
      as (evs & skipped' & Hheads & Hagain).
    exists evs. split; [exact Hheads|].
    rewrite download_settings_run, Hagain, Hn'. reflexivity.
Qed.

Lemma two_files_device_serves files :
  serves_reported (dev := two_files_device) tt the_card files.
Proof.
  intros rp lp size _. unfold http_head, http_get, two_files_device, device_with.
  cbv [List.find fst snd].
  destruct (String.eqb "http://192.168.4.1/STR.edf" (url_of the_card rp)).
  - intros Hcl. vm_compute in Hcl. injection Hcl as <-.
    eexists. split; [reflexivity|]. vm_compute. repeat split.
  - destruct (String.eqb _ (url_of the_card rp)); intros Hcl; vm_compute in Hcl.
    + injection Hcl as <-.
      eexists. split; [reflexivity|]. vm_compute. repeat split.
    + discriminate.
Qed.

Lemma unchanged_root_files_and_settings_are_skipped_witness :
  fetches_nothing
    (download_root_files (dev := two_files_device) the_card "out")
    after_first_run
  /\ fetches_nothing
       (download_settings (dev := two_files_device) the_card "out")
       after_first_run.
Proof.
  destruct (unchanged_root_files_and_settings_are_skipped
              (dev := two_files_device) the_card "out" empty_world
              after_first_run) as [Hroot Hsettings].
  - intros url. split; reflexivity.
  - reflexivity.
  - split.
    + apply (Hroot (two_files_device_serves _) 1); [vm_compute; reflexivity|].
      intros f Hf. cbn in Hf.
      repeat destruct Hf as [<-|Hf]; [..|destruct Hf]; vm_compute; reflexivity.
    + apply (Hsettings (two_files_device_serves _) 1); [vm_compute; reflexivity|].
      intros f Hf. cbn in Hf.
      repeat destruct Hf as [<-|Hf]; [..|destruct Hf]; vm_compute; reflexivity.
Defined.
